(** * deepseek_ocr: the deployment pipeline script and the OCR client helpers

    Two programs of the repository are embedded here.

    - [Deploy]: [scripts/deploy-ocr-update.sh], the build / deploy /
      health-check pipeline.  The script is a straight-line sequence of
      commands with two polling loops; it runs under [set -e].  It is
      embedded as a function from the answers of the outside world (the
      process environment, the exit status and output of each external
      command) to the ordered list of observable events and the way the
      process ends.

    - [Lambda]: the helper module of the processing lambda ([getBaseUrl],
      [getDeepSeekHealth], [processBatch] and their private helpers),
      embedded the same way: from the environment and the answer of the
      HTTP client to the list of effects and a returned value or a thrown
      error. *)

From Stdlib Require Import ZArith NArith List String Ascii Bool Lia.
From Stdlib Require Import Decimal DecimalString DecimalN.
From stdpp Require Import base strings gmap.
Import ListNotations.

Local Open Scope string_scope.
Local Open Scope list_scope.

(** ** Text helpers shared by both programs *)

(** Decimal rendering of a non-negative integer, as the shell, [jq] and
    JavaScript template literals print it. *)
Definition dec (n : N) : string := NilZero.string_of_uint (N.to_uint n).

Definition nl : string := String (ascii_of_nat 10) EmptyString.

Definition is_nl (c : ascii) : bool := Ascii.eqb c (ascii_of_nat 10).
Definition not_nl (c : ascii) : bool := negb (is_nl c).
Definition is_slash (c : ascii) : bool := Ascii.eqb c "/"%char.

Fixpoint all_chars (p : ascii -> bool) (s : string) : bool :=
  match s with
  | EmptyString => true
  | String c s' => p c && all_chars p s'
  end.

(** [strip_trailing p s] removes the longest suffix of [s] whose characters
    all satisfy [p].  It is what the shell does to the trailing newlines of a
    command substitution, and what a leftmost search for the pattern
    [c+$] followed by a replacement with the empty string does: the first
    position from which only [p]-characters remain up to the end of the
    input is where the match starts. *)
Fixpoint strip_trailing (p : ascii -> bool) (s : string) : string :=
  match s with
  | EmptyString => EmptyString
  | String c s' =>
      if p c && all_chars p s' then EmptyString
      else String c (strip_trailing p s')
  end.

Fixpoint repeat_char (c : ascii) (k : nat) : string :=
  match k with
  | O => EmptyString
  | S k' => String c (repeat_char c k')
  end.

Module Deploy.

(** *** JSON documents, as far as [jq -r '.field'] looks into them

    The script reads two documents: the projection
    [{Status,Running,Desired,RolloutState}] of the first deployment of the
    service, and the body of [/health] (status, model_loaded, model_path,
    cuda_available, cuda_device_count).  Both are objects with scalar
    members, or [null] when the queried path does not exist. *)

Inductive scalar : Type :=
| JNull
| JBool (b : bool)
| JNum (n : N)
| JStr (s : string).

Inductive json : Type :=
| JScalar (v : scalar)
| JObject (members : list (string * scalar)).

(** Raw output ([-r]) of one scalar.  Numbers are the task counts and the
    device count, small non-negative integers, which [jq] prints in plain
    decimal. *)
Definition render (v : scalar) : string :=
  match v with
  | JNull => "null"
  | JBool true => "true"
  | JBool false => "false"
  | JNum n => dec n
  | JStr s => s
  end.

(** Member access; a repeated key keeps its last value, an absent key is
    [null]. *)
Fixpoint member (f : string) (members : list (string * scalar)) : scalar :=
  match members with
  | [] => JNull
  | (k, v) :: rest =>
      if existsb (fun kv => String.eqb (fst kv) f) rest then member f rest
      else if String.eqb k f then v
      else JNull
  end.

(** Outcome of an external command: its standard output, or a non-zero exit
    status. *)
Inductive Cmd (A : Type) : Type :=
| Done (out : A)
| Failed (status : positive).
Arguments Done {A} out.
Arguments Failed {A} status.

(** [jq -r '.f'] on one document: an object or [null] can be indexed, any
    other value is an error (exit status 5). *)
Definition jq_r (f : string) (doc : json) : Cmd string :=
  match doc with
  | JObject members => Done (render (member f members) +:+ nl)
  | JScalar JNull => Done ("null" +:+ nl)
  | JScalar _ => Failed 5
  end.

(** Command substitution drops the trailing newlines of the output. *)
Definition chomp (s : string) : string := strip_trailing is_nl s.

(** *** Observable events and the shell monad *)

Inductive Event : Type :=
| Echo (opts text : string)     (* [echo opts text], escapes left as written *)
| Run (argv : list string)      (* an external command or [cd] *)
| Sleep (seconds : Z).

(** How a piece of the script ends: it falls through to the next command,
    the process exits, or a polling loop was cut short by the iteration
    budget of the model ([Spin] is not a behaviour of the script). *)
Inductive Res (A : Type) : Type :=
| Next (a : A)
| Exit (status : Z)
| Spin.
Arguments Next {A} a.
Arguments Exit {A} status.
Arguments Spin {A}.

Record Sh (A : Type) : Type := mkSh { trace : list Event; res : Res A }.
Arguments mkSh {A} trace res.
Arguments trace {A} _.
Arguments res {A} _.

#[global] Instance sh_ret : MRet Sh := fun A a => mkSh [] (Next a).

#[global] Instance sh_bind : MBind Sh := fun A B f m =>
  match res m with
  | Next a => match f a with mkSh t r => mkSh (trace m ++ t)%list r end
  | Exit st => mkSh (trace m) (Exit st)
  | Spin => mkSh (trace m) Spin
  end.

Definition echo (opts text : string) : Sh unit := mkSh [Echo opts text] (Next tt).
Definition sleep (seconds : Z) : Sh unit := mkSh [Sleep seconds] (Next tt).
Definition exit {A} (status : Z) : Sh A := mkSh [] (Exit status).

(** A simple command under [set -e]: a non-zero status ends the script with
    that status. *)
Definition errexit {A} (r : Cmd A) : Res A :=
  match r with
  | Done a => Next a
  | Failed st => Exit (Z.pos st)
  end.

Definition run {A} (argv : list string) (r : Cmd A) : Sh A :=
  mkSh [Run argv] (errexit r).

(** [VAR=$(... | filter)]: the filter is local and leaves no event; the
    variable receives its output without the trailing newlines, and a
    non-zero status of the filter ends the script. *)
Definition capture (r : Cmd string) : Sh string :=
  mkSh [] (errexit (match r with Done out => Done (chomp out) | Failed st => Failed st end)).

(** Exit status of the process: the script falls off its end after a
    successful [echo]. *)
Definition exit_code {A} (r : Res A) : option Z :=
  match r with
  | Next _ => Some 0%Z
  | Exit st => Some st
  | Spin => None
  end.

(** *** The outside world

    Everything the script cannot decide by itself is an answer of the
    world: the environment, and for each external command whether it
    succeeds and what a command substitution captures from it.  The polls
    answer by position, the i-th poll of a loop receiving the i-th answer.
    [echo], [sleep] and the final cleanup ([rm -rf] of the directory the
    script made, [cd ..]) are taken to succeed. *)

Inductive Body : Type :=
| NoBody                 (* nothing on standard output *)
| NotJson                (* text that [jq] cannot parse *)
| Document (doc : json).

(** How [curl -s URL] ends: with an error of its own and the exit status
    given, having written what it had received of the body by then
    ([NoBody] when the transfer failed before any of it arrived, the text
    received when the transfer broke off later); or with a response, its
    HTTP status code and its body. *)
Inductive HttpOutcome : Type :=
| TransportError (status : positive) (received : Body)
| Response (code : N) (body : Body).

Record World : Type := {
  environ : gmap string string;
  cd_docker : Cmd unit;
  mktemp_d : Cmd string;
  zip_r : Cmd unit;
  s3_cp : Cmd unit;
  update_project : Cmd unit;
  start_build : Cmd string;
  batch_get_builds : nat -> Cmd string;     (* answer to the i-th status poll *)
  update_service : Cmd unit;
  describe_services : nat -> Cmd json;      (* answer to the i-th rollout poll *)
  health_get : HttpOutcome
}.

(** *** Configuration (lines 10-24 and 135) *)

(** [${NAME:-default}]: the default is used when the variable is unset or
    empty. *)
Definition param_default (env : gmap string string) (name default : string) : string :=
  match env !! name with
  | None => default
  | Some v => if String.eqb v EmptyString then default else v
  end.

Record Config : Type := {
  PROJECT_NAME : string;
  AWS_REGION : string;
  AWS_ACCOUNT_ID : string;
  AWS_PROFILE : string;
  S3_BUCKET : string;
  S3_KEY : string;
  ECS_CLUSTER : string;
  ECS_SERVICE : string
}.

Definition configuration (env : gmap string string) : Config := {|
  PROJECT_NAME := "deepseek-ocr-docker-build";
  AWS_REGION := param_default env "AWS_REGION" "us-east-1";
  AWS_ACCOUNT_ID := param_default env "AWS_ACCOUNT_ID" "098305555551";
  AWS_PROFILE := param_default env "AWS_PROFILE" "miketran+SA";
  S3_BUCKET := "dev-deepseek-ocr-files-bucket";
  S3_KEY := "codebuild-source/docker-source.zip";
  ECS_CLUSTER := "dev-deepseek-ocr-gpu-cluster";
  ECS_SERVICE := "dev-deepseek-ocr-gpu-service"
|}.

Definition GREEN : string := "\033[0;32m".
Definition YELLOW : string := "\033[1;33m".
Definition RED : string := "\033[0;31m".
Definition NC : string := "\033[0m".

Definition LOAD_BALANCER_URL : string :=
  "http://dev-deepseek-ocr-gpu-lb-1737323494.us-east-1.elb.amazonaws.com".

(** *** Step 5: wait for the build (lines 57-80) *)

Definition build_failure_status (s : string) : bool :=
  String.eqb s "FAILED" || String.eqb s "FAULT"
  || String.eqb s "TIMED_OUT" || String.eqb s "STOPPED".

(** [${BUILD_ID##*/}]: the longest prefix ending in a slash is removed. *)
Fixpoint after_last_slash_from (acc s : string) : string :=
  match s with
  | EmptyString => acc
  | String c s' =>
      if is_slash c then after_last_slash_from EmptyString s'
      else after_last_slash_from (acc +:+ String c EmptyString) s'
  end.
Definition after_last_slash (s : string) : string :=
  after_last_slash_from EmptyString s.

Definition batch_get_builds_argv (cfg : Config) (BUILD_ID : string) : list string :=
  ["aws"; "codebuild"; "batch-get-builds"; "--ids"; BUILD_ID;
   "--profile"; AWS_PROFILE cfg;
   "--query"; "builds[0].buildStatus"; "--output"; "text"].

(** [while true; do ... done]: [n] bounds the number of iterations the model
    follows, [tick] counts the polls already made. *)
Fixpoint wait_for_build (w : World) (cfg : Config) (BUILD_ID : string)
    (n tick : nat) : Sh unit :=
  match n with
  | O => mkSh [] Spin
  | S n' =>
      BUILD_STATUS ← run (batch_get_builds_argv cfg BUILD_ID) (batch_get_builds w tick);
      echo "-ne" ("\rBuild status: " +:+ BUILD_STATUS +:+ "    ");;
      if String.eqb BUILD_STATUS "SUCCEEDED" then
        echo "-e" ("\n" +:+ GREEN +:+ "✅ Build completed successfully!" +:+ NC)
      else if build_failure_status BUILD_STATUS then
        echo "-e" ("\n" +:+ RED +:+ "❌ Build failed with status: " +:+ BUILD_STATUS +:+ NC);;
        echo EmptyString ("Check the build logs: https://console.aws.amazon.com/codesuite/codebuild/projects/"
                 +:+ PROJECT_NAME cfg +:+ "/build/" +:+ after_last_slash BUILD_ID);;
        exit 1
      else
        sleep 10;;
        wait_for_build w cfg BUILD_ID n' (S tick)
  end.

(** *** Step 7: monitor the rollout (lines 94-131) *)

Definition MAX_WAIT_TIME : Z := 600.

(** Shell arithmetic is 64-bit two's complement. *)
Definition wrap64 (z : Z) : Z :=
  ((z + 2 ^ 63) mod 2 ^ 64 - 2 ^ 63)%Z.

Definition describe_services_argv (cfg : Config) : list string :=
  ["aws"; "ecs"; "describe-services"; "--cluster"; ECS_CLUSTER cfg;
   "--services"; ECS_SERVICE cfg; "--profile"; AWS_PROFILE cfg;
   "--query";
   "services[0].deployments[0].{Status:status,Running:runningCount,Desired:desiredCount,RolloutState:rolloutState}";
   "--output"; "json"].

(** The test of line 117 on the three shell variables. *)
Definition converged (ROLLOUT_STATE RUNNING_COUNT DESIRED_COUNT : string) : bool :=
  String.eqb ROLLOUT_STATE "COMPLETED"
  && String.eqb RUNNING_COUNT DESIRED_COUNT
  && negb (String.eqb DESIRED_COUNT "0").

(** Lines 104-123, one pass through the loop body up to the [sleep]: the
    result is the value of [DEPLOYMENT_COMPLETE] after the pass. *)
Definition monitor_tick (w : World) (cfg : Config) (tick : nat)
    (DEPLOYMENT_COMPLETE : bool) : Sh bool :=
  DEPLOYMENT_STATUS ← run (describe_services_argv cfg) (describe_services w tick);
  RUNNING_COUNT ← capture (jq_r "Running" DEPLOYMENT_STATUS);
  DESIRED_COUNT ← capture (jq_r "Desired" DEPLOYMENT_STATUS);
  ROLLOUT_STATE ← capture (jq_r "RolloutState" DEPLOYMENT_STATUS);
  echo "-ne" ("\rDeployment: Running=" +:+ RUNNING_COUNT +:+ " Desired=" +:+ DESIRED_COUNT
              +:+ " State=" +:+ ROLLOUT_STATE +:+ "    ");;
  if converged ROLLOUT_STATE RUNNING_COUNT DESIRED_COUNT then
    echo "-e" ("\n" +:+ GREEN +:+ "✅ Deployment completed successfully!" +:+ NC);;
    mret true
  else if String.eqb ROLLOUT_STATE "FAILED" then
    echo "-e" ("\n" +:+ RED +:+ "❌ Deployment failed!" +:+ NC);;
    exit 1
  else mret DEPLOYMENT_COMPLETE.

(** The loop of lines 103-127; it returns the final value of
    [DEPLOYMENT_COMPLETE].  [n] bounds the number of iterations the model
    follows, [tick] counts the polls already made. *)
Fixpoint monitor_deployment (w : World) (cfg : Config) (n tick : nat)
    (DEPLOYMENT_COMPLETE : bool) (ELAPSED_TIME : Z) : Sh bool :=
  if negb DEPLOYMENT_COMPLETE && (ELAPSED_TIME <? MAX_WAIT_TIME)%Z then
    match n with
    | O => mkSh [] Spin
    | S n' =>
        DEPLOYMENT_COMPLETE' ← monitor_tick w cfg tick DEPLOYMENT_COMPLETE;
        sleep 10;;
        monitor_deployment w cfg n' (S tick) DEPLOYMENT_COMPLETE' (wrap64 (ELAPSED_TIME + 10))
    end
  else mret DEPLOYMENT_COMPLETE.

(** *** Step 8: health check (lines 133-150) *)

(** What [curl -s URL] writes to the pipe: the response body whatever the
    HTTP status code is (no [-f]), and what it has received of the body
    when it ends with an error.  Its own exit status is not the status of
    the pipeline (no [pipefail]), so line 140 never sees it. *)
Definition curl_stdout (h : HttpOutcome) : Body :=
  match h with
  | TransportError _ received => received
  | Response _ body => body
  end.

(** [jq -r '.status' 2>/dev/null] on the piped text. *)
Definition jq_status (b : Body) : Cmd string :=
  match b with
  | NoBody => Done EmptyString
  | NotJson => Failed 2
  | Document doc => jq_r "status" doc
  end.

(** [pipeline || echo "failed"]. *)
Definition or_echo_failed (r : Cmd string) : string :=
  match r with
  | Done out => out
  | Failed _ => "failed" +:+ nl
  end.

Definition curl_health_argv : list string :=
  ["curl"; "-s"; LOAD_BALANCER_URL +:+ "/health"].

(** The value of [HEALTH_CHECK] after line 140. *)
Definition health_value (w : World) : string :=
  chomp (or_echo_failed (jq_status (curl_stdout (health_get w)))).

Definition health_check (w : World) : Sh unit :=
  echo "-e" ("\n" +:+ YELLOW +:+ "🏥 Step 8: Running health check..." +:+ NC);;
  sleep 30;;
  HEALTH_CHECK ← mkSh [Run curl_health_argv] (Next (health_value w));
  if String.eqb HEALTH_CHECK "healthy" then
    echo "-e" (GREEN +:+ "✅ Service is healthy!" +:+ NC);;
    echo "-e" ("\n" +:+ GREEN +:+ "🎉 Deployment completed successfully!" +:+ NC);;
    echo "-e" ("Service endpoint: " +:+ LOAD_BALANCER_URL)
  else
    echo "-e" (YELLOW +:+ "⚠️  Health check returned: " +:+ HEALTH_CHECK +:+ NC);;
    echo EmptyString "The service may still be starting up. Check the endpoint manually:";;
    echo EmptyString (LOAD_BALANCER_URL +:+ "/health").

(** *** The whole script *)

Definition update_service_argv (cfg : Config) : list string :=
  ["aws"; "ecs"; "update-service"; "--cluster"; ECS_CLUSTER cfg;
   "--service"; ECS_SERVICE cfg; "--force-new-deployment";
   "--profile"; AWS_PROFILE cfg;
   "--query"; "service.serviceName"; "--output"; "text"].

Definition timeout_warning : Event :=
  Echo "-e" ("\n" +:+ YELLOW
             +:+ "⚠️  Deployment is taking longer than expected. Check ECS console for details."
             +:+ NC).

(** Lines 129-163: the timeout warning, the health check, the cleanup and
    the summary. *)
Definition finish (w : World) (cfg : Config) (TEMP_DIR : string)
    (DEPLOYMENT_COMPLETE : bool) : Sh unit :=
  (if negb DEPLOYMENT_COMPLETE then mkSh [timeout_warning] (Next tt) else mret tt);;
  (* Step 8 *)
  health_check w;;
  (* Cleanup *)
  mkSh [Run ["rm"; "-rf"; TEMP_DIR]] (Next tt);;
  mkSh [Run ["cd"; ".."]] (Next tt);;
  echo "-e" ("\n" +:+ GREEN +:+ "📝 Summary:" +:+ NC);;
  echo EmptyString "- Docker image built and pushed to ECR";;
  echo EmptyString "- ECS service updated with new image";;
  echo EmptyString ("- Service endpoint: " +:+ LOAD_BALANCER_URL);;
  echo EmptyString EmptyString;;
  echo EmptyString "Next steps:";;
  echo EmptyString ("1. Test the OCR endpoint with: curl -X POST " +:+ LOAD_BALANCER_URL
           +:+ "/ocr/image -F 'file=@your_image.png'");;
  echo EmptyString ("2. Monitor logs: aws logs tail /aws/ecs/deepseek-ocr-gpu --profile "
           +:+ AWS_PROFILE cfg +:+ " --follow").

(** Lines 82-127: trigger the rollout and monitor it. *)
Definition deploy (w : World) (cfg : Config) (n : nat) : Sh bool :=
  (* Step 6 *)
  echo "-e" ("\n" +:+ YELLOW +:+ "🚀 Step 6: Updating ECS service with new image..." +:+ NC);;
  run (update_service_argv cfg) (update_service w);;
  echo "-e" (GREEN +:+ "✅ ECS service update initiated" +:+ NC);;
  (* Step 7 *)
  echo "-e" ("\n" +:+ YELLOW +:+ "📊 Step 7: Monitoring ECS deployment..." +:+ NC);;
  echo EmptyString "Waiting for new tasks to start...";;
  monitor_deployment w cfg n 0 false 0.

(** Lines 26-55: package the source, upload it and start the build; the
    result is [(TEMP_DIR, BUILD_ID)]. *)
Definition submit (w : World) (cfg : Config) : Sh (string * string) :=
  echo "-e" (GREEN +:+ "🚀 Starting DeepSeek OCR Deployment Pipeline" +:+ NC);;
  (* Step 1 *)
  echo "-e" ("\n" +:+ YELLOW +:+ "📦 Step 1: Preparing source code for upload..." +:+ NC);;
  run ["cd"; "docker"] (cd_docker w);;
  TEMP_DIR ← run ["mktemp"; "-d"] (mktemp_d w);
  run ["zip"; "-r"; TEMP_DIR +:+ "/docker-source.zip"; "."; "-x"; "*.git*"; "*.DS_Store"] (zip_r w);;
  (* Step 2 *)
  echo "-e" ("\n" +:+ YELLOW +:+ "📤 Step 2: Uploading source to S3..." +:+ NC);;
  run ["aws"; "s3"; "cp"; TEMP_DIR +:+ "/docker-source.zip";
       "s3://" +:+ S3_BUCKET cfg +:+ "/" +:+ S3_KEY cfg;
       "--profile"; AWS_PROFILE cfg] (s3_cp w);;
  (* Step 3 *)
  echo "-e" ("\n" +:+ YELLOW +:+ "🔧 Step 3: Updating CodeBuild project to use S3 source..." +:+ NC);;
  run ["aws"; "codebuild"; "update-project"; "--name"; PROJECT_NAME cfg;
       "--source"; "type=S3,location=" +:+ S3_BUCKET cfg +:+ "/" +:+ S3_KEY cfg;
       "--region"; AWS_REGION cfg; "--profile"; AWS_PROFILE cfg] (update_project w);;
  (* Step 4 *)
  echo "-e" ("\n" +:+ YELLOW +:+ "🔨 Step 4: Starting CodeBuild..." +:+ NC);;
  BUILD_ID ← run ["aws"; "codebuild"; "start-build"; "--project-name"; PROJECT_NAME cfg;
                  "--region"; AWS_REGION cfg; "--profile"; AWS_PROFILE cfg;
                  "--query"; "build.id"; "--output"; "text"] (start_build w);
  echo "-e" ("Build started: " +:+ BUILD_ID);;
  mret (TEMP_DIR, BUILD_ID).

(** The script, top to bottom.  [n] bounds the iterations followed in each
    polling loop. *)
Definition script (n : nat) (w : World) : Sh unit :=
  let cfg := configuration (environ w) in
  '(TEMP_DIR, BUILD_ID) ← submit w cfg;
  (* Step 5 *)
  echo "-e" ("\n" +:+ YELLOW +:+ "⏳ Step 5: Waiting for build to complete..." +:+ NC);;
  echo EmptyString "This typically takes 5-10 minutes for the Docker image build.";;
  wait_for_build w cfg BUILD_ID n 0;;
  DEPLOYMENT_COMPLETE ← deploy w cfg n;
  finish w cfg TEMP_DIR DEPLOYMENT_COMPLETE.

(** *** The typed view of a rollout poll and observers of a trace *)

Inductive RolloutState : Type := IN_PROGRESS | COMPLETED | FAILED.

Record DeploymentStatus : Type := {
  runningCount : N;
  desiredCount : N;
  rolloutState : RolloutState
}.

Definition rollout_name (r : RolloutState) : string :=
  match r with
  | IN_PROGRESS => "IN_PROGRESS"
  | COMPLETED => "COMPLETED"
  | FAILED => "FAILED"
  end.

(** The document [describe-services] prints under the query of line 108 for
    a deployment with the given status word and counts. *)
Definition describe_json (status : string) (d : DeploymentStatus) : json :=
  JObject [("Status", JStr status);
           ("Running", JNum (runningCount d));
           ("Desired", JNum (desiredCount d));
           ("RolloutState", JStr (rollout_name (rolloutState d)))].

(** Convergence in the words of the specification. *)
Definition convergent (d : DeploymentStatus) : Prop :=
  rolloutState d = COMPLETED /\ runningCount d = desiredCount d /\ (0 < desiredCount d)%N.

(** The progress line of line 115 and the two verdict lines, for a typed
    status. *)
Definition progress_line (d : DeploymentStatus) : Event :=
  Echo "-ne" ("\rDeployment: Running=" +:+ dec (runningCount d)
              +:+ " Desired=" +:+ dec (desiredCount d)
              +:+ " State=" +:+ rollout_name (rolloutState d) +:+ "    ").

Definition deployment_completed_line : Event :=
  Echo "-e" ("\n" +:+ GREEN +:+ "✅ Deployment completed successfully!" +:+ NC).

Definition deployment_failed_line : Event :=
  Echo "-e" ("\n" +:+ RED +:+ "❌ Deployment failed!" +:+ NC).

Definition build_terminal (s : string) : bool :=
  String.eqb s "SUCCEEDED" || build_failure_status s.

Fixpoint has_prefix (p l : list string) : bool :=
  match p, l with
  | [], _ => true
  | _ :: _, [] => false
  | x :: p', y :: l' => String.eqb x y && has_prefix p' l'
  end.

(** [is_run p e]: [e] runs a command whose argument vector starts with [p]. *)
Definition is_run (p : list string) (e : Event) : bool :=
  match e with
  | Run argv => has_prefix p argv
  | _ => false
  end.

Fixpoint count_events (p : Event -> bool) (t : list Event) : nat :=
  match t with
  | [] => O
  | e :: t' => (if p e then 1 else 0) + count_events p t'
  end.

(** Total time spent in [sleep]. *)
Fixpoint slept (t : list Event) : Z :=
  match t with
  | [] => 0
  | Sleep s :: t' => s + slept t'
  | _ :: t' => slept t'
  end.

(** The value following a time-limit option of curl, if there is one. *)
Fixpoint curl_time_limit (argv : list string) : option string :=
  match argv with
  | [] => None
  | o :: rest =>
      if String.eqb o "-m" || String.eqb o "--max-time" || String.eqb o "--connect-timeout"
      then head rest
      else curl_time_limit rest
  end.

(** Lines of output and groups of events that the statements below name. *)
Definition build_status_line (s : string) : Event :=
  Echo "-ne" ("\rBuild status: " +:+ s +:+ "    ").

Definition build_succeeded_line : Event :=
  Echo "-e" ("\n" +:+ GREEN +:+ "✅ Build completed successfully!" +:+ NC).

Definition build_failed_line (s : string) : Event :=
  Echo "-e" ("\n" +:+ RED +:+ "❌ Build failed with status: " +:+ s +:+ NC).

Definition build_logs_line (cfg : Config) (BUILD_ID : string) : Event :=
  Echo EmptyString
    ("Check the build logs: https://console.aws.amazon.com/codesuite/codebuild/projects/"
     +:+ PROJECT_NAME cfg +:+ "/build/" +:+ after_last_slash BUILD_ID).

Definition step5_banner : list Event :=
  [Echo "-e" ("\n" +:+ YELLOW +:+ "⏳ Step 5: Waiting for build to complete..." +:+ NC);
   Echo EmptyString "This typically takes 5-10 minutes for the Docker image build."].

Definition step6_events (cfg : Config) : list Event :=
  [Echo "-e" ("\n" +:+ YELLOW +:+ "🚀 Step 6: Updating ECS service with new image..." +:+ NC);
   Run (update_service_argv cfg);
   Echo "-e" (GREEN +:+ "✅ ECS service update initiated" +:+ NC);
   Echo "-e" ("\n" +:+ YELLOW +:+ "📊 Step 7: Monitoring ECS deployment..." +:+ NC);
   Echo EmptyString "Waiting for new tasks to start..."].

Definition step8_banner : Event :=
  Echo "-e" ("\n" +:+ YELLOW +:+ "🏥 Step 8: Running health check..." +:+ NC).

Definition healthy_lines : list Event :=
  [Echo "-e" (GREEN +:+ "✅ Service is healthy!" +:+ NC);
   Echo "-e" ("\n" +:+ GREEN +:+ "🎉 Deployment completed successfully!" +:+ NC);
   Echo "-e" ("Service endpoint: " +:+ LOAD_BALANCER_URL)].

Definition health_warning_lines (HEALTH_CHECK : string) : list Event :=
  [Echo "-e" (YELLOW +:+ "⚠️  Health check returned: " +:+ HEALTH_CHECK +:+ NC);
   Echo EmptyString "The service may still be starting up. Check the endpoint manually:";
   Echo EmptyString (LOAD_BALANCER_URL +:+ "/health")].

Definition summary_events (cfg : Config) (TEMP_DIR : string) : list Event :=
  [Run ["rm"; "-rf"; TEMP_DIR];
   Run ["cd"; ".."];
   Echo "-e" ("\n" +:+ GREEN +:+ "📝 Summary:" +:+ NC);
   Echo EmptyString "- Docker image built and pushed to ECR";
   Echo EmptyString "- ECS service updated with new image";
   Echo EmptyString ("- Service endpoint: " +:+ LOAD_BALANCER_URL);
   Echo EmptyString EmptyString;
   Echo EmptyString "Next steps:";
   Echo EmptyString ("1. Test the OCR endpoint with: curl -X POST " +:+ LOAD_BALANCER_URL
                     +:+ "/ocr/image -F 'file=@your_image.png'");
   Echo EmptyString ("2. Monitor logs: aws logs tail /aws/ecs/deepseek-ocr-gpu --profile "
                     +:+ AWS_PROFILE cfg +:+ " --follow")].

(** Steps 1 to 4 went through: the temporary directory is [T] and the build
    was started under the identifier [B]. *)
Definition submitted (w : World) (T B : string) : Prop :=
  cd_docker w = Done tt /\ mktemp_d w = Done T /\ zip_r w = Done tt
  /\ s3_cp w = Done tt /\ update_project w = Done tt /\ start_build w = Done B.

(** From poll number [tick] on, the first terminal build status is [s], seen
    after [k] polls that answered with a non-terminal status. *)
Definition first_terminal_from (w : World) (tick k : nat) (s : string) : Prop :=
  (forall i, i < k ->
     exists si, batch_get_builds w (tick + i) = Done si /\ build_terminal si = false)
  /\ batch_get_builds w (tick + k) = Done s
  /\ build_terminal s = true.

(** The rollout poll number [i] answers with a well-formed status that is
    neither convergent nor failed. *)
Definition keeps_polling (w : World) (i : nat) : Prop :=
  exists st d, describe_services w i = Done (describe_json st d)
               /\ ~ convergent d /\ rolloutState d <> FAILED.

Definition is_describe : Event -> bool := is_run ["aws"; "ecs"; "describe-services"].
Definition is_update_service : Event -> bool := is_run ["aws"; "ecs"; "update-service"].
Definition is_curl : Event -> bool := is_run ["curl"].

(** What the health request has written has no status member that can be
    read: no output, text that is not JSON (a body cut short among them), a
    JSON value that cannot be indexed, or an object whose [status] is absent
    or [null]. *)
Definition unreadable (h : HttpOutcome) : Prop :=
  match curl_stdout h with
  | NoBody => True
  | NotJson => True
  | Document (JScalar _) => True
  | Document (JObject members) => member "status" members = JNull
  end.

Definition is_2xx (h : HttpOutcome) : bool :=
  match h with
  | TransportError _ _ => false
  | Response code _ => (200 <=? code)%N && (code <? 300)%N
  end.

Definition is_health_warning (e : Event) : bool :=
  match e with
  | Echo _ text => String.prefix (YELLOW +:+ "⚠️  Health check returned: ") text
  | _ => false
  end.

Definition is_remote_call (e : Event) : bool := is_run ["aws"] e || is_run ["curl"] e.

(** *** Sample worlds *)

(** Every local step succeeds, the environment is empty; the three
    arguments are the answers to the build polls, to the rollout polls and
    to the health request. *)
Definition sample_world (build : nat -> Cmd string) (rollout : nat -> Cmd json)
    (health : HttpOutcome) : World := {|
  environ := ∅;
  cd_docker := Done tt;
  mktemp_d := Done "/tmp/tmp.Hq3vXk";
  zip_r := Done tt;
  s3_cp := Done tt;
  update_project := Done tt;
  start_build := Done "deepseek-ocr-docker-build:4b7e";
  batch_get_builds := build;
  update_service := Done tt;
  describe_services := rollout;
  health_get := health
|}.

Definition status_2_of_2 : DeploymentStatus :=
  {| runningCount := 2; desiredCount := 2; rolloutState := COMPLETED |}.

Definition status_0_of_0 : DeploymentStatus :=
  {| runningCount := 0; desiredCount := 0; rolloutState := COMPLETED |}.

Definition status_1_of_2 : DeploymentStatus :=
  {| runningCount := 1; desiredCount := 2; rolloutState := IN_PROGRESS |}.

Definition healthy_body : Body :=
  Document (JObject [("status", JStr "healthy"); ("model_loaded", JBool true)]).

(** The build succeeds at once, the rollout has converged at the first
    poll, the service answers healthy. *)
Definition world_smooth : World :=
  sample_world (fun _ => Done "SUCCEEDED")
               (fun _ => Done (describe_json "PRIMARY" status_2_of_2))
               (Response 200 healthy_body).

(** The build fails at the third poll. *)
Definition world_build_fails : World :=
  sample_world (fun i => Done (if Nat.ltb i 2 then "IN_PROGRESS" else "FAILED"))
               (fun _ => Done (describe_json "PRIMARY" status_2_of_2))
               (Response 200 healthy_body).

(** The rollout stays in progress for ever and the service cannot be
    reached. *)
Definition world_slow_rollout : World :=
  sample_world (fun _ => Done "SUCCEEDED")
               (fun _ => Done (describe_json "PRIMARY" status_1_of_2))
               (TransportError 7 NoBody).

(** The service answers 500 with a body that says healthy. *)
Definition world_http500_healthy : World :=
  sample_world (fun _ => Done "SUCCEEDED")
               (fun _ => Done (describe_json "PRIMARY" status_2_of_2))
               (Response 500 healthy_body).

(** The transfer of the health request ends with an error of curl after
    a body that says healthy has arrived. *)
Definition world_transfer_cut : World :=
  sample_world (fun _ => Done "SUCCEEDED")
               (fun _ => Done (describe_json "PRIMARY" status_2_of_2))
               (TransportError 18 healthy_body).

(** *** Further names used by statements *)

Definition is_start_build : Event -> bool := is_run ["aws"; "codebuild"; "start-build"].
Definition is_build_poll : Event -> bool := is_run ["aws"; "codebuild"; "batch-get-builds"].

(** The first [k] build polls answer with a status that is not terminal. *)
Definition build_pending_for (w : World) (k : nat) : Prop :=
  forall i, i < k ->
    exists si, batch_get_builds w i = Done si /\ build_terminal si = false.

(** The first [j] rollout polls are inconclusive. *)
Definition rollout_pending_for (w : World) (j : nat) : Prop :=
  forall i, i < j -> keeps_polling w i.

Definition is_echo (e : Event) : bool :=
  match e with Echo _ _ => true | _ => false end.

Definition is_sleep (e : Event) : bool :=
  match e with Sleep _ => true | _ => false end.

Definition has_slash (s : string) : bool := negb (all_chars (fun c => negb (is_slash c)) s).

Definition status_failed : DeploymentStatus :=
  {| runningCount := 0; desiredCount := 2; rolloutState := FAILED |}.

(** The rollout is in progress for two polls and has failed at the third. *)
Definition world_rollout_fails : World :=
  sample_world (fun _ => Done "SUCCEEDED")
               (fun i => Done (describe_json "PRIMARY"
                                 (if Nat.ltb i 2 then status_1_of_2 else status_failed)))
               (Response 200 healthy_body).

(** The rollout is in progress for two polls and has converged at the
    third; the build succeeds at its second poll. *)
Definition world_converges_third : World :=
  sample_world (fun i => Done (if Nat.ltb i 1 then "IN_PROGRESS" else "SUCCEEDED"))
               (fun i => Done (describe_json "PRIMARY"
                                 (if Nat.ltb i 2 then status_1_of_2 else status_2_of_2)))
               (Response 200 healthy_body).

(** The second build poll cannot reach the build service. *)
Definition world_build_poll_breaks : World :=
  sample_world (fun i => if Nat.ltb i 1 then Done "IN_PROGRESS" else Failed 255)
               (fun _ => Done (describe_json "PRIMARY" status_2_of_2))
               (Response 200 healthy_body).

(** The second rollout poll cannot reach the orchestration service. *)
Definition world_rollout_poll_breaks : World :=
  sample_world (fun _ => Done "SUCCEEDED")
               (fun i => if Nat.ltb i 1 then Done (describe_json "PRIMARY" status_1_of_2)
                         else Failed 254)
               (Response 200 healthy_body).

End Deploy.

Module Lambda.

(** *** Values *)

Record OcrResponse : Type := {
  success : bool;
  result : option string;
  error : option string;
  page_count : option N
}.

Record BatchOcrResponse : Type := {
  batch_success : bool;
  batch_results : list OcrResponse;
  total_pages : N;
  batch_filename : string
}.

Record MixedBatchItem : Type := {
  item_filename : string;
  item_result : OcrResponse + BatchOcrResponse
}.

Record MixedBatchResponse : Type := {
  mixed_success : bool;
  results : list MixedBatchItem
}.

Record HealthResponse : Type := {
  status : string;
  model_loaded : bool;
  model_path : string;
  cuda_available : bool;
  cuda_device_count : N
}.

(** One element of the [files] argument of [processBatch]. *)
Record File : Type := {
  buffer : list Byte.byte;
  filename : string;
  contentType : string
}.

(** A multipart form is the ordered list of what was appended to it. *)
Inductive Part : Type :=
| FilePart (field : string) (data : list Byte.byte) (name type : string)
| TextPart (field value : string).

Definition FormData : Type := list Part.

(** What can be thrown or rejected: an [Error], an axios error (response
    status, response data when it is a string, message), or a value that is
    not an [Error]. *)
Inductive Thrown : Type :=
| Error (message : string)
| AxiosError (status : option N) (data : option string) (message : string)
| NotAnError.

Inductive Reply (A : Type) : Type :=
| Resolved (data : A)
| Rejected (e : Thrown).
Arguments Resolved {A} data.
Arguments Rejected {A} e.

(** *** Effects and the monad of the helpers *)

Inductive Effect : Type :=
| EnvRead (name : string)
| ConsoleLog (message : string)
| ConsoleError (message : string) (detail : Thrown)
| AxiosGet (url : string) (timeout_ms : N)
| AxiosPost (url : string) (form : FormData) (timeout_ms : N).

Inductive Outcome (A : Type) : Type :=
| Return (a : A)
| Throw (e : Thrown).
Arguments Return {A} a.
Arguments Throw {A} e.

Record Js (A : Type) : Type := mkJs { effects : list Effect; outcome : Outcome A }.
Arguments mkJs {A} effects outcome.
Arguments effects {A} _.
Arguments outcome {A} _.

#[global] Instance js_ret : MRet Js := fun A a => mkJs [] (Return a).

#[global] Instance js_bind : MBind Js := fun A B f m =>
  match outcome m with
  | Return a => match f a with mkJs t r => mkJs (effects m ++ t)%list r end
  | Throw e => mkJs (effects m) (Throw e)
  end.

Definition throw {A} (e : Thrown) : Js A := mkJs [] (Throw e).
Definition console_log (message : string) : Js unit := mkJs [ConsoleLog message] (Return tt).
Definition when (b : bool) (m : Js unit) : Js unit := if b then m else mret tt.

Record World : Type := {
  env : gmap string string;                                   (* process.env *)
  get_health : string -> Reply HealthResponse;                (* GET url *)
  post_batch : string -> FormData -> Reply MixedBatchResponse (* POST url form *)
}.

(** *** [getBaseUrl] (lines 31-39) *)

Definition starts_with (p s : string) : bool := String.prefix p s.

Definition getBaseUrl (w : World) : Js string :=
  raw ← mkJs [EnvRead "ALB_URL"] (Return (env w !! "ALB_URL"));
  match raw with
  | None => throw (Error "ALB_URL environment variable is not set")
  | Some raw =>
      if String.eqb raw EmptyString then
        throw (Error "ALB_URL environment variable is not set")
      else
        mret (if starts_with "http://" raw || starts_with "https://" raw
              then strip_trailing is_slash raw
              else "http://" +:+ strip_trailing is_slash raw)
  end.

Definition DEFAULT_TIMEOUT_MS : N := 600000.

(** *** [handleAxiosError] (lines 79-98) *)

Definition handleAxiosError {A} (e : Thrown) : Js A :=
  match e with
  | AxiosError status data message =>
      mkJs [ConsoleError "DeepSeek OCR request failed" e] (Return tt);;
      throw (Error ("DeepSeek OCR request failed"
                    +:+ match status with
                        | Some st => if (st =? 0)%N then EmptyString
                                     else " (status " +:+ dec st +:+ ")"
                        | None => EmptyString
                        end
                    +:+ ": "
                    +:+ match data with Some d => d | None => message end))
  | Error _ =>
      mkJs [ConsoleError "DeepSeek OCR unknown error:" e] (Return tt);;
      throw e
  | NotAnError =>
      mkJs [ConsoleError "DeepSeek OCR unknown error:" e] (Return tt);;
      throw (Error "Unknown DeepSeek OCR error")
  end.

(** [try { await request } catch (error) { return handleAxiosError(error) }] *)
Definition request {A} (e : Effect) (r : Reply A) : Js (Reply A) :=
  mkJs [e] (Return r).

(** *** [getDeepSeekHealth] (lines 142-154) *)

Definition getDeepSeekHealth (w : World) : Js HealthResponse :=
  baseUrl ← getBaseUrl w;
  response ← request (AxiosGet (baseUrl +:+ "/health") 10000)
                     (get_health w (baseUrl +:+ "/health"));
  match response with
  | Resolved data => mret data
  | Rejected error => handleAxiosError error
  end.

(** *** [processBatch] (lines 327-400) *)

Definition includes (needle s : string) : bool :=
  match String.index 0 needle s with
  | Some _ => true
  | None => false
  end.

Section ProcessBatch.

(** JavaScript numbers enter only through their [toString()]. *)
Variable number : Type.
Variable toString : number -> string.

Definition interpolate (x : option number) : string :=
  match x with
  | None => "undefined"
  | Some v => toString v
  end.

Definition is_defined (x : option number) : bool :=
  match x with Some _ => true | None => false end.

(** [for (const f of files) { console.log(...); formData.append('files', ...) }] *)
Fixpoint append_files (files : list File) (formData : FormData) : Js FormData :=
  match files with
  | [] => mret formData
  | f :: rest =>
      console_log ("[helpers.ts] Adding file: " +:+ filename f +:+ ", size: "
                   +:+ dec (N.of_nat (length (buffer f))) +:+ " bytes, type: "
                   +:+ contentType f);;
      append_files rest
        (formData ++ [FilePart "files" (buffer f) (filename f) (contentType f)])%list
  end.

Definition append_number (field : string) (x : option number) (formData : FormData) : FormData :=
  match x with
  | Some v => (formData ++ [TextPart field (toString v)])%list
  | None => formData
  end.

(** Lines 340-379 of [processBatch]: the prompt is normalised, the progress
    lines are logged and the form is filled. *)
Definition batch_form (files : list File) (prompt : string) (grounded : bool)
    (temperature top_p max_tokens : option number) : Js FormData :=
  let formData : FormData := [] in
  let normalizedPrompt :=
    if includes "<image>" prompt then prompt else "<image>" +:+ prompt in
  normalizedPrompt ←
    (if grounded then
       console_log "[helpers.ts] Grounded OCR mode enabled for batch";;
       mret ("<|grounding|>" +:+ normalizedPrompt)
     else mret normalizedPrompt);
  console_log ("[helpers.ts] Processing batch of " +:+ dec (N.of_nat (length files))
               +:+ " files with prompt: " +:+ normalizedPrompt);;
  console_log ("[helpers.ts] Grounded mode: " +:+ (if grounded then "true" else "false"));;
  when (is_defined temperature || is_defined top_p || is_defined max_tokens)
    (console_log ("[helpers.ts] Sampling params - temperature: " +:+ interpolate temperature
                  +:+ ", top_p: " +:+ interpolate top_p
                  +:+ ", max_tokens: " +:+ interpolate max_tokens));;
  formData ← append_files files formData;
  let formData := (formData ++ [TextPart "prompt" normalizedPrompt])%list in
  let formData := append_number "temperature" temperature formData in
  let formData := append_number "top_p" top_p formData in
  let formData := append_number "max_tokens" max_tokens formData in
  mret formData.

Definition processBatch (w : World) (files : list File) (prompt : option string)
    (grounded : option bool) (temperature top_p max_tokens : option number)
    : Js MixedBatchResponse :=
  let prompt := default "<image>" prompt in
  let grounded := default false grounded in
  if Nat.eqb (length files) 0 then
    throw (Error "No files provided for batch processing")
  else
    baseUrl ← getBaseUrl w;
    formData ← batch_form files prompt grounded temperature top_p max_tokens;
    response ← request (AxiosPost (baseUrl +:+ "/ocr/batch") formData DEFAULT_TIMEOUT_MS)
                       (post_batch w (baseUrl +:+ "/ocr/batch") formData);
    match response with
    | Resolved data =>
        console_log ("[helpers.ts] Batch OCR response received, files processed: "
                     +:+ dec (N.of_nat (length (results data))));;
        mret data
    | Rejected error => handleAxiosError error
    end.

End ProcessBatch.

(** *** The single-file helpers and the ping (lines 100-135, 159-308) *)

(** The OCR server as the single-file helpers and the ping see it. *)
Record Backend : Type := {
  post_image : string -> FormData -> Reply OcrResponse;      (* POST url form *)
  post_pdf : string -> FormData -> Reply BatchOcrResponse;   (* POST url form *)
  get_root : string -> Reply string                          (* GET url *)
}.

Section SingleFile.

Variable number : Type.
Variable toString : number -> string.

(** [JSON.stringify] of a response enters only through the text it gives. *)
Variable stringify : OcrResponse -> string.

(** [createFormDataWithFile]: the file first, then the prompt when it is not
    empty, then the sampling parameters that are defined. *)
Definition createFormDataWithFile (fieldName : string) (data : list Byte.byte)
    (name type : string) (prompt : option string)
    (temperature top_p max_tokens : option number) : FormData :=
  let formData : FormData := [] in
  let formData := formData ++ [FilePart fieldName data name type] in
  let formData :=
    match prompt with
    | Some p => if String.eqb p EmptyString then formData
                else formData ++ [TextPart "prompt" p]
    | None => formData
    end in
  let formData := append_number number toString "temperature" temperature formData in
  let formData := append_number number toString "top_p" top_p formData in
  let formData := append_number number toString "max_tokens" max_tokens formData in
  formData.

Definition processImage (w : World) (o : Backend) (imageBuffer : list Byte.byte)
    (prompt : option string) (grounded : option bool)
    (temperature top_p max_tokens : option number) : Js OcrResponse :=
  let prompt := default "<image>" prompt in
  let grounded := default false grounded in
  baseUrl ← getBaseUrl w;
  let normalizedPrompt :=
    if includes "<image>" prompt then prompt else "<image>" +:+ prompt in
  normalizedPrompt ←
    (if grounded then
       console_log "[helpers.ts] Grounded OCR mode enabled";;
       mret ("<|grounding|>" +:+ normalizedPrompt)
     else mret normalizedPrompt);
  console_log ("[helpers.ts] Processing image with prompt: " +:+ normalizedPrompt);;
  console_log ("[helpers.ts] Image buffer size: " +:+ dec (N.of_nat (length imageBuffer))
               +:+ " bytes");;
  console_log ("[helpers.ts] Grounded mode: " +:+ (if grounded then "true" else "false"));;
  when (is_defined number temperature || is_defined number top_p
        || is_defined number max_tokens)
    (console_log ("[helpers.ts] Sampling params - temperature: "
                  +:+ interpolate number toString temperature
                  +:+ ", top_p: " +:+ interpolate number toString top_p
                  +:+ ", max_tokens: " +:+ interpolate number toString max_tokens));;
  let formData :=
    createFormDataWithFile "file" imageBuffer "image.jpg" "image/jpeg"
      (Some normalizedPrompt) temperature top_p max_tokens in
  response ← request (AxiosPost (baseUrl +:+ "/ocr/image") formData DEFAULT_TIMEOUT_MS)
                     (post_image o (baseUrl +:+ "/ocr/image") formData);
  match response with
  | Resolved data =>
      console_log ("[helpers.ts] Image OCR response received: "
                   +:+ String.substring 0 200 (stringify data) +:+ "...");;
      mret data
  | Rejected error => handleAxiosError error
  end.

Definition processPdf (w : World) (o : Backend) (pdfBuffer : list Byte.byte)
    (prompt : option string) (grounded : option bool)
    (temperature top_p max_tokens : option number) : Js BatchOcrResponse :=
  let prompt := default "<image>" prompt in
  let grounded := default false grounded in
  baseUrl ← getBaseUrl w;
  let normalizedPrompt :=
    if includes "<image>" prompt then prompt else "<image>" +:+ prompt in
  normalizedPrompt ←
    (if grounded then
       console_log "[helpers.ts] Grounded OCR mode enabled";;
       mret ("<|grounding|>" +:+ normalizedPrompt)
     else mret normalizedPrompt);
  console_log ("[helpers.ts] Processing PDF with prompt: " +:+ normalizedPrompt);;
  console_log ("[helpers.ts] PDF buffer size: " +:+ dec (N.of_nat (length pdfBuffer))
               +:+ " bytes");;
  console_log ("[helpers.ts] Grounded mode: " +:+ (if grounded then "true" else "false"));;
  when (is_defined number temperature || is_defined number top_p
        || is_defined number max_tokens)
    (console_log ("[helpers.ts] Sampling params - temperature: "
                  +:+ interpolate number toString temperature
                  +:+ ", top_p: " +:+ interpolate number toString top_p
                  +:+ ", max_tokens: " +:+ interpolate number toString max_tokens));;
  let formData :=
    createFormDataWithFile "file" pdfBuffer "document.pdf" "application/pdf"
      (Some normalizedPrompt) temperature top_p max_tokens in
  response ← request (AxiosPost (baseUrl +:+ "/ocr/pdf") formData DEFAULT_TIMEOUT_MS)
                     (post_pdf o (baseUrl +:+ "/ocr/pdf") formData);
  match response with
  | Resolved data =>
      console_log ("[helpers.ts] PDF OCR response received, pages: "
                   +:+ dec (total_pages data));;
      mret data
  | Rejected error => handleAxiosError error
  end.

End SingleFile.

(** [pingDeepSeek]: GET of the root with a timeout of 5000 ms. *)
Definition pingDeepSeek (w : World) (o : Backend) : Js string :=
  baseUrl ← getBaseUrl w;
  response ← request (AxiosGet (baseUrl +:+ "/") 5000) (get_root o (baseUrl +:+ "/"));
  match response with
  | Resolved data => mret data
  | Rejected error => handleAxiosError error
  end.

(** The message of the [Error] that [handleAxiosError] throws for an axios
    error, in the words of lines 89-93. *)
Definition axios_failure_message (status : option N) (data : option string)
    (message : string) : string :=
  "DeepSeek OCR request failed"
  +:+ match status with
      | Some st => if (st =? 0)%N then EmptyString else " (status " +:+ dec st +:+ ")"
      | None => EmptyString
      end
  +:+ ": " +:+ match data with Some d => d | None => message end.

(** The prompt the three OCR helpers put into the form: the default is
    ['<image>'], the tag is put in front of a prompt that lacks it, and the
    grounding tag in front of that when grounded mode is asked for. *)
Definition sent_prompt (prompt : option string) (grounded : option bool) : string :=
  let prompt := default "<image>" prompt in
  let normalizedPrompt :=
    if includes "<image>" prompt then prompt else "<image>" +:+ prompt in
  if default false grounded then "<|grounding|>" +:+ normalizedPrompt
  else normalizedPrompt.

(** The text parts of the sampling parameters that are defined, in the
    order in which every helper appends them. *)
Definition sampling_parts (number : Type) (toString : number -> string)
    (temperature top_p max_tokens : option number) : list Part :=
  append_number number toString "max_tokens" max_tokens
    (append_number number toString "top_p" top_p
       (append_number number toString "temperature" temperature [])).

Definition is_post (e : Effect) : bool :=
  match e with
  | AxiosPost _ _ _ => true
  | _ => false
  end.

Definition sample_backend : Backend := {|
  post_image := fun _ _ => Resolved {| success := true; result := Some "text";
                                       error := None; page_count := None |};
  post_pdf := fun _ _ => Rejected (AxiosError (Some 500%N) (Some "model crashed") "Request failed");
  get_root := fun _ => Rejected (Error "socket hang up")
|}.

(** *** Names used by the statements *)

Definition file_part (f : File) : Part :=
  FilePart "files" (buffer f) (filename f) (contentType f).

Definition is_text_part (p : Part) : bool :=
  match p with
  | TextPart _ _ => true
  | FilePart _ _ _ _ => false
  end.

(** A form that holds the given files, in order and under the field name
    [files], followed by text parts only. *)
Definition files_then_texts (files : list File) (form : FormData) : Prop :=
  exists texts, form = map file_part files ++ texts /\ forallb is_text_part texts = true.

Definition is_request (e : Effect) : bool :=
  match e with
  | AxiosGet _ _ | AxiosPost _ _ _ => true
  | _ => false
  end.

Definition adding_file_line (f : File) : Effect :=
  ConsoleLog ("[helpers.ts] Adding file: " +:+ filename f +:+ ", size: "
              +:+ dec (N.of_nat (length (buffer f))) +:+ " bytes, type: "
              +:+ contentType f).

Definition sample_file : File :=
  {| buffer := []; filename := "a.jpg"; contentType := "image/jpeg" |}.

Definition sample_world (alb : option string) : World := {|
  env := match alb with Some v => {[ "ALB_URL" := v ]} | None => ∅ end;
  get_health := fun _ => Rejected (AxiosError (Some 503%N) None "Request failed");
  post_batch := fun _ _ => Resolved {| mixed_success := true; results := [] |}
|}.

End Lambda.


(** ** Effects and exceptions, for the S3 service and the request handler *)

Module Eff.

Section Run.

Context {E X : Type}.

(** A computation ends by returning a value or by throwing one. *)
Inductive Outcome (A : Type) : Type :=
| Return (a : A)
| Throw (x : X).

Record Run (A : Type) : Type := mkRun { effects : list E; outcome : Outcome A }.

End Run.

Arguments Outcome : clear implicits.
Arguments Run : clear implicits.
Arguments Return {X A} a.
Arguments Throw {X A} x.
Arguments mkRun {E X A} effects outcome.
Arguments effects {E X A} _.
Arguments outcome {E X A} _.

#[global] Instance run_ret {E X} : MRet (Run E X) := fun A a => mkRun [] (Return a).

#[global] Instance run_bind {E X} : MBind (Run E X) := fun A B f m =>
  match outcome m with
  | Return a => match f a with mkRun t r => mkRun (effects m ++ t) r end
  | Throw x => mkRun (effects m) (Throw x)
  end.

Definition throw {E X A} (x : X) : Run E X A := mkRun [] (Throw x).
Definition emit {E X} (e : E) : Run E X unit := mkRun [e] (Return tt).

(** [try { m } catch (x) { h x }] *)
Definition catch {E X A} (m : Run E X A) (h : X -> Run E X A) : Run E X A :=
  match outcome m with
  | Return a => m
  | Throw x => match h x with mkRun t r => mkRun (effects m ++ t) r end
  end.

(** A computation of another layer, with its effects and its exceptions
    carried into this one. *)
Definition embed {E X E' X' A} (fe : E' -> E) (fx : X' -> X)
    (t : list E') (r : Outcome X' A) : Run E X A :=
  mkRun (map fe t)
        (match r with
         | Return a => Return a
         | Throw x => Throw (fx x)
         end).

(** [Promise.all] over calls that were all started, in order: every call
    runs; the result is the list of the values when none throws.  When
    several throw, which rejection the caller sees depends on timing; the
    model takes the first in list order. *)
Fixpoint all {E X A} (ms : list (Run E X A)) : Run E X (list A) :=
  match ms with
  | [] => mkRun [] (Return [])
  | m :: rest =>
      match all rest with
      | mkRun t r =>
          mkRun (effects m ++ t)
                (match outcome m, r with
                 | Throw x, _ => Throw x
                 | Return a, Return l => Return (a :: l)
                 | Return _, Throw x => Throw x
                 end)
      end
  end.

End Eff.

(** ** [shared/services/S3.ts]: reading an object *)

Module S3.
Import Eff.

Inductive S3ErrorType : Type :=
| FILE_NOT_FOUND
| PERMISSION_DENIED
| BUCKET_NOT_FOUND
| NETWORK_ERROR
| INVALID_INPUT
| UNKNOWN_ERROR.

(** What can be thrown: a falsy value ([undefined] among them), a value
    with its [name] and [message] properties (empty when it has none; an
    [Error] has the name 'Error', an exception of the SDK its code), or the
    service's own error with the error it wraps ([Falsy] when it wraps
    none). *)
Inductive Thrown : Type :=
| Falsy
| ErrorObj (name message : string)
| S3ServiceError (type : S3ErrorType) (message : string) (originalError : Thrown).

Definition name_of (e : Thrown) : string :=
  match e with
  | Falsy => EmptyString
  | ErrorObj name _ => name
  | S3ServiceError _ _ _ => "S3ServiceError"
  end.

Definition message_of (e : Thrown) : string :=
  match e with
  | Falsy => EmptyString
  | ErrorObj _ message => message
  | S3ServiceError _ message _ => message
  end.

(** [formatS3Error] (lines 40-64) *)
Definition formatS3Error (error : Thrown) : Thrown :=
  match error with
  | Falsy => S3ServiceError UNKNOWN_ERROR "Unknown error occurred" Falsy
  | _ =>
      let errorMessage :=
        if String.eqb (message_of error) EmptyString then "Unknown error occurred"
        else message_of error in
      if String.eqb (name_of error) "NoSuchKey" then
        S3ServiceError FILE_NOT_FOUND ("File not found: " +:+ errorMessage) error
      else if String.eqb (name_of error) "AccessDenied" then
        S3ServiceError PERMISSION_DENIED ("Access denied: " +:+ errorMessage) error
      else if String.eqb (name_of error) "NoSuchBucket" then
        S3ServiceError BUCKET_NOT_FOUND ("Bucket not found: " +:+ errorMessage) error
      else if String.eqb (name_of error) "NetworkError" then
        S3ServiceError NETWORK_ERROR ("Network error: " +:+ errorMessage) error
      else
        S3ServiceError UNKNOWN_ERROR errorMessage error
  end.

(** The body of an object: the chunks of its ['data'] events, closed by
    ['end'], or by ['error'] with the value given. *)
Record Stream : Type := {
  chunks : list (list Byte.byte);
  failure : option Thrown
}.

Record GetObjectCommandOutput : Type := {
  Body : option Stream;
  ContentType : option string
}.

Inductive Reply (A : Type) : Type :=
| Resolved (data : A)
| Rejected (e : Thrown).
Arguments Resolved {A} data.
Arguments Rejected {A} e.

Inductive Effect : Type :=
| SendGetObject (Bucket Key : string).

(** The answer of the S3 service to [GetObjectCommand]. *)
Record World : Type := {
  get_object : string -> string -> Reply GetObjectCommandOutput
}.

Definition Io : Type -> Type := Run Effect Thrown.

Definition send_get_object (w : World) (Bucket Key : string) : Io GetObjectCommandOutput :=
  mkRun [SendGetObject Bucket Key]
        (match get_object w Bucket Key with
         | Resolved data => Return data
         | Rejected e => Throw e
         end).

(** [validateInputs] (lines 67-75) *)
Definition validateInputs (bucketName key : string) : Io unit :=
  if String.eqb bucketName EmptyString then
    throw (S3ServiceError INVALID_INPUT "S3 bucket name is not configured" Falsy)
  else if String.eqb key EmptyString then
    throw (S3ServiceError INVALID_INPUT "File key is required" Falsy)
  else mret tt.

(** [getFile] (lines 177-190) *)
Definition getFile (w : World) (bucketName key : string) : Io GetObjectCommandOutput :=
  response ← send_get_object w bucketName key;
  match Body response with
  | None => throw (ErrorObj "Error" "Image data not found in the input bucket")
  | Some _ => mret response
  end.

(** The promise of lines 208-212: the chunks are concatenated at ['end'];
    an ['error'] rejects with the formatted error.  A response without a
    body does not come this far, [getFile] has thrown. *)
Definition read_stream (body : option Stream) : Io (list Byte.byte) :=
  match body with
  | None => throw (ErrorObj "TypeError" "Cannot read properties of undefined (reading 'on')")
  | Some responseStream =>
      match failure responseStream with
      | Some err => throw (formatS3Error err)
      | None => mret (concat (chunks responseStream))
      end
  end.

(** [getFileAsBuffer] (lines 198-216) *)
Definition getFileAsBuffer (w : World) (bucketName key : string) : Io (list Byte.byte) :=
  catch
    (validateInputs bucketName key;;
     response ← getFile w bucketName key;
     read_stream (Body response))
    (fun error => throw (formatS3Error error)).

Definition is_service_error (e : Thrown) : bool :=
  match e with
  | S3ServiceError _ _ _ => true
  | _ => false
  end.

Definition sample_stream : Stream :=
  {| chunks := [[Byte.x25; Byte.x50]; [Byte.x44; Byte.x46]]; failure := None |}.

Definition sample_world : World := {|
  get_object := fun _ key =>
    if String.eqb key "missing.png"
    then Rejected (ErrorObj "NoSuchKey" "The specified key does not exist.")
    else Resolved {| Body := Some sample_stream; ContentType := Some "application/pdf" |}
|}.

End S3.

(** ** [shared/services/S3.ts]: moving an object *)

Module S3Move.
Import Eff.

(** What the moves read of the answer to [GetObjectCommand]. *)
Record GetObjectCommandOutput : Type := {
  source_Metadata : option (list (string * string));
  source_ContentType : option string
}.

Record CopyObjectCommandInput : Type := {
  Bucket : string;
  Key : string;
  CopySource : string;
  Metadata : option (list (string * string));
  ContentType : option string;
  MetadataDirective : string
}.

Inductive Effect : Type :=
| SendGetObject (Bucket Key : string)
| SendCopyObject (input : CopyObjectCommandInput)
| SendDeleteObject (Bucket Key : string)
| GetSignedUrl (Bucket Key : string) (expiresIn : N)
| ConsoleWarn (message : string) (error : S3.Thrown).

(** The answers of the S3 service and of the presigner. *)
Record World : Type := {
  get_object : string -> string -> S3.Reply GetObjectCommandOutput;
  copy_object : CopyObjectCommandInput -> S3.Reply unit;
  delete_object : string -> string -> S3.Reply unit;
  get_signed_url : string -> string -> N -> S3.Reply string
}.

Definition Io : Type -> Type := Run Effect S3.Thrown.

(** [await s3Client.send(command)], [await getSignedUrl(...)] *)
Definition send {A} (e : Effect) (r : S3.Reply A) : Io A :=
  mkRun [e]
        (match r with
         | S3.Resolved a => Return a
         | S3.Rejected x => Throw x
         end).

Definition invalid_input {A} (message : string) : Io A :=
  throw (S3.S3ServiceError S3.INVALID_INPUT message S3.Falsy).

(** [validateInputs] (lines 67-75), which sends nothing. *)
Definition validateInputs (bucketName key : string) : Io unit :=
  mkRun [] (outcome (S3.validateInputs bucketName key)).

Record MoveResult : Type := {
  sourceKey : string;
  destinationKey : string;
  destinationUrl : string
}.

(** Lines 440-492 of [moveFileToBucket], and the same lines 538-590 of
    [moveFileToFolder]: the metadata of the source is read when it is to be
    preserved, a failure of that read being logged and passed over; then
    the object is copied, the source is deleted, and a URL for the copy is
    signed. *)
Definition copy_then_delete (w : World)
    (sourceBucketName sourceKey destinationBucketName destinationKey : string)
    (preserveMetadata : bool) : Io MoveResult :=
  sourceObject ←
    (if preserveMetadata then
       catch (sourceObject ← send (SendGetObject sourceBucketName sourceKey)
                                  (get_object w sourceBucketName sourceKey);
              mret (source_Metadata sourceObject, source_ContentType sourceObject))
             (fun error =>
                emit (ConsoleWarn "Could not retrieve source object metadata:" error);;
                mret (None, None))
     else mret (None, None));
  let copyCommand :=
    {| Bucket := destinationBucketName;
       Key := destinationKey;
       CopySource := sourceBucketName +:+ "/" +:+ sourceKey;
       Metadata := fst sourceObject;
       ContentType := snd sourceObject;
       MetadataDirective := if preserveMetadata then "REPLACE" else "COPY" |} in
  send (SendCopyObject copyCommand) (copy_object w copyCommand);;
  send (SendDeleteObject sourceBucketName sourceKey)
       (delete_object w sourceBucketName sourceKey);;
  destinationUrl ← send (GetSignedUrl destinationBucketName destinationKey 3600)
                        (get_signed_url w destinationBucketName destinationKey 3600);
  mret {| sourceKey := sourceKey;
          destinationKey := destinationKey;
          destinationUrl := destinationUrl |}.

(** [s.endsWith('/')] *)
Fixpoint ends_with_slash (s : string) : bool :=
  match s with
  | EmptyString => false
  | String c EmptyString => is_slash c
  | String _ s' => ends_with_slash s'
  end.

(** [x || y] on strings, [x] possibly [undefined]. *)
Definition or_else (x : option string) (y : string) : string :=
  match x with
  | Some v => if String.eqb v EmptyString then y else v
  | None => y
  end.

(** [moveFileToBucket] (lines 426-496) *)
Definition moveFileToBucket (w : World)
    (sourceBucketName sourceKey destinationBucketName : string)
    (destinationKey : option string) (preserveMetadata : option bool) : Io MoveResult :=
  let preserveMetadata := default true preserveMetadata in
  catch
    (validateInputs sourceBucketName sourceKey;;
     (if String.eqb destinationBucketName EmptyString then
        invalid_input "Destination bucket name is required"
      else mret tt);;
     let finalDestinationKey := or_else destinationKey sourceKey in
     copy_then_delete w sourceBucketName sourceKey destinationBucketName finalDestinationKey
       preserveMetadata)
    (fun error => throw (S3.formatS3Error error)).

(** [moveFileToFolder] (lines 507-595) *)
Definition moveFileToFolder (w : World)
    (bucketName sourceKey destinationFolder : string)
    (newFileName : option string) (preserveMetadata : option bool) : Io MoveResult :=
  let preserveMetadata := default true preserveMetadata in
  catch
    (validateInputs bucketName sourceKey;;
     (if String.eqb destinationFolder EmptyString then
        invalid_input "Destination folder is required"
      else mret tt);;
     let normalizedDestinationFolder :=
       if ends_with_slash destinationFolder then destinationFolder
       else destinationFolder +:+ "/" in
     let originalFileName := Deploy.after_last_slash sourceKey in
     let finalFileName := or_else newFileName originalFileName in
     (if String.eqb finalFileName EmptyString then
        invalid_input "Could not determine filename from source key"
      else mret tt);;
     let destinationKey := normalizedDestinationFolder +:+ finalFileName in
     (if String.eqb sourceKey destinationKey then
        invalid_input "Source and destination keys are identical"
      else mret tt);;
     copy_then_delete w bucketName sourceKey bucketName destinationKey preserveMetadata)
    (fun error => throw (S3.formatS3Error error)).

(** *** Names used by the statements *)

(** The name and the key that [moveFileToFolder] gives to the copy. *)
Definition moved_name (sourceKey : string) (newFileName : option string) : string :=
  or_else newFileName (Deploy.after_last_slash sourceKey).

Definition folder_destination (sourceKey destinationFolder : string)
    (newFileName : option string) : string :=
  (if ends_with_slash destinationFolder then destinationFolder
   else destinationFolder +:+ "/")
  +:+ moved_name sourceKey newFileName.

(** What the read of the metadata leaves in the log, and what it gives. *)
Definition metadata_effects (w : World) (sourceBucketName sourceKey : string)
    (preserveMetadata : bool) : list Effect :=
  if preserveMetadata then
    SendGetObject sourceBucketName sourceKey
    :: match get_object w sourceBucketName sourceKey with
       | S3.Resolved _ => []
       | S3.Rejected error =>
           [ConsoleWarn "Could not retrieve source object metadata:" error]
       end
  else [].

Definition read_metadata (w : World) (sourceBucketName sourceKey : string)
    (preserveMetadata : bool) : option (list (string * string)) * option string :=
  if preserveMetadata then
    match get_object w sourceBucketName sourceKey with
    | S3.Resolved sourceObject =>
        (source_Metadata sourceObject, source_ContentType sourceObject)
    | S3.Rejected _ => (None, None)
    end
  else (None, None).

Definition copy_command (w : World)
    (sourceBucketName sourceKey destinationBucketName destinationKey : string)
    (preserveMetadata : bool) : CopyObjectCommandInput :=
  {| Bucket := destinationBucketName;
     Key := destinationKey;
     CopySource := sourceBucketName +:+ "/" +:+ sourceKey;
     Metadata := fst (read_metadata w sourceBucketName sourceKey preserveMetadata);
     ContentType := snd (read_metadata w sourceBucketName sourceKey preserveMetadata);
     MetadataDirective := if preserveMetadata then "REPLACE" else "COPY" |}.

(** The events of a move from its copy on: the delete follows a copy that
    resolved, the signing a delete that resolved. *)
Definition copy_events (w : World)
    (sourceBucketName sourceKey destinationBucketName destinationKey : string)
    (preserveMetadata : bool) : list Effect :=
  let copyCommand := copy_command w sourceBucketName sourceKey destinationBucketName
                       destinationKey preserveMetadata in
  SendCopyObject copyCommand
  :: match copy_object w copyCommand with
     | S3.Rejected _ => []
     | S3.Resolved _ =>
         SendDeleteObject sourceBucketName sourceKey
         :: match delete_object w sourceBucketName sourceKey with
            | S3.Rejected _ => []
            | S3.Resolved _ => [GetSignedUrl destinationBucketName destinationKey 3600]
            end
     end.

(** The inputs with which a move gets as far as its first command. *)
Definition bucket_move_valid (sourceBucketName sourceKey destinationBucketName : string)
    : bool :=
  negb (String.eqb sourceBucketName EmptyString)
  && negb (String.eqb sourceKey EmptyString)
  && negb (String.eqb destinationBucketName EmptyString).

Definition folder_move_valid (bucketName sourceKey destinationFolder : string)
    (newFileName : option string) : bool :=
  negb (String.eqb bucketName EmptyString)
  && negb (String.eqb sourceKey EmptyString)
  && negb (String.eqb destinationFolder EmptyString)
  && negb (String.eqb (moved_name sourceKey newFileName) EmptyString)
  && negb (String.eqb sourceKey (folder_destination sourceKey destinationFolder newFileName)).

Definition is_delete (e : Effect) : bool :=
  match e with
  | SendDeleteObject _ _ => true
  | _ => false
  end.

Definition is_copy (e : Effect) : bool :=
  match e with
  | SendCopyObject _ => true
  | _ => false
  end.

Definition sample_world : World := {|
  get_object := fun _ _ =>
    S3.Rejected (S3.ErrorObj "AccessDenied" "Access Denied");
  copy_object := fun _ => S3.Resolved tt;
  delete_object := fun _ _ => S3.Resolved tt;
  get_signed_url := fun _ _ _ => S3.Rejected (S3.ErrorObj "Error" "Could not load credentials")
|}.

End S3Move.

(** ** The request handler of the processing lambda, with
    [shared/services/Errors.ts] and [getLambdaResponse] *)

Module Handler.
Import Eff.

(** What the handler can catch: the four error classes of [Errors.ts], the
    [SyntaxError] of [JSON.parse], the [TypeError] of a property or a method
    read where there is none (the body [null], a field [null], a key that is
    no string), and whatever the S3 service or the OCR helpers throw. *)
Inductive Thrown : Type :=
| ClientError (message : string) (statusCode : N)
| ServerError (message : string) (statusCode : N)
| NotFoundError (message : string)
| ValidationError (message : string)
| SyntaxError (message : string)
| TypeError (message : string)
| S3Failure (e : S3.Thrown)
| OcrFailure (e : Lambda.Thrown).

Record APIGatewayProxyResult : Type := {
  statusCode : N;
  headers : list (string * string);
  body : string
}.

(** What is handed to [JSON.stringify] for a response body. *)
Inductive Payload : Type :=
| ErrorPayload (error message : string)
| OcrPayload (r : Lambda.OcrResponse)
| PdfPayload (r : Lambda.BatchOcrResponse)
| BatchPayload (r : Lambda.MixedBatchResponse).

Record LambdaHandlerEvent : Type := { event_body : string }.

Inductive Effect : Type :=
| ConsoleLog (message : string)
| ConsoleError (label : string) (e : Thrown)
| S3Effect (e : S3.Effect)
| OcrEffect (e : Lambda.Effect).

(** [s.endsWith(suffix)] *)
Fixpoint ends_with (suffix s : string) : bool :=
  String.eqb suffix s
  || match s with
     | EmptyString => false
     | String _ s' => ends_with suffix s'
     end.

(** A field of a parsed body: JSON gives it as absent, as [null], or as a
    value. *)
Inductive Field (A : Type) : Type :=
| Absent
| Null
| Given (a : A).
Arguments Absent {A}.
Arguments Null {A}.
Arguments Given {A} a.

Definition is_null {A} (x : Field A) : bool :=
  match x with
  | Null => true
  | _ => false
  end.

(** A field as a helper receives it: [None] is [undefined], [Some None] is
    [null]. *)
Definition nullable {A} (x : Field A) : option (option A) :=
  match x with
  | Absent => None
  | Null => Some None
  | Given a => Some (Some a)
  end.

(** The [prompt] of a body: absent, a string, [null], or another value
    that has no [includes] to call (a number, a boolean, an object that is
    no array) with the text a template literal prints for it.  An array as
    prompt is not represented. *)
Inductive Prompt : Type :=
| NoPrompt
| PromptText (text : string)
| PromptNull
| PromptOther (shown : string).



(** The message of the [TypeError] of [prompt.includes(...)]. *)
Definition includes_error (p : Prompt) : string :=
  match p with
  | PromptOther _ => "prompt.includes is not a function"
  | _ => "Cannot read properties of null (reading 'includes')"
  end.

(** The [s3Key] of a body, as far as the handler tells values apart: a
    string, a falsy value that is no string ([undefined] and [null] among
    them), or a truthy value that is no string. *)
Inductive Key : Type :=
| NoKey
| KeyString (key : string)
| KeyNotString.

Definition truthy (s : Key) : bool :=
  match s with
  | NoKey => false
  | KeyString v => negb (String.eqb v EmptyString)
  | KeyNotString => true
  end.

(** The effects of a helper that come before its request. *)
Fixpoint before_request (t : list Lambda.Effect) : list Lambda.Effect :=
  match t with
  | [] => []
  | e :: t' => if Lambda.is_request e then [] else e :: before_request t'
  end.

Definition show_bool (b : bool) : string := if b then "true" else "false".

Definition generic_message : string :=
  "An unexpected error occurred. Please try again later.".

Section WithPrimitives.

(** JavaScript numbers enter through [toString()], JSON through
    [JSON.stringify] (compact, and indented by 2) and [JSON.parse], and
    [String.prototype.toLowerCase] is taken as it is. *)
Variable number : Type.
Variable toString : number -> string.
Variable stringify : Payload -> string.
Variable stringify_indented : Payload -> string.
Variable stringify_event : LambdaHandlerEvent -> string.
Variable toLowerCase : string -> string.

(** The [s3Keys] of a body, as far as the handler tells values apart: a
    falsy value ([undefined] among them), an array, or a truthy value that
    is no array.  The elements of an array are taken to be strings, as the
    callback of [map] declares them. *)
Inductive Keys : Type :=
| NoKeys
| KeyArray (keys : list string)
| NotAnArray.

Definition keys_truthy (k : Keys) : bool :=
  match k with
  | NoKeys => false
  | _ => true
  end.

(** The fields the handler destructures from the parsed body.  Of a
    sampling parameter the code asks nothing but its text, in a template
    literal and by [toString()]; every value but [null] has both, so
    [number] stands for any such value.  [grounded] is taken to be a
    boolean when the body has got it. *)
Record Request : Type := {
  s3Key : Key;
  s3Keys : Keys;
  prompt : Prompt;
  grounded : option bool;
  temperature : Field number;
  top_p : Field number;
  max_tokens : Field number
}.

(** [JSON.parse(event.body)]: a syntax error, [null], or a value whose
    fields can be read. *)
Inductive Parsed : Type :=
| ParseFailure (message : string)
| ParsedNull
| ParsedValue (r : Request).

Variable JSON_parse : string -> Parsed.

(** [errorHandler] ([Errors.ts], lines 35-91) *)
Definition errorHandler (error : Thrown) : APIGatewayProxyResult :=
  let headers := [("Access-Control-Allow-Origin", "*")] in
  match error with
  | NotFoundError message =>
      {| statusCode := 404; headers := headers;
         body := stringify (ErrorPayload "NotFound" message) |}
  | ValidationError message =>
      {| statusCode := 422; headers := headers;
         body := stringify (ErrorPayload "ValidationError" message) |}
  | ClientError message code =>
      {| statusCode := code; headers := headers;
         body := stringify (ErrorPayload "ClientError" message) |}
  | ServerError _ code =>
      {| statusCode := code; headers := headers;
         body := stringify (ErrorPayload "ServerError" generic_message) |}
  | _ =>
      {| statusCode := 500; headers := headers;
         body := stringify (ErrorPayload "InternalServerError" generic_message) |}
  end.

(** [getLambdaResponse] with its default status *)
Definition getLambdaResponse (payload : Payload) : APIGatewayProxyResult :=
  {| statusCode := 200;
     headers := [("Access-Control-Allow-Origin", "*"); ("Content-Type", "application/json")];
     body := stringify payload |}.

Definition M : Type -> Type := Run Effect Thrown.

Definition log (message : string) : M unit := emit (ConsoleLog message).

Definition s3 {A} (m : S3.Io A) : M A :=
  embed S3Effect S3Failure (effects m) (outcome m).

Definition ocr {A} (m : Lambda.Js A) : M A :=
  embed OcrEffect OcrFailure (Lambda.effects m)
        (match Lambda.outcome m with
         | Lambda.Return a => Return a
         | Lambda.Throw e => Throw e
         end).

Record World : Type := {
  s3_service : S3.World;
  lambda_world : Lambda.World;
  backend : Lambda.Backend
}.

(** [const FILES_BUCKET = process.env.FILES_BUCKET || ''] *)
Definition FILES_BUCKET (w : World) : string :=
  match Lambda.env (lambda_world w) !! "FILES_BUCKET" with
  | Some v => v
  | None => EmptyString
  end.

(** The object of lines 60-67: [key.split('/').pop() || key] is the text
    after the last slash, and the key itself when that text is empty. *)
Definition batch_file (key : string) (buffer : list Byte.byte) : Lambda.File :=
  let isPdf := ends_with ".pdf" (toLowerCase key) in
  let contentType := if isPdf then "application/pdf" else "image/jpeg" in
  {| Lambda.buffer := buffer;
     Lambda.filename :=
       (if String.eqb (Deploy.after_last_slash key) EmptyString then key
        else Deploy.after_last_slash key);
     Lambda.contentType := contentType |}.

(** The callback of [s3Keys.map] (lines 58-68). *)
Definition fetch_file (w : World) (key : string) : M Lambda.File :=
  buffer ← s3 (S3.getFileAsBuffer (s3_service w) (FILES_BUCKET w) key);
  mret (batch_file key buffer).

(** The text of a sampling parameter that is not [undefined]: what a
    template literal prints for it, and for a value what [toString()]
    gives. *)
Definition show_value (x : option number) : string :=
  match x with
  | Some v => toString v
  | None => "null"
  end.

(** [temperature !== undefined || top_p !== undefined || max_tokens !== undefined] *)
Definition sampling_defined (r : Request) : bool :=
  Lambda.is_defined (option number) (nullable (temperature r))
  || Lambda.is_defined (option number) (nullable (top_p r))
  || Lambda.is_defined (option number) (nullable (max_tokens r)).

Definition sampling_null (r : Request) : bool :=
  is_null (temperature r) || is_null (top_p r) || is_null (max_tokens r).

(** [prompt = '<image>'], [grounded = false]: the default stands in for an
    absent field, not for [null]. *)
Definition prompt_of (r : Request) : Prompt :=
  match prompt r with
  | NoPrompt => PromptText "<image>"
  | p => p
  end.
Definition grounded_of (r : Request) : bool := default false (grounded r).

(** [`${prompt}`] *)
Definition show_prompt (p : Prompt) : string :=
  match p with
  | PromptText text => text
  | PromptNull => "null"
  | PromptOther shown => shown
  | NoPrompt => "undefined"
  end.

(** A call of an OCR helper with the sampling parameters of the request.
    Up to the filling of the form a helper only compares a parameter with
    [undefined] and prints it, so a [null] passes these lines as a value
    that prints as 'null'.  The form is filled after the last of these
    lines and before the request, and there [toString()] is called on every
    parameter that is not [undefined] (lines 122-132 and 369-379): on
    [null] this throws a [TypeError], outside the [try] of the helper, and
    the request is not made.  A helper that has thrown before it fills the
    form (no ALB_URL, no file) has thrown that error. *)
Definition with_sampling {A} (r : Request)
    (helper : option (option number) -> option (option number) -> option (option number)
              -> Lambda.Js A) : M A :=
  let call := helper (nullable (temperature r)) (nullable (top_p r))
                     (nullable (max_tokens r)) in
  if sampling_null r && existsb Lambda.is_request (Lambda.effects call) then
    mkRun (map OcrEffect (before_request (Lambda.effects call)))
          (Throw (TypeError "Cannot read properties of null (reading 'toString')"))
  else ocr call.

(** A call of an OCR helper with the prompt of the request.  The first use
    of the prompt is [prompt.includes('<image>')], which follows the read
    of the base URL (lines 190-193, 259-262) and in [processBatch] the
    check for files before that (lines 335-343): on a prompt that is no
    string it throws a [TypeError]. *)
Definition with_prompt {A} (w : World) (r : Request) (no_files : bool)
    (helper : string -> M A) : M A :=
  match prompt_of r with
  | PromptText text => helper text
  | p =>
      if no_files then
        throw (OcrFailure (Lambda.Error "No files provided for batch processing"))
      else
        ocr (Lambda.getBaseUrl (lambda_world w));;
        throw (TypeError (includes_error p))
  end.

(** A call of an OCR helper with the prompt and the sampling parameters
    of the request. *)
Definition call_helper {A} (w : World) (r : Request) (no_files : bool)
    (helper : string -> option (option number) -> option (option number)
              -> option (option number) -> Lambda.Js A) : M A :=
  with_prompt w r no_files (fun text => with_sampling r (helper text)).

(** Lines 55-74: the batch branch. *)
Definition handle_batch (w : World) (r : Request) (keys : list string)
    : M APIGatewayProxyResult :=
  log ("Processing batch of " +:+ dec (N.of_nat (length keys)) +:+ " files");;
  files ← all (map (fetch_file w) keys);
  result ← call_helper w r (Nat.eqb (length files) 0) (fun text =>
              Lambda.processBatch (option number) show_value (lambda_world w) files
                (Some text) (Some (grounded_of r)));
  log ("Batch result: " +:+ stringify_indented (BatchPayload result));;
  mret (getLambdaResponse (BatchPayload result)).

Definition is_image_key (lowerKey : string) : bool :=
  ends_with ".jpg" lowerKey || ends_with ".jpeg" lowerKey
  || ends_with ".png" lowerKey || ends_with ".gif" lowerKey
  || ends_with ".webp" lowerKey.

(** Lines 100-115: the OCR call by file type. *)
Definition dispatch (w : World) (r : Request) (key : string) (buffer : list Byte.byte)
    : M Payload :=
  let lowerKey := toLowerCase key in
  if ends_with ".pdf" lowerKey then
    log "Processing as PDF...";;
    d ← call_helper w r false (fun text =>
           Lambda.processPdf (option number) show_value (lambda_world w) (backend w)
             buffer (Some text) (Some (grounded_of r)));
    mret (PdfPayload d)
  else if is_image_key lowerKey then
    log "Processing as image...";;
    d ← call_helper w r false (fun text =>
           Lambda.processImage (option number) show_value
             (fun d => stringify (OcrPayload d))
             (lambda_world w) (backend w) buffer (Some text) (Some (grounded_of r)));
    mret (OcrPayload d)
  else
    throw (ClientError
             ("Unsupported file type for " +:+ key
              +:+ ". Supported types: .pdf, .jpg, .jpeg, .png, .gif, .webp")
             400).

(** Lines 77-119: a single file.  On a truthy [s3Key] that is no string,
    [s3Key.toLowerCase()] of line 83 throws. *)
Definition handle_single (w : World) (r : Request) : M APIGatewayProxyResult :=
  if negb (truthy (s3Key r)) then
    throw (ClientError "s3Key is required for single file processing" 400)
  else
    match s3Key r with
    | KeyString key =>
        let lowerKey := toLowerCase key in
        log ("Processing file: " +:+ key);;
        log ("File type - PDF: " +:+ show_bool (ends_with ".pdf" lowerKey)
             +:+ ", Image: " +:+ show_bool (is_image_key lowerKey));;
        log ("Using prompt: " +:+ show_prompt (prompt_of r));;
        log ("Grounded mode: " +:+ show_bool (grounded_of r));;
        buffer ← s3 (S3.getFileAsBuffer (s3_service w) (FILES_BUCKET w) key);
        log ("Retrieved file from S3, size: " +:+ dec (N.of_nat (length buffer))
             +:+ " bytes");;
        result ← dispatch w r key buffer;
        log ("OCR result: " +:+ stringify_indented result);;
        mret (getLambdaResponse result)
    | _ => throw (TypeError "s3Key.toLowerCase is not a function")
    end.

(** [JSON.parse(event.body)] and the destructuring of lines 30-39. *)
Definition parse_body (event : LambdaHandlerEvent) : M Request :=
  match JSON_parse (event_body event) with
  | ParseFailure message => throw (SyntaxError message)
  | ParsedNull =>
      throw (TypeError "Cannot destructure property 's3Key' of 'body' as it is null.")
  | ParsedValue r => mret r
  end.

(** The body of the [try] block. *)
Definition handle (w : World) (event : LambdaHandlerEvent) : M APIGatewayProxyResult :=
  log ("Event: " +:+ stringify_event event);;
  r ← parse_body event;
  (if negb (truthy (s3Key r)) && negb (keys_truthy (s3Keys r)) then
     throw (ClientError "Required s3Key or s3Keys is missing" 400)
   else mret tt);;
  log ("Grounded OCR mode: " +:+ show_bool (grounded_of r));;
  (if sampling_defined r then
     log ("Sampling parameters - temperature: "
          +:+ Lambda.interpolate (option number) show_value (nullable (temperature r))
          +:+ ", top_p: "
          +:+ Lambda.interpolate (option number) show_value (nullable (top_p r))
          +:+ ", max_tokens: "
          +:+ Lambda.interpolate (option number) show_value (nullable (max_tokens r)))
   else mret tt);;
  match s3Keys r with
  | KeyArray keys => handle_batch w r keys
  | _ => handle_single w r
  end.

(** [handler] (lines 25-124 of the handler file) *)
Definition handler (w : World) (event : LambdaHandlerEvent) : M APIGatewayProxyResult :=
  catch (handle w event)
        (fun e => emit (ConsoleError "Handler error:" e);; mret (errorHandler e)).

End WithPrimitives.

Arguments ParseFailure {number} message.
Arguments ParsedNull {number}.
Arguments ParsedValue {number} r.
Arguments s3Key {number} _.
Arguments s3Keys {number} _.
Arguments prompt {number} _.
Arguments grounded {number} _.
Arguments temperature {number} _.
Arguments top_p {number} _.
Arguments max_tokens {number} _.
Arguments prompt_of {number} r.
Arguments grounded_of {number} r.
Arguments sampling_defined {number} r.
Arguments sampling_null {number} r.
Arguments with_sampling {number A} r helper.
Arguments with_prompt {number A} w r no_files helper.
Arguments call_helper {number A} w r no_files helper.
Arguments show_value {number} toString x.



(** What the handler answers when something that is no [ClientError] has
    been thrown. *)
Definition internal_error_response (stringify : Payload -> string) : APIGatewayProxyResult :=
  {| statusCode := 500;
     headers := [("Access-Control-Allow-Origin", "*")];
     body := stringify (ErrorPayload "InternalServerError" generic_message) |}.


(** The keys of a parsed request that the handler goes on to fetch: the
    elements of [s3Keys] when it is an array, else [s3Key] when it is truthy. *)
Definition requested_keys {number} (r : Request number) : list string :=
  match s3Keys r with
  | KeyArray keys => keys
  | _ => match s3Key r with
         | KeyString key => if String.eqb key EmptyString then [] else [key]
         | _ => []
         end
  end.


Definition is_result (p : Payload) : bool :=
  match p with
  | ErrorPayload _ _ => false
  | _ => true
  end.

(** The values [errorHandler] answers with the generic message. *)
Definition is_internal (x : Thrown) : bool :=
  match x with
  | SyntaxError _ | TypeError _ | S3Failure _ | OcrFailure _ => true
  | _ => false
  end.

Definition is_remote (e : Effect) : bool :=
  match e with
  | S3Effect _ => true
  | OcrEffect oe => Lambda.is_request oe
  | _ => false
  end.


Definition is_ocr_request (e : Effect) : bool :=
  match e with
  | OcrEffect oe => Lambda.is_request oe
  | _ => false
  end.

(** A world, a request and stand-ins for the primitives, to run the
    handler on. *)
Definition sample_lambda_world : Lambda.World := {|
  Lambda.env := <["FILES_BUCKET" := "files"]> {[ "ALB_URL" := "alb.internal" ]};
  Lambda.get_health := Lambda.get_health (Lambda.sample_world None);
  Lambda.post_batch := Lambda.post_batch (Lambda.sample_world None)
|}.

Definition sample_world : World := {|
  s3_service := S3.sample_world;
  lambda_world := sample_lambda_world;
  backend := Lambda.sample_backend
|}.

Definition sample_stringify (p : Payload) : string :=
  match p with
  | ErrorPayload error message => error +:+ ": " +:+ message
  | OcrPayload _ => "ocr"
  | PdfPayload _ => "pdf"
  | BatchPayload _ => "batch"
  end.

Definition sample_request (key : Key) (keys : Keys) : Request nat := {|
  s3Key := key; s3Keys := keys; prompt := NoPrompt; grounded := None;
  temperature := Absent; top_p := Given 1; max_tokens := Absent
|}.


Definition sample_event : LambdaHandlerEvent := {| event_body := "{}" |}.

Definition sample_handler (parsed : Parsed nat) : M APIGatewayProxyResult :=
  handler nat (fun _ => "1") sample_stringify sample_stringify event_body
          (fun s => s) (fun _ => parsed) sample_world sample_event.

End Handler.

(** ** Facts about the text helpers *)

Lemma all_chars_app p s t :
  all_chars p (s +:+ t) = all_chars p s && all_chars p t.
Proof.
  induction s as [|c s IH]; simpl; [reflexivity|].
  rewrite IH. apply andb_assoc.
Qed.

Lemma strip_trailing_all p s : all_chars p s = true -> strip_trailing p s = EmptyString.
Proof.
  destruct s as [|c s]; simpl; [reflexivity|].
  intros ->. reflexivity.
Qed.

(** Stripping after appending one more [p]-character changes nothing. *)
Lemma strip_trailing_snoc p s c :
  p c = true -> strip_trailing p (s +:+ String c EmptyString) = strip_trailing p s.
Proof.
  intros Hc. induction s as [|a s IH]; simpl.
  - rewrite Hc. reflexivity.
  - rewrite IH, all_chars_app. simpl. rewrite Hc, !andb_true_r. reflexivity.
Qed.

(** A text none of whose characters is stripped is left as it is. *)
Lemma strip_trailing_none p s :
  all_chars (fun c => negb (p c)) s = true -> strip_trailing p s = s.
Proof.
  induction s as [|a s IH]; simpl; [reflexivity|].
  intros [Ha Hs]%andb_true_iff.
  apply negb_true_iff in Ha. rewrite Ha. simpl. rewrite IH; auto.
Qed.

Lemma N_to_uint_nonnil n : N.to_uint n <> Nil.
Proof.
  destruct n as [|p]; simpl; [discriminate|]. apply DecimalPos.Unsigned.to_uint_nonnil.
Qed.

Lemma dec_inj a b : dec a = dec b -> a = b.
Proof.
  unfold dec. intros H.
  apply DecimalN.Unsigned.to_uint_inj.
  assert (E : Some (N.to_uint a) = Some (N.to_uint b)).
  { rewrite <- (NilZero.usu (N.to_uint a)) by apply N_to_uint_nonnil.
    rewrite <- (NilZero.usu (N.to_uint b)) by apply N_to_uint_nonnil.
    now rewrite H. }
  now injection E.
Qed.

Lemma dec_zero n : dec n = "0" <-> n = 0%N.
Proof.
  split.
  - intros H. apply dec_inj. exact H.
  - intros ->. reflexivity.
Qed.

Lemma digits_no_nl d : all_chars not_nl (NilEmpty.string_of_uint d) = true.
Proof. induction d; simpl; auto. Qed.

Lemma dec_no_nl n : all_chars not_nl (dec n) = true.
Proof.
  unfold dec, NilZero.string_of_uint.
  destruct (N.to_uint n); try apply digits_no_nl. reflexivity.
Qed.

(** A line without inner line breaks is captured as it is. *)
Lemma chomp_line s : all_chars not_nl s = true -> Deploy.chomp (s +:+ nl) = s.
Proof.
  intros H. unfold Deploy.chomp, nl.
  rewrite strip_trailing_snoc by reflexivity.
  apply strip_trailing_none. exact H.
Qed.

(** What [strip_trailing] returns is the input without a final run of
    [p]-characters, and it does not itself end with one. *)
Lemma strip_trailing_empty p s : strip_trailing p s = EmptyString -> all_chars p s = true.
Proof.
  destruct s as [|c s]; simpl; [reflexivity|].
  destruct (p c && all_chars p s); [reflexivity|discriminate].
Qed.

Lemma strip_trailing_decompose p s :
  exists t, s = strip_trailing p s +:+ t /\ all_chars p t = true.
Proof.
  induction s as [|c s (t & E & Ht)]; simpl.
  - exists EmptyString. split; reflexivity.
  - destruct (p c && all_chars p s) eqn:H.
    + exists (String c s). split; [reflexivity|exact H].
    + exists t. split; [|exact Ht].
      change (String c s = String c (strip_trailing p s +:+ t)). f_equal. exact E.
Qed.

Lemma strip_trailing_last p s :
  forall u c, strip_trailing p s = u +:+ String c EmptyString -> p c = false.
Proof.
  induction s as [|a s IH]; intros u c; simpl.
  - destruct u; discriminate.
  - destruct (p a && all_chars p s) eqn:H; [destruct u; discriminate|].
    destruct u as [|b u]; simpl; intros E; injection E as E1 E2.
    + subst a. apply strip_trailing_empty in E2. rewrite E2, andb_true_r in H. exact H.
    + apply (IH u). exact E2.
Qed.

Lemma all_slashes t : all_chars is_slash t = true -> t = repeat_char "/" (String.length t).
Proof.
  induction t as [|c t IH]; simpl; [reflexivity|].
  intros [Hc Ht]%andb_true_iff.
  apply Ascii.eqb_eq in Hc. subst c. rewrite <- IH by exact Ht. reflexivity.
Qed.

Module LambdaFacts.
Import Lambda.

Lemma bind_Return {A B} (m : Js A) (f : A -> Js B) a :
  outcome m = Return a -> m ≫= f = mkJs (effects m ++ effects (f a)) (outcome (f a)).
Proof.
  intros H. unfold mbind, js_bind. rewrite H. destruct (f a); reflexivity.
Qed.

Lemma bind_Throw {A B} (m : Js A) (f : A -> Js B) e :
  outcome m = Throw e -> m ≫= f = mkJs (effects m) (Throw e).
Proof. intros H. unfold mbind, js_bind. rewrite H. reflexivity. Qed.

(** [getBaseUrl] reads the environment once and does nothing else. *)
Lemma getBaseUrl_effects w : effects (getBaseUrl w) = [EnvRead "ALB_URL"].
Proof.
  unfold getBaseUrl. cbn.
  destruct (env w !! "ALB_URL") as [raw|]; [|reflexivity].
  destruct (String.eqb raw EmptyString); reflexivity.
Qed.

Lemma getBaseUrl_set w raw :
  env w !! "ALB_URL" = Some raw -> raw <> EmptyString ->
  outcome (getBaseUrl w) =
    Return (if starts_with "http://" raw || starts_with "https://" raw
            then strip_trailing is_slash raw
            else "http://" +:+ strip_trailing is_slash raw).
Proof.
  intros H Hne. unfold getBaseUrl. cbn. rewrite H.
  apply String.eqb_neq in Hne. rewrite Hne. reflexivity.
Qed.

(** C9.  [getBaseUrl] throws when ALB_URL is unset or empty.  Otherwise the
    value is split into a stem that does not end with a slash and a run of
    trailing slashes, and the result is the stem, with [http://] put in
    front exactly when the value starts with neither [http://] nor
    [https://]. *)
Theorem C9_getBaseUrl_normalises w :
  (env w !! "ALB_URL" = None \/ env w !! "ALB_URL" = Some EmptyString ->
   outcome (getBaseUrl w) = Throw (Error "ALB_URL environment variable is not set"))
  /\ (forall raw,
        env w !! "ALB_URL" = Some raw -> raw <> EmptyString ->
        exists stem k,
          raw = stem +:+ repeat_char "/" k
          /\ (forall u, stem <> u +:+ "/")
          /\ outcome (getBaseUrl w) =
               Return (if starts_with "http://" raw || starts_with "https://" raw
                       then stem
                       else "http://" +:+ stem)).
Proof.
  split.
  - intros [H|H]; unfold getBaseUrl; cbn; rewrite H; reflexivity.
  - intros raw H Hne.
    destruct (strip_trailing_decompose is_slash raw) as (t & E & Ht).
    exists (strip_trailing is_slash raw), (String.length t).
    split; [|split].
    + rewrite <- (all_slashes t Ht). exact E.
    + intros u Hu. apply strip_trailing_last in Hu. discriminate Hu.
    + apply getBaseUrl_set; assumption.
Qed.

Lemma C9_witness :
  outcome (getBaseUrl (sample_world None))
  = Throw (Error "ALB_URL environment variable is not set")
  /\ exists stem k,
       "my-alb.example.com//" = stem +:+ repeat_char "/" k
       /\ (forall u, stem <> u +:+ "/")
       /\ outcome (getBaseUrl (sample_world (Some "my-alb.example.com//")))
          = Return ("http://" +:+ stem).
Proof.
  split.
  - apply (proj1 (C9_getBaseUrl_normalises (sample_world None))). left. reflexivity.
  - apply (proj2 (C9_getBaseUrl_normalises (sample_world (Some "my-alb.example.com//")))
             "my-alb.example.com//"); [reflexivity|discriminate].
Defined.

(** [getDeepSeekHealth] makes one request, the GET of [/health] with a
    timeout of 10000 ms, right after reading the environment. *)
Lemma getDeepSeekHealth_request w baseUrl :
  outcome (getBaseUrl w) = Return baseUrl ->
  exists after,
    effects (getDeepSeekHealth w)
    = [EnvRead "ALB_URL"; AxiosGet (baseUrl +:+ "/health") 10000] ++ after
    /\ existsb is_request after = false.
Proof.
  intros Hb. unfold getDeepSeekHealth.
  rewrite (bind_Return _ _ baseUrl) by exact Hb.
  rewrite getBaseUrl_effects.
  rewrite (bind_Return (request _ _) _ (get_health w (baseUrl +:+ "/health"))) by reflexivity.
  cbn [effects outcome request].
  eexists. split; [reflexivity|].
  destruct (get_health w (baseUrl +:+ "/health")) as [data|[m|st d m|]]; reflexivity.
Qed.

Section ProcessBatchFacts.

Variable number : Type.
Variable toString : number -> string.

Lemma append_files_eq files :
  forall formData,
    append_files files formData =
      mkJs (map adding_file_line files) (Return (formData ++ map file_part files)).
Proof.
  induction files as [|f files IH]; intros formData; cbn [append_files map].
  - rewrite app_nil_r. reflexivity.
  - rewrite (bind_Return (console_log _) _ tt) by reflexivity.
    rewrite IH. cbn [effects outcome console_log app]. rewrite <- app_assoc. reflexivity.
Qed.

Lemma snoc_text_keeps files form field value :
  files_then_texts files form -> files_then_texts files (form ++ [TextPart field value]).
Proof.
  intros (texts & -> & Ht). exists (texts ++ [TextPart field value]).
  rewrite app_assoc, forallb_app, Ht. split; reflexivity.
Qed.

Lemma append_number_keeps files form field x :
  files_then_texts files form ->
  files_then_texts files (append_number number toString field x form).
Proof.
  intros H. destruct x as [v|]; simpl; [apply snoc_text_keeps|]; exact H.
Qed.

Lemma no_request_in_file_lines files :
  existsb is_request (map adding_file_line files) = false.
Proof. induction files as [|f files IH]; simpl; [reflexivity|exact IH]. Qed.

(** Filling the form makes no request and always succeeds; the form holds
    one file part per input file, in input order and under the field name
    [files], followed by text parts only. *)
Lemma batch_form_files files prompt grounded temperature top_p max_tokens :
  let m := batch_form number toString files prompt grounded temperature top_p max_tokens in
  existsb is_request (effects m) = false
  /\ exists form, outcome m = Return form /\ files_then_texts files form.
Proof.
  unfold batch_form.
  destruct grounded;
    destruct (is_defined number temperature || is_defined number top_p
              || is_defined number max_tokens);
    cbn; rewrite append_files_eq; cbn.
  all: rewrite existsb_app, no_request_in_file_lines.
  all: split; [reflexivity|].
  all: eexists; split; [reflexivity|].
  all: repeat apply append_number_keeps; apply snoc_text_keeps.
  all: exists []; rewrite app_nil_r; split; reflexivity.
Qed.

(** C10.  With no file [processBatch] throws 'No files provided for batch
    processing' without reading the environment and without any request.
    With at least one file it never throws that error: either ALB_URL is
    missing and the error of [getBaseUrl] is thrown before any request, or
    exactly one request is made, the POST to [/ocr/batch], whose form holds
    every input file, in input order, under the field name [files]. *)
Theorem C10_processBatch_rejects_empty_and_sends_every_file
    w files prompt grounded temperature top_p max_tokens :
  files <> [] ->
  processBatch number toString w [] prompt grounded temperature top_p max_tokens
    = mkJs [] (Throw (Error "No files provided for batch processing"))
  /\ let r := processBatch number toString w files prompt grounded
                temperature top_p max_tokens in
     (forall e, outcome (getBaseUrl w) = Throw e -> r = mkJs [EnvRead "ALB_URL"] (Throw e))
     /\ (forall baseUrl,
           outcome (getBaseUrl w) = Return baseUrl ->
           exists logs form after,
             effects r = EnvRead "ALB_URL" :: logs
                         ++ [AxiosPost (baseUrl +:+ "/ocr/batch") form DEFAULT_TIMEOUT_MS]
                         ++ after
             /\ files_then_texts files form
             /\ existsb is_request logs = false
             /\ existsb is_request after = false).
Proof.
  intros Hne. split; [reflexivity|].
  cbv zeta. unfold processBatch.
  destruct files as [|f files]; [contradiction|].
  change (Nat.eqb (length (f :: files)) 0) with false. cbv iota.
  split.
  - intros e He. rewrite (bind_Throw _ _ e) by exact He.
    rewrite getBaseUrl_effects. reflexivity.
  - intros baseUrl Hb.
    rewrite (bind_Return _ _ baseUrl) by exact Hb.
    rewrite getBaseUrl_effects.
    destruct (batch_form_files (f :: files) (default "<image>" prompt) (default false grounded)
                temperature top_p max_tokens) as (Hq & form & Hf & Hform).
    rewrite (bind_Return (batch_form _ _ _ _ _ _ _ _) _ form) by exact Hf.
    rewrite (bind_Return (request _ _) _ (post_batch w (baseUrl +:+ "/ocr/batch") form))
      by reflexivity.
    cbn [effects outcome request].
    eexists _, form, _. split; [reflexivity|].
    split; [exact Hform|]. split; [exact Hq|].
    destruct (post_batch w (baseUrl +:+ "/ocr/batch") form) as [data|[m|st d m|]];
      reflexivity.
Qed.

End ProcessBatchFacts.

Lemma C10_witness :
  exists logs form after,
    effects (processBatch nat (fun _ => "1") (sample_world (Some "my-alb.example.com//"))
               [sample_file] None None None None None)
    = EnvRead "ALB_URL" :: logs
      ++ [AxiosPost "http://my-alb.example.com/ocr/batch" form DEFAULT_TIMEOUT_MS] ++ after
    /\ files_then_texts [sample_file] form.
Proof.
  destruct (C10_processBatch_rejects_empty_and_sends_every_file nat (fun _ => "1")
              (sample_world (Some "my-alb.example.com//")) [sample_file]
              None None None None None ltac:(discriminate)) as (_ & _ & H).
  destruct (H "http://my-alb.example.com" eq_refl) as (logs & form & after & E & F & _).
  exists logs, form, after. split; assumption.
Defined.


End LambdaFacts.

Module DeployFacts.
Import Deploy.

Lemma count_events_app p t u :
  count_events p (t ++ u) = count_events p t + count_events p u.
Proof. induction t as [|e t IH]; simpl; [reflexivity|]. rewrite IH. lia. Qed.

Lemma slept_app t u : slept (t ++ u) = (slept t + slept u)%Z.
Proof.
  induction t as [|e t IH]; simpl; [reflexivity|].
  destruct e; rewrite IH; lia.
Qed.

Lemma bind_Next {A B} (m : Sh A) (f : A -> Sh B) a :
  res m = Next a -> m ≫= f = mkSh (trace m ++ trace (f a)) (res (f a)).
Proof.
  intros H. unfold mbind, sh_bind. rewrite H. destruct (f a); reflexivity.
Qed.

Lemma bind_Exit {A B} (m : Sh A) (f : A -> Sh B) st :
  res m = Exit st -> m ≫= f = mkSh (trace m) (Exit st).
Proof. intros H. unfold mbind, sh_bind. rewrite H. reflexivity. Qed.

Lemma bind_Spin {A B} (m : Sh A) (f : A -> Sh B) :
  res m = Spin -> m ≫= f = mkSh (trace m) Spin.
Proof. intros H. unfold mbind, sh_bind. rewrite H. reflexivity. Qed.

(** *** Reading a typed status back from the document *)

Lemma capture_running st d :
  capture (jq_r "Running" (describe_json st d)) = mkSh [] (Next (dec (runningCount d))).
Proof.
  unfold capture, jq_r, describe_json. cbn.
  rewrite chomp_line by apply dec_no_nl. reflexivity.
Qed.

Lemma capture_desired st d :
  capture (jq_r "Desired" (describe_json st d)) = mkSh [] (Next (dec (desiredCount d))).
Proof.
  unfold capture, jq_r, describe_json. cbn.
  rewrite chomp_line by apply dec_no_nl. reflexivity.
Qed.

Lemma capture_rollout_state st d :
  capture (jq_r "RolloutState" (describe_json st d))
  = mkSh [] (Next (rollout_name (rolloutState d))).
Proof.
  unfold capture, jq_r, describe_json. cbn.
  destruct (rolloutState d); reflexivity.
Qed.

(** The shell test of line 117 decides convergence. *)
Lemma converged_iff d :
  converged (rollout_name (rolloutState d)) (dec (runningCount d)) (dec (desiredCount d)) = true
  <-> convergent d.
Proof.
  unfold converged, convergent.
  rewrite !andb_true_iff, negb_true_iff, !String.eqb_eq, String.eqb_neq.
  split.
  - intros [[Hs Hr] Hd]. repeat split.
    + destruct (rolloutState d); simpl in Hs; congruence.
    + apply dec_inj. exact Hr.
    + destruct (N.eq_dec (desiredCount d) 0%N) as [E|E]; [|lia].
      rewrite E in Hd. now contradiction Hd.
  - intros (Hs & Hr & Hd). repeat split.
    + rewrite Hs. reflexivity.
    + now rewrite Hr.
    + intros E. apply dec_zero in E. lia.
Qed.

Lemma monitor_tick_typed w cfg tick b st d :
  describe_services w tick = Done (describe_json st d) ->
  monitor_tick w cfg tick b =
    if converged (rollout_name (rolloutState d)) (dec (runningCount d)) (dec (desiredCount d))
    then mkSh [Run (describe_services_argv cfg); progress_line d; deployment_completed_line]
              (Next true)
    else if String.eqb (rollout_name (rolloutState d)) "FAILED"
    then mkSh [Run (describe_services_argv cfg); progress_line d; deployment_failed_line]
              (Exit 1)
    else mkSh [Run (describe_services_argv cfg); progress_line d] (Next b).
Proof.
  intros H. unfold monitor_tick. rewrite H.
  rewrite (bind_Next (run _ _) _ (describe_json st d)) by reflexivity.
  rewrite capture_running, capture_desired, capture_rollout_state.
  cbn.
  destruct (converged _ _ _); [reflexivity|].
  destruct (String.eqb _ "FAILED"); reflexivity.
Qed.

(** *** The monitoring loop, one iteration at a time *)

Lemma wrap64_small z : (- 2 ^ 63 <= z < 2 ^ 63)%Z -> wrap64 z = z.
Proof.
  intros H. unfold wrap64.
  change (2 ^ 64)%Z with (2 * 2 ^ 63)%Z.
  rewrite Z.mod_small; lia.
Qed.

Lemma monitor_done w cfg n tick E :
  monitor_deployment w cfg n tick true E = mkSh [] (Next true).
Proof. destruct n; reflexivity. Qed.

Lemma monitor_expired w cfg n tick b E :
  (E <? MAX_WAIT_TIME)%Z = false -> monitor_deployment w cfg n tick b E = mkSh [] (Next b).
Proof. intros H. destruct n; simpl; rewrite H, andb_false_r; reflexivity. Qed.

Lemma monitor_step w cfg n tick E t b' :
  (E <? MAX_WAIT_TIME)%Z = true ->
  monitor_tick w cfg tick false = mkSh t (Next b') ->
  monitor_deployment w cfg (S n) tick false E =
    mkSh (t ++ Sleep 10 :: trace (monitor_deployment w cfg n (S tick) b' (wrap64 (E + 10))))
         (res (monitor_deployment w cfg n (S tick) b' (wrap64 (E + 10)))).
Proof.
  intros HE Ht. simpl. rewrite HE. simpl.
  rewrite (bind_Next _ _ b') by (rewrite Ht; reflexivity).
  rewrite Ht. simpl trace.
  rewrite (bind_Next (sleep 10) _ tt) by reflexivity.
  reflexivity.
Qed.

Lemma monitor_step_exit w cfg n tick E t st :
  (E <? MAX_WAIT_TIME)%Z = true ->
  monitor_tick w cfg tick false = mkSh t (Exit st) ->
  monitor_deployment w cfg (S n) tick false E = mkSh t (Exit st).
Proof.
  intros HE Ht. simpl. rewrite HE. simpl.
  rewrite (bind_Exit _ _ st) by (rewrite Ht; reflexivity).
  rewrite Ht. reflexivity.
Qed.

Lemma monitor_tick_keeps_polling w cfg tick b st d :
  describe_services w tick = Done (describe_json st d) ->
  ~ convergent d -> rolloutState d <> FAILED ->
  monitor_tick w cfg tick b = mkSh [Run (describe_services_argv cfg); progress_line d] (Next b).
Proof.
  intros H Hc Hf. rewrite (monitor_tick_typed _ _ _ _ _ _ H).
  destruct (converged _ _ _) eqn:E.
  - apply converged_iff in E. contradiction.
  - destruct (rolloutState d); try reflexivity. congruence.
Qed.

Lemma monitor_tick_converged w cfg tick b st d :
  describe_services w tick = Done (describe_json st d) ->
  convergent d ->
  monitor_tick w cfg tick b =
    mkSh [Run (describe_services_argv cfg); progress_line d; deployment_completed_line] (Next true).
Proof.
  intros H Hc. rewrite (monitor_tick_typed _ _ _ _ _ _ H).
  apply converged_iff in Hc. rewrite Hc. reflexivity.
Qed.

Lemma monitor_tick_failed w cfg tick b st d :
  describe_services w tick = Done (describe_json st d) ->
  rolloutState d = FAILED ->
  monitor_tick w cfg tick b =
    mkSh [Run (describe_services_argv cfg); progress_line d; deployment_failed_line] (Exit 1).
Proof.
  intros H Hf. rewrite (monitor_tick_typed _ _ _ _ _ _ H).
  destruct (converged _ _ _) eqn:E.
  - apply converged_iff in E. destruct E as [E _]. congruence.
  - rewrite Hf. reflexivity.
Qed.

(** Whatever the poll answers, one pass polls once, does not sleep and does
    not hang. *)
Lemma monitor_tick_shape w cfg tick b :
  let r := monitor_tick w cfg tick b in
  res r <> Spin /\ count_events is_describe (trace r) = 1 /\ slept (trace r) = 0%Z
  /\ count_events is_curl (trace r) = 0 /\ count_events is_update_service (trace r) = 0.
Proof.
  unfold monitor_tick.
  destruct (describe_services w tick) as [doc|st]; [|cbn; repeat split; discriminate].
  destruct doc as [[| | |]|members]; cbn; try (repeat split; discriminate).
  all: repeat match goal with |- context [if ?c then _ else _] => destruct c end.
  all: vm_compute; repeat split; discriminate.
Qed.

(** *** The monitoring loop as a whole *)

(** The loop never outlives its budget: from elapsed time [E], with [j]
    passes enough to reach [MAX_WAIT_TIME], it ends within [j] passes
    whatever the polls answer. *)
Lemma monitor_bounded w cfg j :
  forall n tick b E,
    (0 <= E)%Z -> (MAX_WAIT_TIME <= E + 10 * Z.of_nat j)%Z -> j <= n ->
    let r := monitor_deployment w cfg n tick b E in
    res r <> Spin
    /\ count_events is_describe (trace r) <= j
    /\ (slept (trace r) <= 10 * Z.of_nat j)%Z.
Proof.
  unfold MAX_WAIT_TIME.
  induction j as [|j IH]; intros n tick b E HE Hj Hn.
  - rewrite monitor_expired by (apply Z.ltb_ge; unfold MAX_WAIT_TIME; lia).
    simpl. repeat split; [discriminate|lia|lia].
  - destruct b; [rewrite monitor_done; simpl; repeat split; [discriminate|lia|lia]|].
    destruct (E <? 600)%Z eqn:Hlt;
      [|rewrite monitor_expired by exact Hlt; simpl; repeat split; [discriminate|lia|lia]].
    apply Z.ltb_lt in Hlt.
    destruct n as [|n]; [lia|].
    pose proof (monitor_tick_shape w cfg tick false) as (Hs & Hc & Hz & _).
    destruct (monitor_tick w cfg tick false) as [t [b'|st|]] eqn:Ht; simpl in Hs, Hc, Hz.
    + rewrite (monitor_step _ _ _ _ _ t b') by (try apply Z.ltb_lt; assumption).
      rewrite wrap64_small by lia.
      destruct (IH n (S tick) b' (E + 10)%Z) as (R1 & R2 & R3); [lia|lia|lia|].
      simpl trace. simpl res. repeat split.
      * exact R1.
      * rewrite count_events_app. simpl. lia.
      * rewrite slept_app. simpl. lia.
    + rewrite (monitor_step_exit _ _ _ _ _ t st) by (try apply Z.ltb_lt; assumption).
      simpl. repeat split; [discriminate|lia|lia].
    + contradiction.
Qed.

(** When no poll is ever conclusive the loop runs its full budget: one
    pass for each multiple of ten seconds below [MAX_WAIT_TIME]. *)
Lemma monitor_times_out_from w cfg j :
  forall n tick,
    tick + j = 60 -> j <= n ->
    (forall i, tick <= i < 60 -> keeps_polling w i) ->
    let r := monitor_deployment w cfg n tick false (10 * Z.of_nat tick) in
    res r = Next false
    /\ count_events is_describe (trace r) = j
    /\ slept (trace r) = (10 * Z.of_nat j)%Z
    /\ count_events is_curl (trace r) = 0
    /\ count_events is_update_service (trace r) = 0.
Proof.
  induction j as [|j IH]; intros n tick Htick Hn Hpoll.
  - rewrite monitor_expired by (apply Z.ltb_ge; unfold MAX_WAIT_TIME; lia).
    simpl. repeat split.
  - destruct n as [|n]; [lia|].
    destruct (Hpoll tick) as (st & d & Hd & Hnc & Hnf); [lia|].
    rewrite (monitor_step _ _ _ _ _ _ false)
      by (first [apply Z.ltb_lt; unfold MAX_WAIT_TIME; lia
                |apply (monitor_tick_keeps_polling _ _ _ _ st d); assumption]).
    rewrite wrap64_small by lia.
    replace (10 * Z.of_nat tick + 10)%Z with (10 * Z.of_nat (S tick))%Z by lia.
    destruct (IH n (S tick)) as (R1 & R2 & R3 & R4 & R5); [lia|lia|intros; apply Hpoll; lia|].
    simpl trace. simpl res. repeat split.
    + exact R1.
    + simpl. rewrite R2. reflexivity.
    + simpl slept. rewrite R3. lia.
    + simpl. exact R4.
    + simpl. exact R5.
Qed.

(** *** The build loop *)

Lemma wait_step_continue w cfg B n tick s :
  batch_get_builds w tick = Done s -> build_terminal s = false ->
  wait_for_build w cfg B (S n) tick =
    mkSh (Run (batch_get_builds_argv cfg B) :: build_status_line s :: Sleep 10
          :: trace (wait_for_build w cfg B n (S tick)))
         (res (wait_for_build w cfg B n (S tick))).
Proof.
  intros H Ht. apply orb_false_iff in Ht as [Hs Hf].
  cbn [wait_for_build]. rewrite H.
  rewrite (bind_Next (run _ _) _ s) by reflexivity.
  rewrite (bind_Next (echo _ _) _ tt) by reflexivity.
  rewrite Hs, Hf.
  rewrite (bind_Next (sleep 10) _ tt) by reflexivity.
  reflexivity.
Qed.

Lemma wait_step_failed w cfg B n tick s :
  batch_get_builds w tick = Done s -> build_failure_status s = true ->
  wait_for_build w cfg B (S n) tick =
    mkSh [Run (batch_get_builds_argv cfg B); build_status_line s;
          build_failed_line s; build_logs_line cfg B]
         (Exit 1).
Proof.
  intros H Hf.
  assert (Hs : String.eqb s "SUCCEEDED" = false).
  { destruct (String.eqb_spec s "SUCCEEDED") as [->|]; [discriminate Hf|reflexivity]. }
  cbn [wait_for_build]. rewrite H.
  rewrite (bind_Next (run _ _) _ s) by reflexivity.
  rewrite (bind_Next (echo _ _) _ tt) by reflexivity.
  rewrite Hs, Hf. reflexivity.
Qed.

Lemma wait_step_succeeded w cfg B n tick :
  batch_get_builds w tick = Done "SUCCEEDED" ->
  wait_for_build w cfg B (S n) tick =
    mkSh [Run (batch_get_builds_argv cfg B); build_status_line "SUCCEEDED"; build_succeeded_line]
         (Next tt).
Proof. intros H. cbn [wait_for_build]. rewrite H. reflexivity. Qed.

(** The polls before the first terminal status each cost one probe and one
    sleep; the loop then stands at the terminal poll. *)
Lemma wait_reaches_terminal w cfg B k :
  forall n tick s,
    first_terminal_from w tick k s ->
    exists pre,
      trace (wait_for_build w cfg B (k + n) tick)
        = pre ++ trace (wait_for_build w cfg B n (tick + k))
      /\ res (wait_for_build w cfg B (k + n) tick) = res (wait_for_build w cfg B n (tick + k))
      /\ slept pre = (10 * Z.of_nat k)%Z.
Proof.
  induction k as [|k IH]; intros n tick s (Hpre & Hk & Ht).
  - exists []. rewrite Nat.add_0_r. repeat split.
  - destruct (Hpre 0) as (s0 & H0 & Hn0); [lia|]. rewrite Nat.add_0_r in H0.
    destruct (IH n (S tick) s) as (pre & E1 & E2 & E3).
    { repeat split.
      - intros i Hi. destruct (Hpre (S i)) as (si & Hsi & Hti); [lia|].
        exists si. split; [|exact Hti]. rewrite <- Hsi. f_equal. lia.
      - rewrite <- Hk. f_equal. lia.
      - exact Ht. }
    exists (Run (batch_get_builds_argv cfg B) :: build_status_line s0 :: Sleep 10 :: pre).
    change (S k + n) with (S (k + n)).
    rewrite (wait_step_continue _ _ _ _ _ s0) by assumption.
    simpl trace. simpl res. rewrite E1, E2.
    replace (tick + S k) with (S tick + k) by lia.
    repeat split. simpl slept. rewrite E3. lia.
Qed.

(** The build loop only polls the build, prints and sleeps. *)
Lemma wait_trace_quiet w cfg B n :
  forall tick,
    let t := trace (wait_for_build w cfg B n tick) in
    count_events is_update_service t = 0 /\ count_events is_describe t = 0
    /\ count_events is_curl t = 0.
Proof.
  induction n as [|n IH]; intros tick; [repeat split|].
  cbn [wait_for_build].
  destruct (batch_get_builds w tick) as [s|st]; [|repeat split].
  rewrite (bind_Next (run _ _) _ s) by reflexivity.
  rewrite (bind_Next (echo _ _) _ tt) by reflexivity.
  destruct (String.eqb s "SUCCEEDED"); [repeat split|].
  destruct (build_failure_status s); [repeat split|].
  rewrite (bind_Next (sleep 10) _ tt) by reflexivity.
  simpl. apply IH.
Qed.

(** *** The stages around the loops *)

Lemma submit_ok w cfg T B : submitted w T B -> res (submit w cfg) = Next (T, B).
Proof.
  intros (H1 & H2 & H3 & H4 & H5 & H6). unfold submit.
  rewrite H1, H2, H3, H4, H5, H6. reflexivity.
Qed.

Lemma submit_trace_quiet w cfg :
  let t := trace (submit w cfg) in
  count_events is_update_service t = 0 /\ count_events is_describe t = 0
  /\ count_events is_curl t = 0.
Proof.
  unfold submit.
  destruct (cd_docker w) as [[]|]; [|repeat split].
  destruct (mktemp_d w) as [T|]; [|repeat split].
  destruct (zip_r w) as [[]|]; [|repeat split].
  destruct (s3_cp w) as [[]|]; [|repeat split].
  destruct (update_project w) as [[]|]; [|repeat split].
  destruct (start_build w) as [B|]; repeat split.
Qed.

Lemma deploy_ok w cfg n :
  update_service w = Done tt ->
  deploy w cfg n =
    mkSh (step6_events cfg ++ trace (monitor_deployment w cfg n 0 false 0))
         (res (monitor_deployment w cfg n 0 false 0)).
Proof.
  intros H. unfold deploy. rewrite H.
  rewrite (bind_Next (echo _ _) _ tt) by reflexivity.
  rewrite (bind_Next (run _ _) _ tt) by reflexivity.
  rewrite (bind_Next (echo _ _) _ tt) by reflexivity.
  rewrite (bind_Next (echo _ _) _ tt) by reflexivity.
  rewrite (bind_Next (echo _ _) _ tt) by reflexivity.
  reflexivity.
Qed.

Lemma finish_eq w cfg T b :
  finish w cfg T b =
    mkSh ((if b then [] else [timeout_warning])
          ++ [step8_banner; Sleep 30; Run curl_health_argv]
          ++ (if String.eqb (health_value w) "healthy" then healthy_lines
              else health_warning_lines (health_value w))
          ++ summary_events cfg T)
         (Next tt).
Proof.
  unfold finish, health_check.
  destruct b; cbn.
  all: destruct (String.eqb _ "healthy"); reflexivity.
Qed.

Lemma script_build_exit n w T B st :
  let cfg := configuration (environ w) in
  res (submit w cfg) = Next (T, B) ->
  res (wait_for_build w cfg B n 0) = Exit st ->
  script n w =
    mkSh (trace (submit w cfg) ++ step5_banner ++ trace (wait_for_build w cfg B n 0))
         (Exit st).
Proof.
  intros cfg Hs Hw. unfold script. fold cfg.
  rewrite (bind_Next (submit w cfg) _ (T, B)) by exact Hs.
  cbn beta iota.
  rewrite (bind_Next (echo _ _) _ tt) by reflexivity.
  rewrite (bind_Next (echo _ _) _ tt) by reflexivity.
  rewrite (bind_Exit (wait_for_build w cfg B n 0) _ st) by exact Hw.
  reflexivity.
Qed.

Lemma script_deploy_exit n w T B st :
  let cfg := configuration (environ w) in
  res (submit w cfg) = Next (T, B) ->
  res (wait_for_build w cfg B n 0) = Next tt ->
  res (deploy w cfg n) = Exit st ->
  script n w =
    mkSh (trace (submit w cfg) ++ step5_banner ++ trace (wait_for_build w cfg B n 0)
          ++ trace (deploy w cfg n))
         (Exit st).
Proof.
  intros cfg Hs Hw Hd. unfold script. fold cfg.
  rewrite (bind_Next (submit w cfg) _ (T, B)) by exact Hs.
  cbn beta iota.
  rewrite (bind_Next (echo _ _) _ tt) by reflexivity.
  rewrite (bind_Next (echo _ _) _ tt) by reflexivity.
  rewrite (bind_Next (wait_for_build w cfg B n 0) _ tt) by exact Hw.
  rewrite (bind_Exit (deploy w cfg n) _ st) by exact Hd.
  reflexivity.
Qed.

Lemma script_finished n w T B b :
  let cfg := configuration (environ w) in
  res (submit w cfg) = Next (T, B) ->
  res (wait_for_build w cfg B n 0) = Next tt ->
  res (deploy w cfg n) = Next b ->
  script n w =
    mkSh (trace (submit w cfg) ++ step5_banner ++ trace (wait_for_build w cfg B n 0)
          ++ trace (deploy w cfg n) ++ trace (finish w cfg T b))
         (Next tt).
Proof.
  intros cfg Hs Hw Hd. unfold script. fold cfg.
  rewrite (bind_Next (submit w cfg) _ (T, B)) by exact Hs.
  cbn beta iota.
  rewrite (bind_Next (echo _ _) _ tt) by reflexivity.
  rewrite (bind_Next (echo _ _) _ tt) by reflexivity.
  rewrite (bind_Next (wait_for_build w cfg B n 0) _ tt) by exact Hw.
  rewrite (bind_Next (deploy w cfg n) _ b) by exact Hd.
  rewrite finish_eq. reflexivity.
Qed.

(** ** The claims about the pipeline script *)

Lemma monitor_converges w cfg n tick E st d :
  (E < MAX_WAIT_TIME)%Z ->
  describe_services w tick = Done (describe_json st d) ->
  convergent d ->
  monitor_deployment w cfg (S n) tick false E =
    mkSh [Run (describe_services_argv cfg); progress_line d; deployment_completed_line; Sleep 10]
         (Next true).
Proof.
  intros HE Hd Hc.
  rewrite (monitor_step _ _ _ _ _ _ true)
    by (first [apply Z.ltb_lt; exact HE
              |apply (monitor_tick_converged _ _ _ _ st d); assumption]).
  rewrite monitor_done. reflexivity.
Qed.

(** C1.  For every deployment status the poll loop sees, the pass through the
    loop body sets DEPLOYMENT_COMPLETE exactly when the rollout state is
    COMPLETED, the running count equals the desired count and the desired
    count is positive.  When it does, the loop ends with DEPLOYMENT_COMPLETE
    set; when it does not, the loop either exits with status 1 (rollout
    FAILED) or goes on to the next poll with DEPLOYMENT_COMPLETE still
    false.  The line-117 test accepts COMPLETED 2/2 and rejects COMPLETED
    0/0. *)
Theorem C1_converged_iff_completed_equal_positive w cfg n tick E st d :
  (0 <= E < MAX_WAIT_TIME)%Z ->
  describe_services w tick = Done (describe_json st d) ->
  (res (monitor_tick w cfg tick false) = Next true <-> convergent d)
  /\ (convergent d ->
      monitor_deployment w cfg (S n) tick false E =
        mkSh [Run (describe_services_argv cfg); progress_line d;
              deployment_completed_line; Sleep 10]
             (Next true))
  /\ (~ convergent d ->
      monitor_deployment w cfg (S n) tick false E =
        mkSh [Run (describe_services_argv cfg); progress_line d; deployment_failed_line]
             (Exit 1)
      \/ monitor_deployment w cfg (S n) tick false E =
           mkSh ([Run (describe_services_argv cfg); progress_line d; Sleep 10]
                 ++ trace (monitor_deployment w cfg n (S tick) false (E + 10)))
                (res (monitor_deployment w cfg n (S tick) false (E + 10))))
  /\ converged "COMPLETED" "2" "2" = true
  /\ converged "COMPLETED" "0" "0" = false.
Proof.
  intros [HE0 HE] Hd. unfold MAX_WAIT_TIME in HE.
  split; [split|split; [|split; [|split; reflexivity]]].
  - intros Hr. rewrite (monitor_tick_typed _ _ _ _ _ _ Hd) in Hr.
    destruct (converged _ _ _) eqn:Hc; [apply converged_iff; exact Hc|].
    destruct (String.eqb _ "FAILED"); discriminate Hr.
  - intros Hc. rewrite (monitor_tick_converged _ _ _ _ _ _ Hd Hc). reflexivity.
  - intros Hc. apply (monitor_converges _ _ _ _ _ st); assumption.
  - intros Hc.
    destruct (rolloutState d) eqn:Hs.
    + right.
      rewrite (monitor_step _ _ _ _ _ _ false)
        by (first [apply Z.ltb_lt; exact HE
                  |apply (monitor_tick_keeps_polling _ _ _ _ st d); congruence]).
      rewrite wrap64_small by lia. reflexivity.
    + right.
      rewrite (monitor_step _ _ _ _ _ _ false)
        by (first [apply Z.ltb_lt; exact HE
                  |apply (monitor_tick_keeps_polling _ _ _ _ st d); congruence]).
      rewrite wrap64_small by lia. reflexivity.
    + left.
      apply monitor_step_exit; [apply Z.ltb_lt; exact HE|].
      apply (monitor_tick_failed _ _ _ _ st d); assumption.
Qed.

Lemma C1_witness :
  (res (monitor_tick world_smooth (configuration ∅) 0 false) = Next true
   <-> convergent status_2_of_2)
  /\ res (monitor_deployment world_smooth (configuration ∅) 1 0 false 0) = Next true.
Proof.
  pose proof (C1_converged_iff_completed_equal_positive
                world_smooth (configuration ∅) 0 0 0%Z "PRIMARY" status_2_of_2
                ltac:(unfold MAX_WAIT_TIME; lia) eq_refl) as (H1 & H2 & _).
  split; [exact H1|].
  rewrite H2; [reflexivity|].
  unfold convergent; simpl. repeat split; lia.
Defined.

Lemma wait_fails w cfg B k n s :
  first_terminal_from w 0 k s -> build_failure_status s = true -> k < n ->
  res (wait_for_build w cfg B n 0) = Exit 1
  /\ exists pre,
       trace (wait_for_build w cfg B n 0)
       = pre ++ [Run (batch_get_builds_argv cfg B); build_status_line s;
                 build_failed_line s; build_logs_line cfg B].
Proof.
  intros Hft Hf Hk.
  destruct (wait_reaches_terminal w cfg B k (n - k) 0 s Hft) as (pre & E1 & E2 & _).
  replace (k + (n - k)) with n in * by lia.
  destruct (n - k) as [|m] eqn:Hm; [lia|].
  destruct Hft as (_ & Hs & _).
  rewrite (wait_step_failed _ _ _ _ _ s) in * by assumption.
  split; [exact E2|]. exists pre. exact E1.
Qed.

Lemma wait_succeeds w cfg B k n :
  first_terminal_from w 0 k "SUCCEEDED" -> k < n ->
  res (wait_for_build w cfg B n 0) = Next tt
  /\ slept (trace (wait_for_build w cfg B n 0)) = (10 * Z.of_nat k)%Z.
Proof.
  intros Hft Hk.
  destruct (wait_reaches_terminal w cfg B k (n - k) 0 _ Hft) as (pre & E1 & E2 & E3).
  replace (k + (n - k)) with n in * by lia.
  destruct (n - k) as [|m] eqn:Hm; [lia|].
  destruct Hft as (_ & Hs & _).
  rewrite (wait_step_succeeded _ _ _ _ _ Hs) in *.
  split; [exact E2|]. rewrite E1, slept_app, E3. simpl. lia.
Qed.

(** C2.  When the first terminal build status is FAILED, FAULT, TIMED_OUT or
    STOPPED, the script exits with status 1 right after that poll: the last
    things it does are the poll, the status line, the line naming the
    failing status and the line pointing to the build logs.  It never runs
    [aws ecs update-service], never polls the rollout and never runs the
    health request. *)
Theorem C2_build_failure_halts_before_deploy w T B k s n :
  submitted w T B ->
  first_terminal_from w 0 k s ->
  build_failure_status s = true ->
  k < n ->
  let cfg := configuration (environ w) in
  let r := script n w in
  exit_code (res r) = Some 1%Z
  /\ (exists pre,
        trace r = pre ++ [Run (batch_get_builds_argv cfg B); build_status_line s;
                          build_failed_line s; build_logs_line cfg B])
  /\ count_events is_update_service (trace r) = 0
  /\ count_events is_describe (trace r) = 0
  /\ count_events is_curl (trace r) = 0.
Proof.
  intros Hsub Hft Hf Hk cfg r.
  destruct (wait_fails w cfg B k n s Hft Hf Hk) as (Hres & pre & Htr).
  pose proof (submit_ok w cfg T B Hsub) as Hs.
  pose proof (submit_trace_quiet w cfg) as (Q1 & Q2 & Q3).
  pose proof (wait_trace_quiet w cfg B n 0) as (W1 & W2 & W3).
  subst r. rewrite (script_build_exit n w T B 1 Hs Hres). fold cfg. cbn [trace res].
  split; [reflexivity|]. split.
  - exists (trace (submit w cfg) ++ step5_banner ++ pre).
    rewrite Htr, <- !app_assoc. reflexivity.
  - rewrite !count_events_app, Q1, Q2, Q3, W1, W2, W3. repeat split.
Qed.

Lemma C2_witness :
  exit_code (res (script 3 world_build_fails)) = Some 1%Z
  /\ count_events is_update_service (trace (script 3 world_build_fails)) = 0.
Proof.
  assert (Hsub : submitted world_build_fails "/tmp/tmp.Hq3vXk" "deepseek-ocr-docker-build:4b7e")
    by (repeat split).
  assert (Hft : first_terminal_from world_build_fails 0 2 "FAILED").
  { split; [|split; reflexivity].
    intros i Hi. exists "IN_PROGRESS". destruct i as [|[|i]]; [split; reflexivity..|lia]. }
  destruct (C2_build_failure_halts_before_deploy world_build_fails _ _ 2 "FAILED" 3
              Hsub Hft eq_refl ltac:(lia)) as (H1 & _ & H2 & _).
  split; assumption.
Defined.

(** C3.  When the build has succeeded and none of the rollout polls made
    within MAX_WAIT_TIME is conclusive, the loop gives up after 60 polls;
    the script then prints the warning, runs the health check (banner, 30
    seconds of sleep, the request) and ends with exit status 0.  Its sleeps
    add up to the build waits, the 600 seconds of the rollout loop and the 30
    seconds before the health request. *)
Theorem C3_deploy_timeout_is_advisory w T B k n :
  submitted w T B ->
  first_terminal_from w 0 k "SUCCEEDED" ->
  update_service w = Done tt ->
  (forall i, i < 60 -> keeps_polling w i) ->
  k < n -> 60 <= n ->
  let r := script n w in
  exit_code (res r) = Some 0%Z
  /\ count_events is_describe (trace r) = 60
  /\ (exists pre post,
        trace r = pre ++ [timeout_warning; step8_banner; Sleep 30; Run curl_health_argv] ++ post)
  /\ count_events is_curl (trace r) = 1
  /\ slept (trace r) = (10 * Z.of_nat k + MAX_WAIT_TIME + 30)%Z.
Proof.
  intros Hsub Hft Hup Hpoll Hk Hn r.
  set (cfg := configuration (environ w)).
  pose proof (submit_ok w cfg T B Hsub) as Hs.
  destruct (wait_succeeds w cfg B k n Hft Hk) as (Hw & Hwz).
  destruct (monitor_times_out_from w cfg 60 n 0 eq_refl Hn) as (M1 & M2 & M3 & M4 & M5).
  { intros i Hi. apply Hpoll. lia. }
  change (10 * Z.of_nat 0)%Z with 0%Z in *.
  pose proof (deploy_ok w cfg n Hup) as Hd.
  assert (Hdr : res (deploy w cfg n) = Next false) by (rewrite Hd; exact M1).
  subst r. rewrite (script_finished n w T B false Hs Hw Hdr). fold cfg.
  rewrite finish_eq, Hd. cbn [trace res].
  pose proof (submit_trace_quiet w cfg) as (Q1 & Q2 & Q3).
  pose proof (wait_trace_quiet w cfg B n 0) as (W1 & W2 & W3).
  split; [reflexivity|]. split; [|split; [|split]].
  - rewrite !count_events_app, Q2, W2, M2.
    destruct (String.eqb _ "healthy"); reflexivity.
  - exists (trace (submit w cfg) ++ step5_banner ++ trace (wait_for_build w cfg B n 0)
            ++ step6_events cfg ++ trace (monitor_deployment w cfg n 0 false 0)).
    exists ((if String.eqb (health_value w) "healthy" then healthy_lines
             else health_warning_lines (health_value w)) ++ summary_events cfg T).
    rewrite <- !app_assoc. reflexivity.
  - rewrite !count_events_app, Q3, W3, M4.
    destruct (String.eqb _ "healthy"); reflexivity.
  - rewrite !slept_app, Hwz, M3.
    assert (Hq : slept (trace (submit w cfg)) = 0%Z).
    { unfold submit.
      destruct Hsub as (H1 & H2 & H3 & H4 & H5 & H6).
      rewrite H1, H2, H3, H4, H5, H6. reflexivity. }
    rewrite Hq. unfold MAX_WAIT_TIME.
    destruct (String.eqb _ "healthy"); simpl; lia.
Qed.

Lemma C3_witness :
  exit_code (res (script 60 world_slow_rollout)) = Some 0%Z
  /\ count_events is_describe (trace (script 60 world_slow_rollout)) = 60.
Proof.
  assert (Hsub : submitted world_slow_rollout "/tmp/tmp.Hq3vXk" "deepseek-ocr-docker-build:4b7e")
    by (repeat split).
  assert (Hft : first_terminal_from world_slow_rollout 0 0 "SUCCEEDED").
  { split; [|split; reflexivity]. intros i Hi. lia. }
  assert (Hpoll : forall i, i < 60 -> keeps_polling world_slow_rollout i).
  { intros i _. exists "PRIMARY", status_1_of_2.
    split; [reflexivity|]. split; [|discriminate].
    intros (Hc & _). discriminate Hc. }
  destruct (C3_deploy_timeout_is_advisory world_slow_rollout _ _ 0 60
              Hsub Hft eq_refl Hpoll ltac:(lia) ltac:(lia)) as (H1 & H2 & _).
  split; assumption.
Defined.

(** C4.  Started with no time elapsed, the rollout loop ends within
    ceil(MAX_WAIT_TIME / 10) = 60 passes whatever the polls answer, and its
    sleeps never add up to more than MAX_WAIT_TIME.  When no poll is
    conclusive it ends with DEPLOYMENT_COMPLETE still false (the timeout),
    after exactly 60 polls and exactly MAX_WAIT_TIME seconds of sleep, which
    is within one 10-second interval of the configured limit. *)
Theorem C4_deploy_poll_loop_is_bounded w cfg n :
  Z.to_nat ((MAX_WAIT_TIME + 10 - 1) / 10) <= n ->
  let r := monitor_deployment w cfg n 0 false 0 in
  (res r <> Spin
   /\ count_events is_describe (trace r) <= Z.to_nat ((MAX_WAIT_TIME + 10 - 1) / 10)
   /\ (slept (trace r) <= MAX_WAIT_TIME)%Z)
  /\ ((forall i, i < 60 -> keeps_polling w i) ->
      res r = Next false
      /\ count_events is_describe (trace r) = Z.to_nat ((MAX_WAIT_TIME + 10 - 1) / 10)
      /\ slept (trace r) = MAX_WAIT_TIME
      /\ (MAX_WAIT_TIME - 10 <= slept (trace r) <= MAX_WAIT_TIME + 10)%Z).
Proof.
  change (Z.to_nat ((MAX_WAIT_TIME + 10 - 1) / 10)) with 60.
  intros Hn r. split.
  - destruct (monitor_bounded w cfg 60 n 0 false 0%Z) as (B1 & B2 & B3);
      [lia|unfold MAX_WAIT_TIME; lia|exact Hn|].
    split; [exact B1|]. split; [exact B2|]. unfold MAX_WAIT_TIME. subst r. lia.
  - intros Hpoll.
    destruct (monitor_times_out_from w cfg 60 n 0 eq_refl Hn) as (M1 & M2 & M3 & _).
    { intros i Hi. apply Hpoll. lia. }
    change (10 * Z.of_nat 0)%Z with 0%Z in *. subst r.
    split; [exact M1|]. split; [exact M2|]. rewrite M3. unfold MAX_WAIT_TIME.
    split; [reflexivity|lia].
Qed.

Lemma C4_witness :
  res (monitor_deployment world_slow_rollout (configuration ∅) 60 0 false 0) <> Spin
  /\ (slept (trace (monitor_deployment world_slow_rollout (configuration ∅) 60 0 false 0))
      <= MAX_WAIT_TIME)%Z.
Proof.
  destruct (C4_deploy_poll_loop_is_bounded world_slow_rollout (configuration ∅) 60
              ltac:(vm_compute; lia)) as ((H1 & _ & H3) & _).
  split; assumption.
Defined.


(** The rollout loop only polls the rollout, prints and sleeps. *)
Lemma monitor_trace_quiet w cfg n :
  forall tick b E,
    let t := trace (monitor_deployment w cfg n tick b E) in
    count_events is_curl t = 0 /\ count_events is_update_service t = 0.
Proof.
  induction n as [|n IH]; intros tick b E.
  - simpl. destruct (negb b && (E <? MAX_WAIT_TIME)%Z); split; reflexivity.
  - destruct b; [rewrite monitor_done; split; reflexivity|].
    destruct (E <? MAX_WAIT_TIME)%Z eqn:HE;
      [|rewrite monitor_expired by exact HE; split; reflexivity].
    pose proof (monitor_tick_shape w cfg tick false) as (_ & _ & _ & Hc & Hu).
    destruct (monitor_tick w cfg tick false) as [t [b'|st|]] eqn:Ht; simpl in Hc, Hu.
    + rewrite (monitor_step _ _ _ _ _ t b') by assumption.
      destruct (IH (S tick) b' (wrap64 (E + 10))) as (R1 & R2).
      cbn [trace]. rewrite !count_events_app. simpl. rewrite Hc, Hu, R1, R2.
      split; reflexivity.
    + rewrite (monitor_step_exit _ _ _ _ _ t st) by assumption.
      cbn [trace]. split; assumption.
    + simpl. rewrite HE. simpl.
      rewrite (bind_Spin _ _) by (rewrite Ht; reflexivity).
      rewrite Ht. cbn [trace]. split; assumption.
Qed.

(** C5.  In the smooth world the build loop leaves at once when SUCCEEDED is
    seen (poll, status line, success line), but the rollout loop, after
    seeing the converged status and printing the success line, still sleeps
    10 seconds before it returns. *)
Theorem C5_rollout_loop_sleeps_after_convergence :
  let cfg := configuration ∅ in
  wait_for_build world_smooth cfg "deepseek-ocr-docker-build:4b7e" 1 0
  = mkSh [Run (batch_get_builds_argv cfg "deepseek-ocr-docker-build:4b7e");
          build_status_line "SUCCEEDED"; build_succeeded_line]
         (Next tt)
  /\ monitor_deployment world_smooth cfg 1 0 false 0
     = mkSh [Run (describe_services_argv cfg); progress_line status_2_of_2;
             deployment_completed_line; Sleep 10]
            (Next true).
Proof. split; reflexivity. Qed.

(** C6, as stated, fails: neither the HTTP status code nor the exit status
    of curl is ever looked at.  A 500 response whose body says healthy is
    reported as healthy, and no warning is printed; and so is a request
    that ends with an error of curl after such a body has arrived. *)
Lemma C6_counterexample :
  is_2xx (health_get world_http500_healthy) = false
  /\ health_value world_http500_healthy = "healthy"
  /\ count_events is_health_warning (trace (script 1 world_http500_healthy)) = 0
  /\ (exists pre,
        trace (script 1 world_http500_healthy)
        = pre ++ [Run curl_health_argv] ++ healthy_lines
          ++ summary_events (configuration ∅) "/tmp/tmp.Hq3vXk")
  /\ health_get world_transfer_cut = TransportError 18 healthy_body
  /\ health_value world_transfer_cut = "healthy"
  /\ count_events is_health_warning (trace (script 1 world_transfer_cut)) = 0.
Proof.
  split; [reflexivity|]. split; [reflexivity|]. split; [reflexivity|].
  split.
  - exists (firstn 28 (trace (script 1 world_http500_healthy))).
    vm_compute. reflexivity.
  - split; [reflexivity|]. split; reflexivity.
Qed.

Lemma unreadable_not_healthy w : unreadable (health_get w) -> health_value w <> "healthy".
Proof.
  unfold unreadable, health_value.
  destruct (curl_stdout (health_get w)) as [| |[v|members]]; simpl.
  - discriminate.
  - discriminate.
  - destruct v; discriminate.
  - intros ->. discriminate.
Qed.

Lemma deploy_reached w cfg n b :
  res (deploy w cfg n) = Next b -> update_service w = Done tt.
Proof.
  unfold deploy. destruct (update_service w) as [[]|st]; [reflexivity|].
  intros H. discriminate H.
Qed.

(** C6 (amended).  Once the build has succeeded and the rollout stage has
    ended by convergence or by timeout, the script ends with exit status 0
    whatever the health request gives.  HEALTH_CHECK is decided by what
    curl has written to the pipe, whether it ended with a response of any
    status code or with an error: when it has written nothing HEALTH_CHECK
    is empty, when the text is not JSON it is 'failed', when the text is an
    object without a status it is 'null', and in general whenever no status
    member can be read HEALTH_CHECK differs from 'healthy'.  Whenever it
    differs from 'healthy' the request is followed by the three warning
    lines and the summary, not by the success lines.  Neither the HTTP
    status code nor the exit status of curl plays a part. *)
Theorem C6_health_check_is_advisory w T B n b :
  submitted w T B ->
  res (wait_for_build w (configuration (environ w)) B n 0) = Next tt ->
  res (deploy w (configuration (environ w)) n) = Next b ->
  let r := script n w in
  exit_code (res r) = Some 0%Z
  /\ (curl_stdout (health_get w) = NoBody -> health_value w = EmptyString)
  /\ (curl_stdout (health_get w) = NotJson -> health_value w = "failed")
  /\ (forall members,
        curl_stdout (health_get w) = Document (JObject members) ->
        member "status" members = JNull -> health_value w = "null")
  /\ (forall st, health_get w = TransportError st NoBody -> health_value w = EmptyString)
  /\ (forall w', curl_stdout (health_get w') = curl_stdout (health_get w) ->
                  health_value w' = health_value w)
  /\ (unreadable (health_get w) -> health_value w <> "healthy")
  /\ (health_value w <> "healthy" ->
      exists pre,
        trace r = pre ++ [Run curl_health_argv] ++ health_warning_lines (health_value w)
                  ++ summary_events (configuration (environ w)) T).
Proof.
  intros Hsub Hw Hd r.
  pose proof (submit_ok w (configuration (environ w)) T B Hsub) as Hs.
  subst r. rewrite (script_finished n w T B b Hs Hw Hd).
  rewrite finish_eq. cbn [trace res].
  split; [reflexivity|]. split; [|split; [|split; [|split; [|split; [|split]]]]].
  - intros H. unfold health_value. rewrite H. reflexivity.
  - intros H. unfold health_value. rewrite H. reflexivity.
  - intros members H Hm. unfold health_value. rewrite H. simpl. rewrite Hm. reflexivity.
  - intros st H. unfold health_value. rewrite H. reflexivity.
  - intros w' H. unfold health_value. rewrite H. reflexivity.
  - apply unreadable_not_healthy.
  - intros Hne. apply String.eqb_neq in Hne. rewrite Hne.
    exists (trace (submit w (configuration (environ w))) ++ step5_banner
            ++ trace (wait_for_build w (configuration (environ w)) B n 0)
            ++ trace (deploy w (configuration (environ w)) n)
            ++ (if b then [] else [timeout_warning]) ++ [step8_banner; Sleep 30]).
    rewrite <- !app_assoc. reflexivity.
Qed.

Lemma C6_witness :
  exit_code (res (script 1 (sample_world (fun _ => Done "SUCCEEDED")
                              (fun _ => Done (describe_json "PRIMARY" status_2_of_2))
                              (TransportError 7 NoBody)))) = Some 0%Z.
Proof.
  apply (C6_health_check_is_advisory
           (sample_world (fun _ => Done "SUCCEEDED")
              (fun _ => Done (describe_json "PRIMARY" status_2_of_2))
              (TransportError 7 NoBody))
           "/tmp/tmp.Hq3vXk" "deepseek-ocr-docker-build:4b7e" 1 true).
  - repeat split.
  - reflexivity.
  - reflexivity.
Defined.

(** C7, as stated, fails: the one health request of the script is
    [curl -s URL/health], which sets no time limit at all. *)
Lemma C7_counterexample :
  List.filter is_curl (trace (script 1 world_smooth))
  = [Run ["curl"; "-s";
          "http://dev-deepseek-ocr-gpu-lb-1737323494.us-east-1.elb.amazonaws.com/health"]]
  /\ curl_time_limit
       ["curl"; "-s";
        "http://dev-deepseek-ocr-gpu-lb-1737323494.us-east-1.elb.amazonaws.com/health"]
     = None.
Proof. split; reflexivity. Qed.

(** C7 (amended).  Once the rollout stage has ended, by convergence or by
    timeout, the script makes exactly one health request: after the events of
    the rollout stage (and the timeout warning when there was a timeout) come
    the banner, a sleep of 30 seconds and [curl -s URL/health], a command
    line without any time limit.  The 10-second limit is that of the lambda
    helper [getDeepSeekHealth], whose single request is the GET of
    [baseUrl/health] with a timeout of 10000 ms, made without any delay. *)
Theorem C7_one_health_request_after_settle_delay w T B n b :
  submitted w T B ->
  res (wait_for_build w (configuration (environ w)) B n 0) = Next tt ->
  res (deploy w (configuration (environ w)) n) = Next b ->
  let r := script n w in
  count_events is_curl (trace r) = 1
  /\ (exists pre post,
        trace r = pre ++ trace (deploy w (configuration (environ w)) n)
                  ++ (if b then [] else [timeout_warning])
                  ++ [step8_banner; Sleep 30; Run curl_health_argv] ++ post)
  /\ curl_health_argv = ["curl"; "-s"; LOAD_BALANCER_URL +:+ "/health"]
  /\ curl_time_limit curl_health_argv = None
  /\ (forall lw baseUrl,
        Lambda.outcome (Lambda.getBaseUrl lw) = Lambda.Return baseUrl ->
        exists after,
          Lambda.effects (Lambda.getDeepSeekHealth lw)
          = [Lambda.EnvRead "ALB_URL"; Lambda.AxiosGet (baseUrl +:+ "/health") 10000] ++ after
          /\ existsb Lambda.is_request after = false).
Proof.
  intros Hsub Hw Hd r.
  set (cfg := configuration (environ w)) in *.
  pose proof (submit_ok w cfg T B Hsub) as Hs.
  pose proof (deploy_ok w cfg n (deploy_reached w cfg n b Hd)) as Hdeploy.
  pose proof (submit_trace_quiet w cfg) as (_ & _ & Q3).
  pose proof (wait_trace_quiet w cfg B n 0) as (_ & _ & W3).
  pose proof (monitor_trace_quiet w cfg n 0 false 0%Z) as (M1 & _).
  subst r. rewrite (script_finished n w T B b Hs Hw Hd). fold cfg.
  rewrite finish_eq. cbn [trace res].
  split; [|split; [|split; [|split]]].
  - rewrite Hdeploy. cbn [trace].
    rewrite !count_events_app, Q3, W3, M1.
    destruct b; destruct (String.eqb _ "healthy"); reflexivity.
  - exists (trace (submit w cfg) ++ step5_banner ++ trace (wait_for_build w cfg B n 0)).
    exists ((if String.eqb (health_value w) "healthy" then healthy_lines
             else health_warning_lines (health_value w)) ++ summary_events cfg T).
    rewrite <- !app_assoc. reflexivity.
  - reflexivity.
  - reflexivity.
  - intros lw baseUrl. apply LambdaFacts.getDeepSeekHealth_request.
Qed.

Lemma C7_witness :
  count_events is_curl (trace (script 60 world_slow_rollout)) = 1.
Proof.
  apply (C7_one_health_request_after_settle_delay world_slow_rollout
           "/tmp/tmp.Hq3vXk" "deepseek-ocr-docker-build:4b7e" 60 false).
  - repeat split.
  - reflexivity.
  - vm_compute. reflexivity.
Defined.

Lemma trace_bind_prefix {A B} (m : Sh A) (f : A -> Sh B) :
  exists rest, trace (m ≫= f) = trace m ++ rest.
Proof.
  unfold mbind, sh_bind. destruct (res m) as [a|st|].
  - destruct (f a) as [t r]. exists t. reflexivity.
  - exists []. rewrite app_nil_r. reflexivity.
  - exists []. rewrite app_nil_r. reflexivity.
Qed.

(** C8, as stated, fails: with an empty environment, where every value is
    missing, the script runs its seven remote calls and ends with exit
    status 0; and a bucket named in the environment is not used. *)
Lemma C8_counterexample :
  environ world_smooth = ∅
  /\ exit_code (res (script 1 world_smooth)) = Some 0%Z
  /\ count_events is_remote_call (trace (script 1 world_smooth)) = 7
  /\ S3_BUCKET (configuration {[ "S3_BUCKET" := "another-bucket" ]})
     = "dev-deepseek-ocr-files-bucket".
Proof. repeat split. Qed.

(** C8 (amended).  Region, account and profile are read from AWS_REGION,
    AWS_ACCOUNT_ID and AWS_PROFILE, each replaced by its built-in default
    when unset or empty.  The build project, the source bucket and key, the
    cluster, the service and the load-balancer URL are constants of the
    script, the same in every environment.  No environment makes the script
    stop before its first step: every run starts with the two banners and
    [cd docker]. *)
Theorem C8_configuration_defaults_and_constants w n :
  let env := environ w in
  let cfg := configuration env in
  (AWS_REGION cfg = param_default env "AWS_REGION" "us-east-1"
   /\ AWS_ACCOUNT_ID cfg = param_default env "AWS_ACCOUNT_ID" "098305555551"
   /\ AWS_PROFILE cfg = param_default env "AWS_PROFILE" "miketran+SA")
  /\ (forall name default,
        (env !! name = None \/ env !! name = Some EmptyString ->
         param_default env name default = default)
        /\ (forall v, env !! name = Some v -> v <> EmptyString ->
            param_default env name default = v))
  /\ (PROJECT_NAME cfg = "deepseek-ocr-docker-build"
      /\ S3_BUCKET cfg = "dev-deepseek-ocr-files-bucket"
      /\ S3_KEY cfg = "codebuild-source/docker-source.zip"
      /\ ECS_CLUSTER cfg = "dev-deepseek-ocr-gpu-cluster"
      /\ ECS_SERVICE cfg = "dev-deepseek-ocr-gpu-service"
      /\ curl_health_argv
         = ["curl"; "-s";
            "http://dev-deepseek-ocr-gpu-lb-1737323494.us-east-1.elb.amazonaws.com/health"])
  /\ exists rest,
       trace (script n w)
       = Echo "-e" (GREEN +:+ "🚀 Starting DeepSeek OCR Deployment Pipeline" +:+ NC)
         :: Echo "-e" ("\n" +:+ YELLOW +:+ "📦 Step 1: Preparing source code for upload..." +:+ NC)
         :: Run ["cd"; "docker"] :: rest.
Proof.
  intros env cfg.
  split; [repeat split|]. split; [|split; [repeat split|]].
  - intros name default. unfold param_default. split.
    + intros [H|H]; rewrite H; reflexivity.
    + intros v H Hne. rewrite H. apply String.eqb_neq in Hne. rewrite Hne. reflexivity.
  - unfold script. fold env. fold cfg.
    destruct (trace_bind_prefix (submit w cfg)
                (fun '(TEMP_DIR, BUILD_ID) =>
                   echo "-e" ("\n" +:+ YELLOW +:+ "⏳ Step 5: Waiting for build to complete..." +:+ NC);;
                   echo EmptyString "This typically takes 5-10 minutes for the Docker image build.";;
                   wait_for_build w cfg BUILD_ID n 0;;
                   DEPLOYMENT_COMPLETE ← deploy w cfg n;
                   finish w cfg TEMP_DIR DEPLOYMENT_COMPLETE)) as (rest & E).
    rewrite E. unfold submit.
    rewrite (bind_Next (echo _ _) _ tt) by reflexivity.
    rewrite (bind_Next (echo _ _) _ tt) by reflexivity.
    destruct (trace_bind_prefix (run ["cd"; "docker"] (cd_docker w))
                (fun _ : unit =>
                   TEMP_DIR ← run ["mktemp"; "-d"] (mktemp_d w);
                   run ["zip"; "-r"; TEMP_DIR +:+ "/docker-source.zip"; "."; "-x"; "*.git*"; "*.DS_Store"] (zip_r w);;
                   echo "-e" ("\n" +:+ YELLOW +:+ "📤 Step 2: Uploading source to S3..." +:+ NC);;
                   run ["aws"; "s3"; "cp"; TEMP_DIR +:+ "/docker-source.zip";
                        "s3://" +:+ S3_BUCKET cfg +:+ "/" +:+ S3_KEY cfg;
                        "--profile"; AWS_PROFILE cfg] (s3_cp w);;
                   echo "-e" ("\n" +:+ YELLOW +:+ "🔧 Step 3: Updating CodeBuild project to use S3 source..." +:+ NC);;
                   run ["aws"; "codebuild"; "update-project"; "--name"; PROJECT_NAME cfg;
                        "--source"; "type=S3,location=" +:+ S3_BUCKET cfg +:+ "/" +:+ S3_KEY cfg;
                        "--region"; AWS_REGION cfg; "--profile"; AWS_PROFILE cfg] (update_project w);;
                   echo "-e" ("\n" +:+ YELLOW +:+ "🔨 Step 4: Starting CodeBuild..." +:+ NC);;
                   BUILD_ID ← run ["aws"; "codebuild"; "start-build"; "--project-name"; PROJECT_NAME cfg;
                                   "--region"; AWS_REGION cfg; "--profile"; AWS_PROFILE cfg;
                                   "--query"; "build.id"; "--output"; "text"] (start_build w);
                   echo "-e" ("Build started: " +:+ BUILD_ID);;
                   mret (TEMP_DIR, BUILD_ID))) as (rest' & E').
    cbn [trace echo app]. rewrite E'. cbn [trace run app].
    eexists. reflexivity.
Qed.

End DeployFacts.

(** ** Further facts about the OCR helpers *)

Module LambdaMore.
Import Lambda LambdaFacts.

Lemma prefix_append s t : String.prefix s (s +:+ t) = true.
Proof.
  induction s as [|c s IH]; [destruct t; reflexivity|].
  change (String.prefix (String c s) (String c (s +:+ t)) = true).
  cbn [String.prefix]. destruct (ascii_dec c c); [exact IH|contradiction].
Qed.

Lemma includes_prefix needle s : String.prefix needle s = true -> includes needle s = true.
Proof.
  unfold includes. destruct s as [|b s]; cbn [String.index String.prefix].
  - destruct needle; [reflexivity|discriminate].
  - intros H. change (String.prefix needle (String b s)) with
      (match needle with
       | EmptyString => true
       | String a s1' => if ascii_dec a b then String.prefix s1' s else false
       end).
    cbn [String.prefix] in H. rewrite H. reflexivity.
Qed.

Lemma includes_cons needle c s : includes needle s = true -> includes needle (String c s) = true.
Proof.
  unfold includes. cbn [String.index].
  destruct (String.prefix needle (String c s)); [reflexivity|].
  destruct (String.index 0 needle s); [reflexivity|discriminate].
Qed.

Lemma includes_append needle p s : includes needle s = true -> includes needle (p +:+ s) = true.
Proof.
  intros H. induction p as [|c p IH]; [exact H|].
  change (includes needle (String c (p +:+ s)) = true). apply includes_cons. exact IH.
Qed.

Lemma sent_prompt_has_image prompt grounded :
  includes "<image>" (sent_prompt prompt grounded) = true.
Proof.
  unfold sent_prompt.
  assert (H : includes "<image>"
                (if includes "<image>" (default "<image>" prompt)
                 then default "<image>" prompt
                 else "<image>" +:+ default "<image>" prompt) = true).
  { destruct (includes "<image>" (default "<image>" prompt)) eqn:E; [exact E|].
    apply includes_prefix, prefix_append. }
  destruct (default false grounded); [apply includes_append|]; exact H.
Qed.

Lemma sent_prompt_not_empty prompt grounded :
  String.eqb (sent_prompt prompt grounded) EmptyString = false.
Proof.
  pose proof (sent_prompt_has_image prompt grounded) as H.
  destruct (sent_prompt prompt grounded); [discriminate H|reflexivity].
Qed.

Section SingleFileFacts.

Variable number : Type.
Variable toString : number -> string.
Variable stringify : OcrResponse -> string.

Lemma append_number_app field x (l : FormData) :
  append_number number toString field x l = l ++ append_number number toString field x [].
Proof. destruct x; simpl; [reflexivity|]. rewrite app_nil_r. reflexivity. Qed.

Lemma sampling_parts_after (l : FormData) temperature top_p max_tokens :
  append_number number toString "max_tokens" max_tokens
    (append_number number toString "top_p" top_p
       (append_number number toString "temperature" temperature l))
  = l ++ sampling_parts number toString temperature top_p max_tokens.
Proof.
  unfold sampling_parts.
  rewrite (append_number_app "max_tokens"), (append_number_app "top_p"),
    (append_number_app "temperature").
  rewrite (append_number_app "max_tokens" _ (append_number _ _ "top_p" _ _)),
    (append_number_app "top_p" _ (append_number _ _ "temperature" _ _)).
  rewrite <- !app_assoc. reflexivity.
Qed.

Lemma createFormDataWithFile_eq field data name type prompt grounded temperature top_p max_tokens :
  createFormDataWithFile number toString field data name type
    (Some (sent_prompt prompt grounded)) temperature top_p max_tokens
  = FilePart field data name type :: TextPart "prompt" (sent_prompt prompt grounded)
    :: sampling_parts number toString temperature top_p max_tokens.
Proof.
  unfold createFormDataWithFile. rewrite sent_prompt_not_empty.
  rewrite sampling_parts_after. reflexivity.
Qed.

Lemma processImage_run w o imageBuffer prompt grounded temperature top_p max_tokens baseUrl :
  outcome (getBaseUrl w) = Return baseUrl ->
  let form := FilePart "file" imageBuffer "image.jpg" "image/jpeg"
              :: TextPart "prompt" (sent_prompt prompt grounded)
              :: sampling_parts number toString temperature top_p max_tokens in
  let tail : Js OcrResponse :=
    match post_image o (baseUrl +:+ "/ocr/image") form with
    | Resolved data =>
        console_log ("[helpers.ts] Image OCR response received: "
                     +:+ String.substring 0 200 (stringify data) +:+ "...");;
        mret data
    | Rejected error => handleAxiosError error
    end in
  exists logs,
    processImage number toString stringify w o imageBuffer prompt grounded
      temperature top_p max_tokens
    = mkJs (EnvRead "ALB_URL" :: logs
            ++ [AxiosPost (baseUrl +:+ "/ocr/image") form DEFAULT_TIMEOUT_MS]
            ++ effects tail)
           (outcome tail)
    /\ existsb is_request logs = false.
Proof.
  intros Hb form tail. unfold processImage. cbv zeta.
  rewrite (bind_Return _ _ baseUrl) by exact Hb. rewrite getBaseUrl_effects.
  rewrite (bind_Return _ _ (sent_prompt prompt grounded))
    by (unfold sent_prompt; destruct (default false grounded); reflexivity).
  repeat (rewrite (bind_Return (console_log _) _ tt) by reflexivity).
  rewrite (bind_Return (when _ _) _ tt)
    by (destruct (is_defined number temperature || is_defined number top_p
                  || is_defined number max_tokens); reflexivity).
  rewrite createFormDataWithFile_eq. fold form.
  rewrite (bind_Return (request _ _) _ (post_image o (baseUrl +:+ "/ocr/image") form))
    by reflexivity.
  fold tail.
  cbn [effects outcome request console_log].
  match goal with
  | |- exists logs, mkJs ([_] ++ ?A ++ ?L1 ++ ?L2 ++ ?L3 ++ ?W ++ [_] ++ _) _ = _ /\ _ =>
      exists (A ++ L1 ++ L2 ++ L3 ++ W)
  end.
  split; [rewrite <- !app_assoc; reflexivity|].
  rewrite !existsb_app.
  destruct (default false grounded);
    destruct (is_defined number temperature || is_defined number top_p
              || is_defined number max_tokens); reflexivity.
Qed.

Lemma processPdf_run w o pdfBuffer prompt grounded temperature top_p max_tokens baseUrl :
  outcome (getBaseUrl w) = Return baseUrl ->
  let form := FilePart "file" pdfBuffer "document.pdf" "application/pdf"
              :: TextPart "prompt" (sent_prompt prompt grounded)
              :: sampling_parts number toString temperature top_p max_tokens in
  let tail : Js BatchOcrResponse :=
    match post_pdf o (baseUrl +:+ "/ocr/pdf") form with
    | Resolved data =>
        console_log ("[helpers.ts] PDF OCR response received, pages: "
                     +:+ dec (total_pages data));;
        mret data
    | Rejected error => handleAxiosError error
    end in
  exists logs,
    processPdf number toString w o pdfBuffer prompt grounded temperature top_p max_tokens
    = mkJs (EnvRead "ALB_URL" :: logs
            ++ [AxiosPost (baseUrl +:+ "/ocr/pdf") form DEFAULT_TIMEOUT_MS]
            ++ effects tail)
           (outcome tail)
    /\ existsb is_request logs = false.
Proof.
  intros Hb form tail. unfold processPdf. cbv zeta.
  rewrite (bind_Return _ _ baseUrl) by exact Hb. rewrite getBaseUrl_effects.
  rewrite (bind_Return _ _ (sent_prompt prompt grounded))
    by (unfold sent_prompt; destruct (default false grounded); reflexivity).
  repeat (rewrite (bind_Return (console_log _) _ tt) by reflexivity).
  rewrite (bind_Return (when _ _) _ tt)
    by (destruct (is_defined number temperature || is_defined number top_p
                  || is_defined number max_tokens); reflexivity).
  rewrite createFormDataWithFile_eq. fold form.
  rewrite (bind_Return (request _ _) _ (post_pdf o (baseUrl +:+ "/ocr/pdf") form))
    by reflexivity.
  fold tail.
  cbn [effects outcome request console_log].
  match goal with
  | |- exists logs, mkJs ([_] ++ ?A ++ ?L1 ++ ?L2 ++ ?L3 ++ ?W ++ [_] ++ _) _ = _ /\ _ =>
      exists (A ++ L1 ++ L2 ++ L3 ++ W)
  end.
  split; [rewrite <- !app_assoc; reflexivity|].
  rewrite !existsb_app.
  destruct (default false grounded);
    destruct (is_defined number temperature || is_defined number top_p
              || is_defined number max_tokens); reflexivity.
Qed.

Lemma handleAxiosError_effects {A} (e : Thrown) :
  existsb is_request (effects (handleAxiosError (A := A) e)) = false
  /\ exists m, outcome (handleAxiosError (A := A) e) = Throw (Error m).
Proof. destruct e as [m|st d m|]; (split; [reflexivity|]); eexists; reflexivity. Qed.

(** X8.  With ALB_URL set, [processImage] makes exactly one request: the
    POST to [/ocr/image], with the ten-minute timeout, of a form that holds
    the image under the field [file] as [image.jpg] / [image/jpeg], then the
    prompt, then the sampling parameters that are defined (temperature,
    top_p, max_tokens, in this order).  It returns the response data exactly
    when the request resolves. *)
Theorem processImage_sends_one_form w o imageBuffer prompt grounded
    temperature top_p max_tokens baseUrl :
  outcome (getBaseUrl w) = Return baseUrl ->
  let form := FilePart "file" imageBuffer "image.jpg" "image/jpeg"
              :: TextPart "prompt" (sent_prompt prompt grounded)
              :: sampling_parts number toString temperature top_p max_tokens in
  let r := processImage number toString stringify w o imageBuffer prompt grounded
             temperature top_p max_tokens in
  (exists logs after,
     effects r = EnvRead "ALB_URL" :: logs
                 ++ [AxiosPost (baseUrl +:+ "/ocr/image") form DEFAULT_TIMEOUT_MS] ++ after
     /\ existsb is_request logs = false /\ existsb is_request after = false)
  /\ (forall data,
        outcome r = Return data <-> post_image o (baseUrl +:+ "/ocr/image") form = Resolved data).
Proof.
  intros Hb form r.
  destruct (processImage_run w o imageBuffer prompt grounded temperature top_p max_tokens
              baseUrl Hb) as (logs & E & Hlogs).
  fold form in E. subst r. rewrite E. cbn [effects outcome]. split.
  - exists logs. eexists. split; [reflexivity|]. split; [exact Hlogs|].
    destruct (post_image o (baseUrl +:+ "/ocr/image") form) as [data|e];
      [reflexivity|apply handleAxiosError_effects].
  - intros data.
    destruct (post_image o (baseUrl +:+ "/ocr/image") form) as [data'|[m|st d m|]];
      cbn; split; intros H; first [discriminate H | injection H as ->; reflexivity].
Qed.

(** X9.  With ALB_URL set, [processPdf] makes exactly one request: the POST
    to [/ocr/pdf], with the ten-minute timeout, of a form that holds the
    document under the field [file] as [document.pdf] / [application/pdf],
    then the prompt, then the defined sampling parameters.  It returns the
    response data exactly when the request resolves. *)
Theorem processPdf_sends_one_form w o pdfBuffer prompt grounded
    temperature top_p max_tokens baseUrl :
  outcome (getBaseUrl w) = Return baseUrl ->
  let form := FilePart "file" pdfBuffer "document.pdf" "application/pdf"
              :: TextPart "prompt" (sent_prompt prompt grounded)
              :: sampling_parts number toString temperature top_p max_tokens in
  let r := processPdf number toString w o pdfBuffer prompt grounded
             temperature top_p max_tokens in
  (exists logs after,
     effects r = EnvRead "ALB_URL" :: logs
                 ++ [AxiosPost (baseUrl +:+ "/ocr/pdf") form DEFAULT_TIMEOUT_MS] ++ after
     /\ existsb is_request logs = false /\ existsb is_request after = false)
  /\ (forall data,
        outcome r = Return data <-> post_pdf o (baseUrl +:+ "/ocr/pdf") form = Resolved data).
Proof.
  intros Hb form r.
  destruct (processPdf_run w o pdfBuffer prompt grounded temperature top_p max_tokens
              baseUrl Hb) as (logs & E & Hlogs).
  fold form in E. subst r. rewrite E. cbn [effects outcome]. split.
  - exists logs. eexists. split; [reflexivity|]. split; [exact Hlogs|].
    destruct (post_pdf o (baseUrl +:+ "/ocr/pdf") form) as [data|e];
      [reflexivity|apply handleAxiosError_effects].
  - intros data.
    destruct (post_pdf o (baseUrl +:+ "/ocr/pdf") form) as [data'|[m|st d m|]];
      cbn; split; intros H; first [discriminate H | injection H as ->; reflexivity].
Qed.

Lemma batch_form_exact files prompt grounded temperature top_p max_tokens :
  outcome (batch_form number toString files (default "<image>" prompt)
             (default false grounded) temperature top_p max_tokens)
  = Return (map file_part files
            ++ TextPart "prompt" (sent_prompt prompt grounded)
               :: sampling_parts number toString temperature top_p max_tokens).
Proof.
  unfold batch_form, sent_prompt.
  destruct (default false grounded);
    destruct (is_defined number temperature || is_defined number top_p
              || is_defined number max_tokens);
    cbn; rewrite append_files_eq; cbn.
  all: rewrite sampling_parts_after, <- app_assoc; reflexivity.
Qed.

Lemma post_of_run (logs after : list Effect) u f t url form tm :
  existsb is_request logs = false -> existsb is_request after = false ->
  In (AxiosPost url form tm) (EnvRead "ALB_URL" :: logs ++ [AxiosPost u f t] ++ after) ->
  url = u /\ form = f /\ tm = t.
Proof.
  intros Hl Ha [H|H]; [discriminate H|].
  apply in_app_or in H as [H|H].
  - assert (existsb is_request logs = true) by (apply existsb_exists; eauto).
    congruence.
  - destruct H as [H|H]; [injection H as -> -> ->; auto|].
    assert (existsb is_request after = true) by (apply existsb_exists; eauto).
    congruence.
Qed.

Lemma getBaseUrl_throws_only w (A : Type) (f : string -> Js A) e :
  outcome (getBaseUrl w) = Throw e ->
  getBaseUrl w ≫= f = mkJs [EnvRead "ALB_URL"] (Throw e).
Proof.
  intros H. rewrite (bind_Throw _ _ e) by exact H. rewrite getBaseUrl_effects. reflexivity.
Qed.

Lemma getBaseUrl_outcome w :
  (exists baseUrl, outcome (getBaseUrl w) = Return baseUrl)
  \/ outcome (getBaseUrl w) = Throw (Error "ALB_URL environment variable is not set").
Proof.
  unfold getBaseUrl. cbn.
  destruct (env w !! "ALB_URL") as [raw|]; [|right; reflexivity].
  destruct (String.eqb raw EmptyString); [right; reflexivity|left; eexists; reflexivity].
Qed.

(** X10.  Whatever prompt and whatever files the caller passes, every form
    that [processImage], [processPdf] or [processBatch] posts carries a
    prompt part, and its text contains the tag '<image>'; in grounded mode
    it starts with '<|grounding|>'; and a caller's prompt that already
    contains the tag is sent unchanged outside grounded mode. *)
Theorem posted_prompt_is_tagged w o data files prompt grounded temperature top_p max_tokens :
  let sent := sent_prompt prompt grounded in
  (forall url form tm,
     In (AxiosPost url form tm)
        (effects (processImage number toString stringify w o data prompt grounded
                    temperature top_p max_tokens))
     \/ In (AxiosPost url form tm)
           (effects (processPdf number toString w o data prompt grounded
                       temperature top_p max_tokens))
     \/ In (AxiosPost url form tm)
           (effects (processBatch number toString w files prompt grounded
                       temperature top_p max_tokens)) ->
     In (TextPart "prompt" sent) form)
  /\ includes "<image>" sent = true
  /\ (grounded = Some true -> starts_with "<|grounding|>" sent = true)
  /\ (forall q, prompt = Some q -> includes "<image>" q = true ->
      grounded <> Some true -> sent = q).
Proof.
  intros sent. split; [|split; [|split]].
  - intros url form tm H.
    destruct (getBaseUrl_outcome w) as [(baseUrl & Hb)|Hb].
    + destruct H as [H|[H|H]].
      * destruct (processImage_run w o data prompt grounded temperature top_p max_tokens
                    baseUrl Hb) as (logs & E & Hlogs).
        rewrite E in H. cbn [effects] in H.
        apply post_of_run in H as (_ & -> & _); [right; left; reflexivity|exact Hlogs|].
        destruct (post_image o _ _); [reflexivity|apply handleAxiosError_effects].
      * destruct (processPdf_run w o data prompt grounded temperature top_p max_tokens
                    baseUrl Hb) as (logs & E & Hlogs).
        rewrite E in H. cbn [effects] in H.
        apply post_of_run in H as (_ & -> & _); [right; left; reflexivity|exact Hlogs|].
        destruct (post_pdf o _ _); [reflexivity|apply handleAxiosError_effects].
      * unfold processBatch in H. cbv zeta in H.
        destruct (Nat.eqb (length files) 0); [destruct H|].
        rewrite (bind_Return _ _ baseUrl) in H by exact Hb.
        rewrite getBaseUrl_effects in H.
        destruct (batch_form_files number toString files (default "<image>" prompt)
                    (default false grounded) temperature top_p max_tokens)
          as (Hq & form' & Hf & _).
        pose proof (batch_form_exact files prompt grounded temperature top_p max_tokens)
          as Hexact.
        rewrite Hf in Hexact. injection Hexact as ->.
        rewrite (bind_Return (batch_form _ _ _ _ _ _ _ _) _ _) in H by exact Hf.
        rewrite (bind_Return (request _ _) _ (post_batch w (baseUrl +:+ "/ocr/batch") _))
          in H by reflexivity.
        cbn [effects outcome request] in H.
        apply post_of_run in H as (_ & -> & _); [|exact Hq|].
        -- apply in_or_app. right. left. reflexivity.
        -- destruct (post_batch w _ _); [reflexivity|apply handleAxiosError_effects].
    + exfalso. destruct H as [H|[H|H]].
      * unfold processImage in H. cbv zeta in H.
        rewrite (getBaseUrl_throws_only _ _ _ _ Hb) in H.
        destruct H as [H|[]]; discriminate H.
      * unfold processPdf in H. cbv zeta in H.
        rewrite (getBaseUrl_throws_only _ _ _ _ Hb) in H.
        destruct H as [H|[]]; discriminate H.
      * unfold processBatch in H. cbv zeta in H.
        destruct (Nat.eqb (length files) 0); [destruct H|].
        rewrite (getBaseUrl_throws_only _ _ _ _ Hb) in H.
        destruct H as [H|[]]; discriminate H.
  - apply sent_prompt_has_image.
  - intros ->. unfold sent, sent_prompt. cbn [from_option id]. apply prefix_append.
  - intros q -> Hq Hg. unfold sent, sent_prompt. cbn [from_option id]. rewrite Hq.
    destruct grounded as [[]|]; [contradiction Hg|..]; reflexivity.
Qed.

(** X11.  The five helpers throw nothing but [Error] objects: a missing
    ALB_URL, an empty batch and every rejected request, whether the
    rejection is an axios error, an [Error] or some other value, reach the
    caller as an [Error] with a message. *)
Theorem helpers_throw_only_errors w o data files prompt grounded temperature top_p max_tokens :
  (forall e, outcome (getDeepSeekHealth w) = Throw e -> exists m, e = Error m)
  /\ (forall e, outcome (pingDeepSeek w o) = Throw e -> exists m, e = Error m)
  /\ (forall e, outcome (processImage number toString stringify w o data prompt grounded
                           temperature top_p max_tokens) = Throw e -> exists m, e = Error m)
  /\ (forall e, outcome (processPdf number toString w o data prompt grounded
                           temperature top_p max_tokens) = Throw e -> exists m, e = Error m)
  /\ (forall e, outcome (processBatch number toString w files prompt grounded
                           temperature top_p max_tokens) = Throw e -> exists m, e = Error m).
Proof.
  assert (Hh : forall A (err : Thrown) e,
             outcome (handleAxiosError (A := A) err) = Throw e -> exists m, e = Error m).
  { intros A err e H. destruct (handleAxiosError_effects (A := A) err) as (_ & m & E).
    rewrite E in H. injection H as <-. eauto. }
  destruct (getBaseUrl_outcome w) as [(baseUrl & Hb)|Hb].
  - split; [|split; [|split; [|split]]]; intros e.
    + unfold getDeepSeekHealth.
      rewrite (bind_Return _ _ baseUrl) by exact Hb.
      rewrite (bind_Return (request _ _) _ (get_health w (baseUrl +:+ "/health")))
        by reflexivity.
      cbn [outcome]. destruct (get_health w _); [discriminate|apply Hh].
    + unfold pingDeepSeek.
      rewrite (bind_Return _ _ baseUrl) by exact Hb.
      rewrite (bind_Return (request _ _) _ (get_root o (baseUrl +:+ "/"))) by reflexivity.
      cbn [outcome]. destruct (get_root o _); [discriminate|apply Hh].
    + destruct (processImage_run w o data prompt grounded temperature top_p max_tokens
                  baseUrl Hb) as (logs & E & _).
      rewrite E. cbn [outcome]. destruct (post_image o _ _); [discriminate|apply Hh].
    + destruct (processPdf_run w o data prompt grounded temperature top_p max_tokens
                  baseUrl Hb) as (logs & E & _).
      rewrite E. cbn [outcome]. destruct (post_pdf o _ _); [discriminate|apply Hh].
    + unfold processBatch. cbv zeta.
      destruct (Nat.eqb (length files) 0); [intros H; injection H as <-; eauto|].
      rewrite (bind_Return _ _ baseUrl) by exact Hb.
      destruct (batch_form_files number toString files (default "<image>" prompt)
                  (default false grounded) temperature top_p max_tokens)
        as (_ & form & Hf & _).
      rewrite (bind_Return (batch_form _ _ _ _ _ _ _ _) _ form) by exact Hf.
      rewrite (bind_Return (request _ _) _ (post_batch w (baseUrl +:+ "/ocr/batch") form))
        by reflexivity.
      cbn [outcome]. destruct (post_batch w _ _); [discriminate|apply Hh].
  - split; [|split; [|split; [|split]]]; intros e.
    + unfold getDeepSeekHealth. rewrite (getBaseUrl_throws_only _ _ _ _ Hb).
      intros H; injection H as <-; eauto.
    + unfold pingDeepSeek. rewrite (getBaseUrl_throws_only _ _ _ _ Hb).
      intros H; injection H as <-; eauto.
    + unfold processImage. cbv zeta. rewrite (getBaseUrl_throws_only _ _ _ _ Hb).
      intros H; injection H as <-; eauto.
    + unfold processPdf. cbv zeta. rewrite (getBaseUrl_throws_only _ _ _ _ Hb).
      intros H; injection H as <-; eauto.
    + unfold processBatch. cbv zeta.
      destruct (Nat.eqb (length files) 0); [intros H; injection H as <-; eauto|].
      rewrite (getBaseUrl_throws_only _ _ _ _ Hb).
      intros H; injection H as <-; eauto.
Qed.

End SingleFileFacts.

Lemma processImage_sends_one_form_witness :
  outcome (getBaseUrl (sample_world (Some "alb.internal"))) = Return "http://alb.internal"
  /\ outcome (processImage nat (fun _ => "1") (fun _ => "{}")
                (sample_world (Some "alb.internal")) sample_backend [] None None None None None)
     = Return {| success := true; result := Some "text"; error := None; page_count := None |}.
Proof.
  split; [reflexivity|].
  apply (processImage_sends_one_form nat (fun _ => "1") (fun _ => "{}")
           (sample_world (Some "alb.internal")) sample_backend
           [] None None None None None "http://alb.internal" eq_refl).
  reflexivity.
Defined.

Lemma processPdf_sends_one_form_witness :
  outcome (getBaseUrl (sample_world (Some "alb.internal"))) = Return "http://alb.internal"
  /\ forall data,
       outcome (processPdf nat (fun _ => "1") (sample_world (Some "alb.internal"))
                  sample_backend [] None (Some true) None None None) <> Return data.
Proof.
  split; [reflexivity|].
  intros data H.
  apply (processPdf_sends_one_form nat (fun _ => "1")
           (sample_world (Some "alb.internal")) sample_backend
           [] None (Some true) None None None "http://alb.internal" eq_refl) in H.
  discriminate H.
Defined.

End LambdaMore.

(** ** Further facts about the pipeline script *)

Module DeployMore.
Import Deploy DeployFacts.

(** *** Skipping the inconclusive polls *)

Lemma wait_skips_pending w cfg B k :
  forall n tick,
    (forall i, i < k ->
       exists si, batch_get_builds w (tick + i) = Done si /\ build_terminal si = false) ->
    exists pre,
      trace (wait_for_build w cfg B (k + n) tick)
        = pre ++ trace (wait_for_build w cfg B n (tick + k))
      /\ res (wait_for_build w cfg B (k + n) tick) = res (wait_for_build w cfg B n (tick + k))
      /\ slept pre = (10 * Z.of_nat k)%Z
      /\ count_events is_build_poll pre = k.
Proof.
  induction k as [|k IH]; intros n tick Hpre.
  - exists []. rewrite Nat.add_0_r. repeat split.
  - destruct (Hpre 0) as (s0 & H0 & Hn0); [lia|]. rewrite Nat.add_0_r in H0.
    destruct (IH n (S tick)) as (pre & E1 & E2 & E3 & E4).
    { intros i Hi. destruct (Hpre (S i)) as (si & Hsi & Hti); [lia|].
      exists si. split; [|exact Hti]. rewrite <- Hsi. f_equal. lia. }
    exists (Run (batch_get_builds_argv cfg B) :: build_status_line s0 :: Sleep 10 :: pre).
    change (S k + n) with (S (k + n)).
    rewrite (wait_step_continue _ _ _ _ _ s0) by assumption.
    cbn [trace res]. rewrite E1, E2.
    replace (tick + S k) with (S tick + k) by lia.
    split; [reflexivity|]. split; [reflexivity|].
    split; [simpl slept; rewrite E3; lia|].
    simpl. rewrite E4. reflexivity.
Qed.

Lemma monitor_skips_pending w cfg j :
  forall n tick,
    tick + j <= 60 ->
    (forall i, i < j -> keeps_polling w (tick + i)) ->
    exists pre,
      trace (monitor_deployment w cfg (j + n) tick false (10 * Z.of_nat tick))
        = pre ++ trace (monitor_deployment w cfg n (tick + j) false (10 * Z.of_nat (tick + j)))
      /\ res (monitor_deployment w cfg (j + n) tick false (10 * Z.of_nat tick))
         = res (monitor_deployment w cfg n (tick + j) false (10 * Z.of_nat (tick + j)))
      /\ slept pre = (10 * Z.of_nat j)%Z
      /\ count_events is_describe pre = j.
Proof.
  induction j as [|j IH]; intros n tick Hj Hpoll.
  - exists []. rewrite Nat.add_0_r. repeat split.
  - destruct (Hpoll 0) as (st & d & Hd & Hnc & Hnf); [lia|]. rewrite Nat.add_0_r in Hd.
    destruct (IH n (S tick)) as (pre & E1 & E2 & E3 & E4); [lia| |].
    { intros i Hi. replace (S tick + i) with (tick + S i) by lia. apply Hpoll. lia. }
    exists (Run (describe_services_argv cfg) :: progress_line d :: Sleep 10 :: pre).
    change (S j + n) with (S (j + n)).
    rewrite (monitor_step _ _ _ _ _ _ false)
      by (first [apply Z.ltb_lt; unfold MAX_WAIT_TIME; lia
                |apply (monitor_tick_keeps_polling _ _ _ _ st d); assumption]).
    rewrite wrap64_small by lia.
    replace (10 * Z.of_nat tick + 10)%Z with (10 * Z.of_nat (S tick))%Z by lia.
    cbn [trace res]. rewrite E1, E2.
    replace (tick + S j) with (S tick + j) by lia.
    split; [reflexivity|]. split; [reflexivity|].
    split; [simpl slept; rewrite E3; lia|].
    simpl. rewrite E4. reflexivity.
Qed.

(** *** Any outcome of a stage *)

Lemma bind_eq {A B} (m : Sh A) (f : A -> Sh B) :
  m ≫= f =
    mkSh (trace m ++ match res m with Next a => trace (f a) | _ => [] end)
         (match res m with
          | Next a => res (f a)
          | Exit st => Exit st
          | Spin => Spin
          end).
Proof.
  unfold mbind, sh_bind. destruct (res m) as [a|st|].
  - destruct (f a); reflexivity.
  - rewrite app_nil_r. reflexivity.
  - rewrite app_nil_r. reflexivity.
Qed.

Lemma count_zero_of_forallb (q p : Event -> bool) t :
  forallb q t = true -> (forall e, q e = true -> p e = false) -> count_events p t = 0.
Proof.
  intros Hq Hp. induction t as [|e t IH]; simpl; [reflexivity|].
  simpl in Hq. apply andb_true_iff in Hq as [He Ht].
  rewrite (Hp e He), IH by exact Ht. reflexivity.
Qed.

(** The build loop runs nothing but its poll, [echo] and [sleep]. *)
Lemma wait_trace_events w cfg B n :
  forall tick,
    forallb (fun e => is_build_poll e || is_echo e || is_sleep e)
            (trace (wait_for_build w cfg B n tick)) = true.
Proof.
  induction n as [|n IH]; intros tick; [reflexivity|].
  cbn [wait_for_build].
  destruct (batch_get_builds w tick) as [s|st]; [|reflexivity].
  rewrite (bind_Next (run _ _) _ s) by reflexivity.
  rewrite (bind_Next (echo _ _) _ tt) by reflexivity.
  destruct (String.eqb s "SUCCEEDED"); [reflexivity|].
  destruct (build_failure_status s); [reflexivity|].
  rewrite (bind_Next (sleep 10) _ tt) by reflexivity.
  simpl. apply IH.
Qed.

(** One pass of the rollout loop runs nothing but its poll and [echo]. *)
Lemma monitor_tick_events w cfg tick b :
  forallb (fun e => is_describe e || is_echo e || is_sleep e)
          (trace (monitor_tick w cfg tick b)) = true.
Proof.
  unfold monitor_tick.
  destruct (describe_services w tick) as [doc|st]; [|reflexivity].
  destruct doc as [[| | |]|members]; cbn; try reflexivity.
  all: repeat match goal with |- context [if ?c then _ else _] => destruct c end.
  all: reflexivity.
Qed.

Lemma monitor_trace_events w cfg n :
  forall tick b E,
    forallb (fun e => is_describe e || is_echo e || is_sleep e)
            (trace (monitor_deployment w cfg n tick b E)) = true.
Proof.
  induction n as [|n IH]; intros tick b E.
  - simpl. destruct (negb b && (E <? MAX_WAIT_TIME)%Z); reflexivity.
  - cbn [monitor_deployment].
    destruct (negb b && (E <? MAX_WAIT_TIME)%Z); [|reflexivity].
    rewrite bind_eq. cbn [trace]. rewrite forallb_app, monitor_tick_events.
    destruct (res (monitor_tick w cfg tick b)) as [b'|st|]; [|reflexivity..].
    rewrite (bind_Next (sleep 10) _ tt) by reflexivity.
    simpl. apply IH.
Qed.

Lemma not_start_build e :
  is_build_poll e || is_describe e || is_echo e || is_sleep e = true ->
  is_start_build e = false.
Proof.
  destruct e as [o t|argv|z]; try reflexivity.
  unfold is_build_poll, is_describe, is_start_build, is_echo, is_sleep, is_run.
  rewrite !orb_false_r.
  destruct argv as [|a argv]; [reflexivity|]. cbn -[String.eqb].
  destruct (String.eqb "aws" a); [|reflexivity]. cbn -[String.eqb].
  destruct argv as [|b argv]; [reflexivity|]. cbn -[String.eqb].
  destruct (String.eqb_spec "codebuild" b) as [<-|Hb].
  - cbn -[String.eqb].
    destruct argv as [|c argv]; [reflexivity|]. cbn -[String.eqb].
    destruct (String.eqb_spec "batch-get-builds" c) as [<-|Hc]; [reflexivity|].
    discriminate.
  - cbn -[String.eqb].
    destruct (String.eqb_spec "ecs" b) as [<-|]; [|discriminate].
    reflexivity.
Qed.

Lemma submit_slept w cfg : slept (trace (submit w cfg)) = 0%Z.
Proof.
  unfold submit.
  destruct (cd_docker w) as [[]|]; [|reflexivity].
  destruct (mktemp_d w) as [T|]; [|reflexivity].
  destruct (zip_r w) as [[]|]; [|reflexivity].
  destruct (s3_cp w) as [[]|]; [|reflexivity].
  destruct (update_project w) as [[]|]; [|reflexivity].
  destruct (start_build w) as [B|]; reflexivity.
Qed.

(** A build is started only by the last command of steps 1 to 4, after
    every earlier command of these steps succeeded. *)
Lemma submit_start_build w cfg :
  let t := trace (submit w cfg) in
  count_events is_start_build t <= 1
  /\ (count_events is_start_build t = 1 ->
      cd_docker w = Done tt /\ (exists T, mktemp_d w = Done T) /\ zip_r w = Done tt
      /\ s3_cp w = Done tt /\ update_project w = Done tt).
Proof.
  unfold submit.
  destruct (cd_docker w) as [[]|]; [|split; [simpl; lia|discriminate]].
  destruct (mktemp_d w) as [T|]; [|split; [simpl; lia|discriminate]].
  destruct (zip_r w) as [[]|]; [|split; [simpl; lia|discriminate]].
  destruct (s3_cp w) as [[]|]; [|split; [simpl; lia|discriminate]].
  destruct (update_project w) as [[]|]; [|split; [simpl; lia|discriminate]].
  destruct (start_build w) as [B|]; (split; [simpl; lia|]); intros _; eauto 10.
Qed.

Lemma deploy_trace_counts w cfg n :
  let t := trace (deploy w cfg n) in
  count_events is_update_service t = 1 /\ count_events is_curl t = 0
  /\ count_events is_start_build t = 0.
Proof.
  unfold deploy.
  destruct (update_service w) as [[]|st]; [|repeat split].
  rewrite (bind_Next (echo _ _) _ tt) by reflexivity.
  rewrite (bind_Next (run _ _) _ tt) by reflexivity.
  rewrite (bind_Next (echo _ _) _ tt) by reflexivity.
  rewrite (bind_Next (echo _ _) _ tt) by reflexivity.
  rewrite (bind_Next (echo _ _) _ tt) by reflexivity.
  pose proof (monitor_trace_quiet w cfg n 0 false 0%Z) as (M1 & M2).
  pose proof (monitor_trace_events w cfg n 0 false 0%Z) as M3.
  cbn [trace echo run app]. simpl. rewrite M1, M2.
  rewrite (count_zero_of_forallb _ is_start_build _ M3).
  - repeat split.
  - intros e He. apply not_start_build.
    rewrite <- !orb_assoc in *. rewrite orb_true_iff. right. exact He.
Qed.

Lemma finish_trace_counts w cfg T b :
  let t := trace (finish w cfg T b) in
  count_events is_update_service t = 0 /\ count_events is_start_build t = 0
  /\ count_events is_curl t = 1 /\ count_events is_describe t = 0
  /\ slept t = 30%Z.
Proof.
  rewrite finish_eq. cbn [trace].
  destruct b; destruct (String.eqb _ "healthy"); repeat split.
Qed.

Lemma wait_next_succeeded w cfg B n :
  forall tick,
    res (wait_for_build w cfg B n tick) = Next tt ->
    exists k, k < tick + n /\ batch_get_builds w k = Done "SUCCEEDED".
Proof.
  induction n as [|n IH]; intros tick; [discriminate|].
  cbn [wait_for_build].
  destruct (batch_get_builds w tick) as [s|st] eqn:Hs; [|discriminate].
  rewrite (bind_Next (run _ _) _ s) by reflexivity.
  rewrite (bind_Next (echo _ _) _ tt) by reflexivity.
  destruct (String.eqb_spec s "SUCCEEDED") as [->|Hne].
  - intros _. exists tick. split; [lia|exact Hs].
  - destruct (build_failure_status s); [discriminate|].
    rewrite (bind_Next (sleep 10) _ tt) by reflexivity.
    cbn [res]. intros H. destruct (IH (S tick) H) as (k & Hk & E).
    exists k. split; [lia|exact E].
Qed.

(** *** What the script does and never does *)

(** X1.  When the build has succeeded and the first conclusive rollout poll
    reports FAILED, the script exits with status 1 right after the failure
    line: the poll, the progress line and the failure line are its last
    events.  It has polled the rollout once per inconclusive answer plus
    once, has slept ten seconds per inconclusive poll of either loop and not
    at all after the verdict, and has made no health request. *)
Theorem rollout_failure_is_fatal w T B k j st d n :
  submitted w T B ->
  first_terminal_from w 0 k "SUCCEEDED" ->
  update_service w = Done tt ->
  rollout_pending_for w j ->
  describe_services w j = Done (describe_json st d) ->
  rolloutState d = FAILED ->
  j < 60 -> k < n -> j < n ->
  let cfg := configuration (environ w) in
  let r := script n w in
  exit_code (res r) = Some 1%Z
  /\ (exists pre,
        trace r = pre ++ [Run (describe_services_argv cfg); progress_line d;
                          deployment_failed_line])
  /\ count_events is_describe (trace r) = S j
  /\ count_events is_curl (trace r) = 0
  /\ slept (trace r) = (10 * Z.of_nat k + 10 * Z.of_nat j)%Z.
Proof.
  intros Hsub Hft Hup Hpend Hd Hf Hj Hk Hjn cfg r.
  pose proof (submit_ok w cfg T B Hsub) as Hs.
  destruct (wait_succeeds w cfg B k n Hft Hk) as (Hw & Hwz).
  destruct (monitor_skips_pending w cfg j (n - j) 0) as (pre & E1 & E2 & E3 & E4);
    [lia|exact Hpend|].
  replace (j + (n - j)) with n in * by lia.
  change (10 * Z.of_nat 0)%Z with 0%Z in *. change (0 + j) with j in *.
  destruct (n - j) as [|m] eqn:Hm; [lia|].
  rewrite (monitor_step_exit _ _ _ _ _
             [Run (describe_services_argv cfg); progress_line d; deployment_failed_line] 1)
    in E1, E2
    by (first [apply Z.ltb_lt; unfold MAX_WAIT_TIME; lia
              |apply (monitor_tick_failed _ _ _ _ st d); assumption]).
  cbn [trace res] in E1, E2.
  pose proof (deploy_ok w cfg n Hup) as Hdep.
  assert (Hdr : res (deploy w cfg n) = Exit 1) by (rewrite Hdep; exact E2).
  subst r. rewrite (script_deploy_exit n w T B 1 Hs Hw Hdr). fold cfg.
  rewrite Hdep. cbn [trace res]. rewrite E1.
  pose proof (submit_trace_quiet w cfg) as (_ & Q2 & Q3).
  pose proof (wait_trace_quiet w cfg B n 0) as (_ & W2 & W3).
  pose proof (monitor_trace_quiet w cfg n 0 false 0%Z) as (M1 & _).
  rewrite E1, count_events_app in M1.
  split; [reflexivity|]. split; [|split; [|split]].
  - exists (trace (submit w cfg) ++ step5_banner ++ trace (wait_for_build w cfg B n 0)
            ++ step6_events cfg ++ pre).
    rewrite <- !app_assoc. reflexivity.
  - rewrite !count_events_app, Q2, W2, E4. simpl. lia.
  - rewrite !count_events_app, Q3, W3.
    change (count_events is_curl step5_banner) with 0.
    change (count_events is_curl (step6_events cfg)) with 0.
    simpl in M1. simpl. lia.
  - rewrite !slept_app, submit_slept, Hwz, E3. simpl. lia.
Qed.

Lemma rollout_failure_is_fatal_witness :
  exit_code (res (script 3 world_rollout_fails)) = Some 1%Z
  /\ count_events is_curl (trace (script 3 world_rollout_fails)) = 0.
Proof.
  assert (Hsub : submitted world_rollout_fails "/tmp/tmp.Hq3vXk" "deepseek-ocr-docker-build:4b7e")
    by (repeat split).
  assert (Hft : first_terminal_from world_rollout_fails 0 0 "SUCCEEDED").
  { split; [|split; reflexivity]. intros i Hi. lia. }
  assert (Hpend : rollout_pending_for world_rollout_fails 2).
  { intros i Hi. exists "PRIMARY", status_1_of_2.
    split; [destruct i as [|[|i]]; [reflexivity..|lia]|].
    split; [intros (Hc & _); discriminate Hc|discriminate]. }
  destruct (rollout_failure_is_fatal world_rollout_fails _ _ 0 2 "PRIMARY" status_failed 3
              Hsub Hft eq_refl Hpend eq_refl eq_refl
              ltac:(lia) ltac:(lia) ltac:(lia)) as (H1 & _ & _ & H4 & _).
  split; assumption.
Defined.

(** X2.  The happy path: the build succeeds after [k] pending polls and the
    rollout converges at its poll number [j] after [j] inconclusive ones.
    The script ends with exit status 0; after the success line of the
    rollout come the 10-second sleep of the loop, the health banner, the
    30-second sleep and the health request, with no timeout warning in
    between.  The rollout was polled [j + 1] times, one health request was
    made, and the sleeps add up to [10k + 10(j+1) + 30] seconds. *)
Theorem converged_rollout_ends_with_health_check w T B k j st d n :
  submitted w T B ->
  first_terminal_from w 0 k "SUCCEEDED" ->
  update_service w = Done tt ->
  rollout_pending_for w j ->
  describe_services w j = Done (describe_json st d) ->
  convergent d ->
  j < 60 -> k < n -> j < n ->
  let cfg := configuration (environ w) in
  let r := script n w in
  exit_code (res r) = Some 0%Z
  /\ (exists pre post,
        trace r = pre ++ [Run (describe_services_argv cfg); progress_line d;
                          deployment_completed_line; Sleep 10;
                          step8_banner; Sleep 30; Run curl_health_argv] ++ post)
  /\ count_events is_describe (trace r) = S j
  /\ count_events is_curl (trace r) = 1
  /\ slept (trace r) = (10 * Z.of_nat k + 10 * Z.of_nat (S j) + 30)%Z.
Proof.
  intros Hsub Hft Hup Hpend Hd Hc Hj Hk Hjn cfg r.
  pose proof (submit_ok w cfg T B Hsub) as Hs.
  destruct (wait_succeeds w cfg B k n Hft Hk) as (Hw & Hwz).
  destruct (monitor_skips_pending w cfg j (n - j) 0) as (pre & E1 & E2 & E3 & E4);
    [lia|exact Hpend|].
  replace (j + (n - j)) with n in * by lia.
  change (10 * Z.of_nat 0)%Z with 0%Z in *. change (0 + j) with j in *.
  destruct (n - j) as [|m] eqn:Hm; [lia|].
  rewrite (monitor_converges w cfg m j _ st d) in E1, E2
    by (first [unfold MAX_WAIT_TIME; lia|assumption]).
  cbn [trace res] in E1, E2.
  pose proof (deploy_ok w cfg n Hup) as Hdep.
  assert (Hdr : res (deploy w cfg n) = Next true) by (rewrite Hdep; exact E2).
  subst r. rewrite (script_finished n w T B true Hs Hw Hdr). fold cfg.
  rewrite finish_eq, Hdep. cbn [trace res]. rewrite E1.
  pose proof (submit_trace_quiet w cfg) as (_ & Q2 & Q3).
  pose proof (wait_trace_quiet w cfg B n 0) as (_ & W2 & W3).
  pose proof (monitor_trace_quiet w cfg n 0 false 0%Z) as (M1 & _).
  rewrite E1, count_events_app in M1.
  split; [reflexivity|]. split; [|split; [|split]].
  - exists (trace (submit w cfg) ++ step5_banner ++ trace (wait_for_build w cfg B n 0)
            ++ step6_events cfg ++ pre).
    exists ((if String.eqb (health_value w) "healthy" then healthy_lines
             else health_warning_lines (health_value w)) ++ summary_events cfg T).
    rewrite <- !app_assoc. reflexivity.
  - rewrite !count_events_app, Q2, W2, E4.
    destruct (String.eqb _ "healthy"); simpl; lia.
  - rewrite !count_events_app, Q3, W3.
    change (count_events is_curl step5_banner) with 0.
    change (count_events is_curl (step6_events cfg)) with 0.
    simpl in M1.
    destruct (String.eqb _ "healthy"); simpl; lia.
  - rewrite !slept_app, submit_slept, Hwz, E3.
    destruct (String.eqb _ "healthy"); simpl; lia.
Qed.

Lemma converged_rollout_ends_with_health_check_witness :
  exit_code (res (script 3 world_converges_third)) = Some 0%Z
  /\ slept (trace (script 3 world_converges_third)) = 70%Z.
Proof.
  assert (Hsub : submitted world_converges_third "/tmp/tmp.Hq3vXk" "deepseek-ocr-docker-build:4b7e")
    by (repeat split).
  assert (Hft : first_terminal_from world_converges_third 0 1 "SUCCEEDED").
  { split; [|split; reflexivity].
    intros i Hi. exists "IN_PROGRESS". destruct i; [split; reflexivity|lia]. }
  assert (Hpend : rollout_pending_for world_converges_third 2).
  { intros i Hi. exists "PRIMARY", status_1_of_2.
    split; [destruct i as [|[|i]]; [reflexivity..|lia]|].
    split; [intros (Hc & _); discriminate Hc|discriminate]. }
  assert (Hc : convergent status_2_of_2) by (unfold convergent; simpl; repeat split; lia).
  destruct (converged_rollout_ends_with_health_check world_converges_third _ _ 1 2
              "PRIMARY" status_2_of_2 3
              Hsub Hft eq_refl Hpend eq_refl Hc
              ltac:(lia) ltac:(lia) ltac:(lia)) as (H1 & _ & _ & _ & H5).
  split; assumption.
Defined.

Lemma script_eq n w :
  let cfg := configuration (environ w) in
  script n w =
    submit w cfg ≫= fun '(TEMP_DIR, BUILD_ID) =>
      mkSh step5_banner (Next tt) ≫= fun _ =>
        wait_for_build w cfg BUILD_ID n 0 ≫= fun _ =>
          deploy w cfg n ≫= fun DEPLOYMENT_COMPLETE =>
            finish w cfg TEMP_DIR DEPLOYMENT_COMPLETE.
Proof.
  cbv zeta. unfold script.
  rewrite !(bind_eq (submit w (configuration (environ w)))).
  destruct (res (submit w (configuration (environ w)))) as [[T B]|st|]; [|reflexivity..].
  rewrite (bind_Next (echo _ _) _ tt) by reflexivity.
  rewrite (bind_Next (echo _ _) _ tt) by reflexivity.
  rewrite (bind_Next (mkSh step5_banner (Next tt)) _ tt) by reflexivity.
  reflexivity.
Qed.

(** X3.  In every world the rollout is triggered at most once, and only
    after a build poll has answered SUCCEEDED; a build is started at most
    once, and only after packaging, upload and project update succeeded. *)
Theorem remote_triggers_fire_at_most_once w n :
  let t := trace (script n w) in
  count_events is_update_service t <= 1
  /\ (count_events is_update_service t = 1 ->
      exists k, k < n /\ batch_get_builds w k = Done "SUCCEEDED")
  /\ count_events is_start_build t <= 1
  /\ (count_events is_start_build t = 1 ->
      zip_r w = Done tt /\ s3_cp w = Done tt /\ update_project w = Done tt).
Proof.
  cbv zeta. rewrite script_eq. cbv zeta.
  set (cfg := configuration (environ w)).
  pose proof (submit_trace_quiet w cfg) as (Q1 & _ & _).
  pose proof (submit_start_build w cfg) as (S1 & S2).
  rewrite bind_eq. cbn [trace].
  destruct (res (submit w cfg)) as [[T B]|st|].
  2,3: rewrite app_nil_r, Q1; split; [lia|]; split; [discriminate|]; split; [exact S1|];
       intros H; apply S2 in H; tauto.
  rewrite bind_eq. cbn [trace res].
  pose proof (wait_trace_quiet w cfg B n 0) as (W1 & _ & _).
  pose proof (wait_trace_events w cfg B n 0) as W2.
  assert (W3 : count_events is_start_build (trace (wait_for_build w cfg B n 0)) = 0).
  { apply (count_zero_of_forallb _ _ _ W2). intros e He. apply not_start_build.
    destruct (is_build_poll e), (is_echo e), (is_sleep e), (is_describe e);
      try reflexivity; discriminate He. }
  rewrite bind_eq. cbn [trace res].
  pose proof (wait_next_succeeded w cfg B n 0) as Hok.
  destruct (res (wait_for_build w cfg B n 0)) as [[]|st|].
  2,3: rewrite !count_events_app, Q1, W1, W3; simpl; rewrite !Nat.add_0_r;
       split; [lia|]; split; [discriminate|]; split; [exact S1|];
       intros H; apply S2 in H; tauto.
  rewrite bind_eq. cbn [trace res].
  pose proof (deploy_trace_counts w cfg n) as (D1 & _ & D3).
  assert (F : count_events is_update_service
                (match res (deploy w cfg n) with
                 | Next a => trace (finish w cfg T a)
                 | _ => []
                 end) = 0
              /\ count_events is_start_build
                   (match res (deploy w cfg n) with
                    | Next a => trace (finish w cfg T a)
                    | _ => []
                    end) = 0).
  { destruct (res (deploy w cfg n)) as [b|st|]; [|split; reflexivity..].
    pose proof (finish_trace_counts w cfg T b) as (F1 & F2 & _). split; assumption. }
  destruct F as (F1 & F2).
  rewrite !count_events_app, Q1, W1, W3, D1, D3, F1, F2. simpl.
  rewrite !Nat.add_0_r.
  split; [lia|]. split; [intros _; apply Hok; reflexivity|].
  split; [exact S1|]. intros H; apply S2 in H; tauto.
Qed.

(** X4.  When the first terminal build status is SUCCEEDED the rollout is
    triggered exactly once, whatever happens afterwards, and the trigger
    follows the success line at once: after the banner of step 6 comes
    [aws ecs update-service --force-new-deployment]. *)
Theorem build_success_triggers_rollout_once w T B k n :
  submitted w T B ->
  first_terminal_from w 0 k "SUCCEEDED" ->
  k < n ->
  let cfg := configuration (environ w) in
  let r := script n w in
  count_events is_update_service (trace r) = 1
  /\ count_events is_build_poll (trace r) = S k
  /\ exists pre post,
       trace r = pre ++ [Run (batch_get_builds_argv cfg B); build_status_line "SUCCEEDED";
                         build_succeeded_line;
                         Echo "-e" ("\n" +:+ YELLOW
                                    +:+ "🚀 Step 6: Updating ECS service with new image..."
                                    +:+ NC);
                         Run (update_service_argv cfg)] ++ post.
Proof.
  intros Hsub (Hpre & Hk & Ht) Hkn cfg r.
  pose proof (submit_ok w cfg T B Hsub) as Hs.
  destruct (wait_skips_pending w cfg B k (n - k) 0 Hpre) as (pre & E1 & E2 & _ & E4).
  replace (k + (n - k)) with n in * by lia.
  destruct (n - k) as [|m] eqn:Hm; [lia|].
  rewrite (wait_step_succeeded _ _ _ _ _ Hk) in E1, E2. cbn [trace res] in E1, E2.
  subst r. rewrite script_eq. cbv zeta. fold cfg.
  rewrite (bind_Next (submit w cfg) _ (T, B)) by exact Hs. cbv beta iota.
  rewrite (bind_Next (mkSh step5_banner (Next tt)) _ tt) by reflexivity.
  rewrite (bind_Next (wait_for_build w cfg B n 0) _ tt) by exact E2.
  rewrite bind_eq. cbn [trace res]. rewrite E1.
  pose proof (submit_trace_quiet w cfg) as (Q1 & _ & _).
  pose proof (wait_trace_quiet w cfg B n 0) as (W1 & _ & _).
  rewrite E1 in W1.
  pose proof (deploy_trace_counts w cfg n) as (D1 & _ & _).
  assert (Q4 : count_events is_build_poll (trace (submit w cfg)) = 0).
  { unfold submit. destruct Hsub as (H1 & H2 & H3 & H4 & H5 & H6).
    rewrite H1, H2, H3, H4, H5, H6. reflexivity. }
  assert (D4 : count_events is_build_poll (trace (deploy w cfg n)) = 0).
  { apply (count_zero_of_forallb (fun e => is_update_service e || is_describe e
                                           || is_echo e || is_sleep e)).
    - destruct (update_service w) as [[]|st] eqn:Hu;
        [|unfold deploy; rewrite Hu; reflexivity].
      rewrite (deploy_ok w cfg n Hu).
      cbn [trace]. rewrite forallb_app. simpl.
      pose proof (monitor_trace_events w cfg n 0 false 0%Z) as M.
      rewrite forallb_forall in *. intros e He. apply M in He.
      destruct (is_update_service e), (is_describe e), (is_echo e), (is_sleep e);
        try reflexivity; discriminate He.
    - intros e. destruct e as [o t|argv|z]; try reflexivity.
      unfold is_update_service, is_describe, is_build_poll, is_echo, is_sleep, is_run.
      rewrite !orb_false_r.
      destruct argv as [|a [|b argv]]; try reflexivity; cbn -[String.eqb].
      + destruct (String.eqb "aws" a); reflexivity.
      + destruct (String.eqb "aws" a); [|reflexivity]. cbn -[String.eqb].
        destruct (String.eqb_spec "ecs" b) as [<-|]; [reflexivity|].
        rewrite orb_false_l. cbn -[String.eqb]. discriminate. }
  assert (F : count_events is_update_service
                (match res (deploy w cfg n) with
                 | Next a => trace (finish w cfg T a)
                 | _ => []
                 end) = 0
              /\ count_events is_build_poll
                   (match res (deploy w cfg n) with
                    | Next a => trace (finish w cfg T a)
                    | _ => []
                    end) = 0).
  { destruct (res (deploy w cfg n)) as [b|st|]; [|split; reflexivity..].
    rewrite finish_eq. cbn [trace].
    destruct b; destruct (String.eqb _ "healthy"); split; reflexivity. }
  destruct F as (F1 & F2).
  split; [|split].
  - rewrite !count_events_app, Q1, D1, F1.
    rewrite !count_events_app in W1. simpl in W1. simpl. lia.
  - rewrite !count_events_app, Q4, D4, F2, E4. simpl. lia.
  - exists (trace (submit w cfg) ++ step5_banner ++ pre).
    unfold deploy.
    rewrite (bind_Next (echo _ _) _ tt) by reflexivity.
    rewrite bind_eq. cbn [trace echo run app].
    eexists. rewrite <- !app_assoc. cbn [app]. reflexivity.
Qed.

Lemma build_success_triggers_rollout_once_witness :
  count_events is_update_service (trace (script 2 world_converges_third)) = 1
  /\ count_events is_build_poll (trace (script 2 world_converges_third)) = 2.
Proof.
  assert (Hsub : submitted world_converges_third "/tmp/tmp.Hq3vXk" "deepseek-ocr-docker-build:4b7e")
    by (repeat split).
  assert (Hft : first_terminal_from world_converges_third 0 1 "SUCCEEDED").
  { split; [|split; reflexivity].
    intros i Hi. exists "IN_PROGRESS". destruct i; [split; reflexivity|lia]. }
  destruct (build_success_triggers_rollout_once world_converges_third _ _ 1 2
              Hsub Hft ltac:(lia)) as (H1 & H2 & _).
  split; assumption.
Defined.

(** X5.  The script runs under [set -e]: when a build poll itself fails
    (the command ends with a non-zero status) after [k] pending polls, the
    script exits at once with that status.  The failed poll is its last
    event: the failure is not retried, and after [k + 1] polls in all the
    rollout is not triggered and no health request is made. *)
Theorem failed_build_poll_aborts w T B k st n :
  submitted w T B ->
  build_pending_for w k ->
  batch_get_builds w k = Failed st ->
  k < n ->
  let cfg := configuration (environ w) in
  let r := script n w in
  exit_code (res r) = Some (Z.pos st)
  /\ (exists pre, trace r = pre ++ [Run (batch_get_builds_argv cfg B)])
  /\ count_events is_build_poll (trace r) = S k
  /\ count_events is_update_service (trace r) = 0
  /\ count_events is_curl (trace r) = 0.
Proof.
  intros Hsub Hpre Hk Hkn cfg r.
  pose proof (submit_ok w cfg T B Hsub) as Hs.
  destruct (wait_skips_pending w cfg B k (n - k) 0 Hpre) as (pre & E1 & E2 & _ & E4).
  replace (k + (n - k)) with n in * by lia.
  destruct (n - k) as [|m] eqn:Hm; [lia|].
  assert (Hstep : wait_for_build w cfg B (S m) (0 + k)
                  = mkSh [Run (batch_get_builds_argv cfg B)] (Exit (Z.pos st))).
  { cbn [wait_for_build]. change (0 + k) with k. rewrite Hk. reflexivity. }
  rewrite Hstep in E1, E2. cbn [trace res] in E1, E2.
  subst r. rewrite (script_build_exit n w T B (Z.pos st) Hs E2). fold cfg.
  cbn [trace res].
  pose proof (submit_trace_quiet w cfg) as (Q1 & _ & Q3).
  pose proof (wait_trace_quiet w cfg B n 0) as (W1 & _ & W3).
  assert (Q4 : count_events is_build_poll (trace (submit w cfg)) = 0).
  { unfold submit. destruct Hsub as (H1 & H2 & H3 & H4 & H5 & H6).
    rewrite H1, H2, H3, H4, H5, H6. reflexivity. }
  split; [reflexivity|]. split; [|split; [|split]].
  - exists (trace (submit w cfg) ++ step5_banner ++ pre).
    rewrite E1, <- !app_assoc. reflexivity.
  - rewrite !count_events_app, Q4, E1, count_events_app, E4. simpl. lia.
  - rewrite !count_events_app, Q1, W1. reflexivity.
  - rewrite !count_events_app, Q3, W3. reflexivity.
Qed.

Lemma failed_build_poll_aborts_witness :
  exit_code (res (script 2 world_build_poll_breaks)) = Some 255%Z
  /\ count_events is_update_service (trace (script 2 world_build_poll_breaks)) = 0.
Proof.
  assert (Hsub : submitted world_build_poll_breaks "/tmp/tmp.Hq3vXk"
                   "deepseek-ocr-docker-build:4b7e") by (repeat split).
  assert (Hpre : build_pending_for world_build_poll_breaks 1).
  { intros i Hi. exists "IN_PROGRESS". destruct i; [split; reflexivity|lia]. }
  destruct (failed_build_poll_aborts world_build_poll_breaks _ _ 1 255 2
              Hsub Hpre eq_refl ltac:(lia)) as (H1 & _ & _ & H4 & _).
  split; assumption.
Defined.

(** X6.  Likewise for the rollout: when a rollout poll itself fails after
    [j] inconclusive polls, the script exits at once with the status of the
    failed command; the failed poll is its last event, and neither the
    timeout warning path nor the health check is reached. *)
Theorem failed_rollout_poll_aborts w T B k j st n :
  submitted w T B ->
  first_terminal_from w 0 k "SUCCEEDED" ->
  update_service w = Done tt ->
  rollout_pending_for w j ->
  describe_services w j = Failed st ->
  j < 60 -> k < n -> j < n ->
  let cfg := configuration (environ w) in
  let r := script n w in
  exit_code (res r) = Some (Z.pos st)
  /\ (exists pre, trace r = pre ++ [Run (describe_services_argv cfg)])
  /\ count_events is_describe (trace r) = S j
  /\ count_events is_curl (trace r) = 0.
Proof.
  intros Hsub Hft Hup Hpend Hd Hj Hk Hjn cfg r.
  pose proof (submit_ok w cfg T B Hsub) as Hs.
  destruct (wait_succeeds w cfg B k n Hft Hk) as (Hw & _).
  destruct (monitor_skips_pending w cfg j (n - j) 0) as (pre & E1 & E2 & _ & E4);
    [lia|exact Hpend|].
  replace (j + (n - j)) with n in * by lia.
  change (10 * Z.of_nat 0)%Z with 0%Z in *. change (0 + j) with j in *.
  destruct (n - j) as [|m] eqn:Hm; [lia|].
  assert (Htick : monitor_tick w cfg j false
                  = mkSh [Run (describe_services_argv cfg)] (Exit (Z.pos st))).
  { unfold monitor_tick. rewrite Hd. reflexivity. }
  assert (HE : (10 * Z.of_nat j <? MAX_WAIT_TIME)%Z = true)
    by (apply Z.ltb_lt; unfold MAX_WAIT_TIME; lia).
  rewrite (monitor_step_exit w cfg m j _ _ _ HE Htick) in E1, E2.
  cbn [trace res] in E1, E2.
  pose proof (deploy_ok w cfg n Hup) as Hdep.
  assert (Hdr : res (deploy w cfg n) = Exit (Z.pos st)) by (rewrite Hdep; exact E2).
  subst r. rewrite (script_deploy_exit n w T B _ Hs Hw Hdr). fold cfg.
  rewrite Hdep. cbn [trace res]. rewrite E1.
  pose proof (submit_trace_quiet w cfg) as (_ & Q2 & Q3).
  pose proof (wait_trace_quiet w cfg B n 0) as (_ & W2 & W3).
  pose proof (monitor_trace_quiet w cfg n 0 false 0%Z) as (M1 & _).
  rewrite E1, count_events_app in M1.
  split; [reflexivity|]. split; [|split].
  - exists (trace (submit w cfg) ++ step5_banner ++ trace (wait_for_build w cfg B n 0)
            ++ step6_events cfg ++ pre).
    rewrite <- !app_assoc. reflexivity.
  - rewrite !count_events_app, Q2, W2, E4. simpl. lia.
  - rewrite !count_events_app, Q3, W3.
    change (count_events is_curl step5_banner) with 0.
    change (count_events is_curl (step6_events cfg)) with 0.
    simpl in M1. simpl. lia.
Qed.

Lemma failed_rollout_poll_aborts_witness :
  exit_code (res (script 2 world_rollout_poll_breaks)) = Some 254%Z
  /\ count_events is_curl (trace (script 2 world_rollout_poll_breaks)) = 0.
Proof.
  assert (Hsub : submitted world_rollout_poll_breaks "/tmp/tmp.Hq3vXk"
                   "deepseek-ocr-docker-build:4b7e") by (repeat split).
  assert (Hft : first_terminal_from world_rollout_poll_breaks 0 0 "SUCCEEDED").
  { split; [|split; reflexivity]. intros i Hi. lia. }
  assert (Hpend : rollout_pending_for world_rollout_poll_breaks 1).
  { intros i Hi. exists "PRIMARY", status_1_of_2.
    split; [destruct i; [reflexivity|lia]|].
    split; [intros (Hc & _); discriminate Hc|discriminate]. }
  destruct (failed_rollout_poll_aborts world_rollout_poll_breaks _ _ 0 1 254 2
              Hsub Hft eq_refl Hpend eq_refl
              ltac:(lia) ltac:(lia) ltac:(lia)) as (H1 & _ & _ & H4).
  split; assumption.
Defined.

(** *** The last path segment *)

Lemma append_empty_r s : s +:+ EmptyString = s.
Proof.
  induction s as [|c s IH]; [reflexivity|].
  change (String c (s +:+ EmptyString) = String c s). f_equal. exact IH.
Qed.

Lemma append_assoc s t u : (s +:+ t) +:+ u = s +:+ (t +:+ u).
Proof.
  induction s as [|c s IH]; [reflexivity|].
  change (String c ((s +:+ t) +:+ u) = String c (s +:+ (t +:+ u))). f_equal. exact IH.
Qed.

Lemma after_last_slash_from_spec s :
  forall acc,
    has_slash acc = false ->
    has_slash (after_last_slash_from acc s) = false
    /\ exists p, acc +:+ s = p +:+ after_last_slash_from acc s
                 /\ (p = EmptyString \/ exists q, p = q +:+ "/").
Proof.
  unfold has_slash.
  induction s as [|c s IH]; intros acc Hacc; cbn [after_last_slash_from].
  - split; [exact Hacc|]. exists EmptyString. split; [|left; reflexivity].
    apply append_empty_r.
  - destruct (is_slash c) eqn:Hc.
    + apply Ascii.eqb_eq in Hc. subst c.
      destruct (IH EmptyString eq_refl) as (H1 & p & E & Hp).
      split; [exact H1|].
      exists (acc +:+ "/" +:+ p). split.
      * rewrite !append_assoc. cbn in E. rewrite <- E. reflexivity.
      * right. destruct Hp as [->|(q & ->)].
        -- exists acc. reflexivity.
        -- exists (acc +:+ "/" +:+ q). rewrite !append_assoc. reflexivity.
    + destruct (IH (acc +:+ String c EmptyString)) as (H1 & p & E & Hp).
      { apply negb_false_iff. rewrite all_chars_app. apply negb_false_iff in Hacc.
        rewrite Hacc. simpl. rewrite Hc. reflexivity. }
      split; [exact H1|]. exists p. split; [|exact Hp].
      rewrite <- E, append_assoc. reflexivity.
Qed.

(** X7.  [${BUILD_ID##*/}] (and the [split('/').pop()] of the helpers):
    the result contains no slash; the input is the result preceded by
    nothing or by a text that ends with a slash; and an input without a
    slash is returned as it is. *)
Theorem after_last_slash_is_last_segment s :
  has_slash (after_last_slash s) = false
  /\ (exists p, s = p +:+ after_last_slash s
                /\ (p = EmptyString \/ exists q, p = q +:+ "/"))
  /\ (has_slash s = false -> after_last_slash s = s).
Proof.
  destruct (after_last_slash_from_spec s EmptyString eq_refl) as (H1 & p & E & Hp).
  change (EmptyString +:+ s) with s in E. fold (after_last_slash s) in *.
  split; [exact H1|]. split; [exists p; split; assumption|].
  intros Hs. destruct Hp as [->|(q & ->)]; [symmetry; exact E|].
  exfalso. rewrite E in Hs. unfold has_slash in Hs.
  apply negb_false_iff in Hs. rewrite !all_chars_app in Hs.
  simpl in Hs. rewrite !andb_false_r in Hs. discriminate Hs.
Qed.

End DeployMore.

(** ** Facts about reading an object from S3 *)

Module S3Facts.
Import Eff S3.

Lemma run_bind_Return {E X A B} (m : Run E X A) (f : A -> Run E X B) a :
  outcome m = Return a -> m ≫= f = mkRun (effects m ++ effects (f a)) (outcome (f a)).
Proof.
  intros H. unfold mbind, run_bind. rewrite H. destruct (f a); reflexivity.
Qed.

Lemma run_bind_Throw {E X A B} (m : Run E X A) (f : A -> Run E X B) x :
  outcome m = Throw x -> m ≫= f = mkRun (effects m) (Throw x).
Proof. intros H. unfold mbind, run_bind. rewrite H. reflexivity. Qed.

Lemma catch_Return {E X A} (m : Run E X A) (h : X -> Run E X A) a :
  outcome m = Return a -> catch m h = m.
Proof. intros H. unfold catch. rewrite H. reflexivity. Qed.

Lemma catch_Throw {E X A} (m : Run E X A) (h : X -> Run E X A) x :
  outcome m = Throw x -> catch m h = mkRun (effects m ++ effects (h x)) (outcome (h x)).
Proof. intros H. unfold catch. rewrite H. destruct (h x); reflexivity. Qed.

Lemma formatS3Error_is_service_error e : is_service_error (formatS3Error e) = true.
Proof.
  unfold formatS3Error.
  destruct e; [reflexivity|..];
    repeat match goal with |- context [if ?c then _ else _] => destruct c end;
    reflexivity.
Qed.

(** Formatting what is already a service error keeps its message and files
    it under UNKNOWN_ERROR. *)
Lemma formatS3Error_again e :
  exists ty m orig,
    formatS3Error e = S3ServiceError ty m orig
    /\ m <> EmptyString
    /\ formatS3Error (formatS3Error e) = S3ServiceError UNKNOWN_ERROR m (formatS3Error e).
Proof.
  assert (Hne : forall p s, p +:+ s = EmptyString -> p = EmptyString).
  { intros [|c p] s' H; [reflexivity|discriminate H]. }
  assert (Hcase : forall ty m orig,
             m <> EmptyString ->
             formatS3Error (S3ServiceError ty m orig)
             = S3ServiceError UNKNOWN_ERROR m (S3ServiceError ty m orig)).
  { intros ty m orig Hm. unfold formatS3Error. cbn [message_of name_of].
    apply String.eqb_neq in Hm. rewrite Hm. reflexivity. }
  assert (H1 : exists ty m orig,
             formatS3Error e = S3ServiceError ty m orig /\ m <> EmptyString).
  { unfold formatS3Error.
    destruct e as [|n msg|ty msg orig].
    - do 3 eexists. split; [reflexivity|discriminate].
    - cbn [message_of name_of].
      destruct (String.eqb msg EmptyString) eqn:Hm;
        repeat match goal with |- context [if ?c then _ else _] => destruct c end.
      all: do 3 eexists; split; [reflexivity|].
      all: try apply String.eqb_neq in Hm.
      all: first [discriminate | exact Hm | intros H; apply Hne in H; discriminate H].
    - cbn [message_of name_of].
      destruct (String.eqb msg EmptyString) eqn:Hm; cbn.
      all: do 3 eexists; split; [reflexivity|].
      all: try apply String.eqb_neq in Hm.
      all: first [discriminate | exact Hm]. }
  destruct H1 as (ty & m & orig & E & Hm).
  exists ty, m, orig. split; [exact E|]. split; [exact Hm|].
  rewrite E. apply Hcase. exact Hm.
Qed.

Lemma getFileAsBuffer_invalid w bucketName key :
  bucketName = EmptyString \/ key = EmptyString ->
  getFileAsBuffer w bucketName key =
    mkRun [] (Throw (S3ServiceError UNKNOWN_ERROR
                       (if String.eqb bucketName EmptyString
                        then "S3 bucket name is not configured"
                        else "File key is required")
                       (S3ServiceError INVALID_INPUT
                          (if String.eqb bucketName EmptyString
                           then "S3 bucket name is not configured"
                           else "File key is required")
                          Falsy))).
Proof.
  intros H. unfold getFileAsBuffer, validateInputs.
  destruct (String.eqb_spec bucketName EmptyString) as [->|Hb]; [reflexivity|].
  destruct H as [H| ->]; [contradiction|]. reflexivity.
Qed.

Lemma getFileAsBuffer_valid w bucketName key :
  bucketName <> EmptyString -> key <> EmptyString ->
  getFileAsBuffer w bucketName key =
    mkRun [SendGetObject bucketName key]
          (match get_object w bucketName key with
           | Rejected e => Throw (formatS3Error e)
           | Resolved response =>
               match Body response with
               | None => Throw (formatS3Error
                                  (ErrorObj "Error" "Image data not found in the input bucket"))
               | Some responseStream =>
                   match failure responseStream with
                   | Some err => Throw (formatS3Error (formatS3Error err))
                   | None => Return (concat (chunks responseStream))
                   end
               end
           end).
Proof.
  intros Hb Hk. apply String.eqb_neq in Hb, Hk.
  unfold getFileAsBuffer, validateInputs, getFile, send_get_object, read_stream.
  rewrite Hb, Hk.
  destruct (get_object w bucketName key) as [[[[cs [err|]]|] ct]|e]; reflexivity.
Qed.

(** X12.  [getFileAsBuffer] sends no request when the bucket name or the
    key is empty and exactly one [GetObject] otherwise.  It returns a buffer
    exactly when the request resolves with a body whose stream ends without
    error, and the buffer is then the concatenation of the chunks.  Whatever
    goes wrong, the caller sees an [S3ServiceError]. *)
Theorem getFileAsBuffer_reads_or_throws_service_error w bucketName key :
  let r := getFileAsBuffer w bucketName key in
  (bucketName = EmptyString \/ key = EmptyString -> effects r = [])
  /\ (bucketName <> EmptyString -> key <> EmptyString ->
      effects r = [SendGetObject bucketName key])
  /\ (forall data,
        outcome r = Return data <->
        bucketName <> EmptyString /\ key <> EmptyString
        /\ exists responseStream contentType,
             get_object w bucketName key
             = Resolved {| Body := Some responseStream; ContentType := contentType |}
             /\ failure responseStream = None
             /\ data = concat (chunks responseStream))
  /\ (forall e, outcome r = Throw e -> is_service_error e = true).
Proof.
  cbv zeta.
  destruct (String.eqb_spec bucketName EmptyString) as [Hb|Hb];
    [|destruct (String.eqb_spec key EmptyString) as [Hk|Hk]].
  - rewrite (getFileAsBuffer_invalid w bucketName key (or_introl Hb)).
    split; [reflexivity|]. split; [contradiction|]. split.
    + intros data. split; [discriminate|]. intros (H & _). contradiction.
    + intros e H. injection H as <-. reflexivity.
  - rewrite (getFileAsBuffer_invalid w bucketName key (or_intror Hk)).
    split; [reflexivity|]. split; [contradiction|]. split.
    + intros data. split; [discriminate|]. intros (_ & H & _). contradiction.
    + intros e H. injection H as <-. reflexivity.
  - rewrite (getFileAsBuffer_valid w bucketName key Hb Hk). cbn [effects outcome].
    split; [intros [H|H]; contradiction|]. split; [reflexivity|]. split.
    + intros data.
      destruct (get_object w bucketName key) as [[[[cs [err|]]|] ct]|e]; cbn.
      * split; [discriminate|]. intros (_ & _ & s' & ct' & H & Hf & _).
        injection H as <- _. discriminate Hf.
      * split.
        -- intros H. injection H as <-. repeat split; try assumption.
           do 2 eexists. repeat split.
        -- intros (_ & _ & s' & ct' & H & _ & ->). injection H as <- _. reflexivity.
      * split; [discriminate|]. intros (_ & _ & s' & ct' & H & _). discriminate H.
      * split; [discriminate|]. intros (_ & _ & s' & ct' & H & _). discriminate H.
    + intros e.
      destruct (get_object w bucketName key) as [[[[cs [err|]]|] ct]|e']; cbn;
        intros H; try discriminate H; injection H as <-;
        first [reflexivity | apply formatS3Error_is_service_error].
Qed.

(** X13.  How failures of [getFileAsBuffer] are filed.  A rejected request
    is classified by the name of the rejection: NoSuchKey gives
    FILE_NOT_FOUND with the message 'File not found: ...'.  An empty bucket
    name or key is thrown as INVALID_INPUT inside and reaches the caller
    wrapped once more, as UNKNOWN_ERROR with the same message; an error of
    the body stream is formatted twice and also arrives as UNKNOWN_ERROR,
    with the message of its first formatting. *)
Theorem getFileAsBuffer_failure_types w bucketName key :
  let r := getFileAsBuffer w bucketName key in
  (bucketName = EmptyString ->
   outcome r = Throw (S3ServiceError UNKNOWN_ERROR "S3 bucket name is not configured"
                        (S3ServiceError INVALID_INPUT "S3 bucket name is not configured" Falsy)))
  /\ (bucketName <> EmptyString -> key = EmptyString ->
      outcome r = Throw (S3ServiceError UNKNOWN_ERROR "File key is required"
                           (S3ServiceError INVALID_INPUT "File key is required" Falsy)))
  /\ (bucketName <> EmptyString -> key <> EmptyString ->
      (forall m, get_object w bucketName key = Rejected (ErrorObj "NoSuchKey" m) ->
                 m <> EmptyString ->
                 outcome r = Throw (S3ServiceError FILE_NOT_FOUND ("File not found: " +:+ m)
                                      (ErrorObj "NoSuchKey" m)))
      /\ (forall e, get_object w bucketName key = Rejected e ->
                    outcome r = Throw (formatS3Error e))
      /\ (forall responseStream contentType err,
            get_object w bucketName key
            = Resolved {| Body := Some responseStream; ContentType := contentType |} ->
            failure responseStream = Some err ->
            outcome r = Throw (S3ServiceError UNKNOWN_ERROR (message_of (formatS3Error err))
                                 (formatS3Error err)))).
Proof.
  cbv zeta. split; [|split].
  - intros ->. rewrite (getFileAsBuffer_invalid w _ key (or_introl eq_refl)). reflexivity.
  - intros Hb ->. rewrite (getFileAsBuffer_invalid w bucketName _ (or_intror eq_refl)).
    apply String.eqb_neq in Hb. rewrite Hb. reflexivity.
  - intros Hb Hk. rewrite (getFileAsBuffer_valid w bucketName key Hb Hk). cbn [outcome].
    split; [|split].
    + intros m -> Hm. unfold formatS3Error. cbn [message_of name_of].
      apply String.eqb_neq in Hm. rewrite Hm. reflexivity.
    + intros e ->. reflexivity.
    + intros s' ct err -> Hf. cbn [Body]. rewrite Hf.
      destruct (formatS3Error_again err) as (ty & m & orig & E & Hm & E2).
      rewrite E2, E. reflexivity.
Qed.

End S3Facts.

(** ** Facts about the request handler *)

Module HandlerFacts.
Import Eff Handler.

Lemma effects_bind {E X A B} (m : Run E X A) (f : A -> Run E X B) :
  effects (m ≫= f)
  = effects m ++ match outcome m with Return a => effects (f a) | Throw _ => [] end.
Proof.
  unfold mbind, run_bind.
  destruct (outcome m) as [a|x]; [destruct (f a)|]; cbn; rewrite ?app_nil_r; reflexivity.
Qed.

Lemma outcome_bind {E X A B} (m : Run E X A) (f : A -> Run E X B) :
  outcome (m ≫= f) = match outcome m with Return a => outcome (f a) | Throw x => Throw x end.
Proof.
  unfold mbind, run_bind.
  destruct (outcome m) as [a|x]; [destruct (f a)|]; reflexivity.
Qed.

Lemma effects_catch {E X A} (m : Run E X A) (h : X -> Run E X A) :
  effects (catch m h)
  = effects m ++ match outcome m with Return _ => [] | Throw x => effects (h x) end.
Proof.
  unfold catch.
  destruct (outcome m) as [a|x]; [|destruct (h x)]; cbn; rewrite ?app_nil_r; reflexivity.
Qed.

Lemma outcome_catch {E X A} (m : Run E X A) (h : X -> Run E X A) :
  outcome (catch m h) = match outcome m with Return a => Return a | Throw x => outcome (h x) end.
Proof.
  unfold catch.
  destruct (outcome m) as [a|x] eqn:H; [exact H|destruct (h x); reflexivity].
Qed.

Lemma effects_all {E X A} (ms : list (Run E X A)) :
  effects (all ms) = flat_map effects ms.
Proof.
  induction ms as [|m ms IH]; [reflexivity|].
  cbn [all flat_map]. rewrite <- IH. destruct (all ms); reflexivity.
Qed.

Lemma outcome_all_cons {E X A} (m : Run E X A) (ms : list (Run E X A)) :
  outcome (all (m :: ms))
  = match outcome m, outcome (all ms) with
    | Throw x, _ => Throw x
    | Return a, Return l => Return (a :: l)
    | Return _, Throw x => Throw x
    end.
Proof. cbn [all]. destruct (all ms); reflexivity. Qed.

Lemma all_returns {E X A} (ms : list (Run E X A)) (l : list A) :
  Forall2 (fun m a => outcome m = Return a) ms l -> outcome (all ms) = Return l.
Proof.
  induction 1 as [|m a ms l H _ IH]; [reflexivity|].
  rewrite outcome_all_cons, H, IH. reflexivity.
Qed.

Lemma all_throws {E X A} (ms : list (Run E X A)) (x : X) :
  outcome (all ms) = Throw x -> exists m, In m ms /\ outcome m = Throw x.
Proof.
  induction ms as [|m ms IH]; [discriminate|].
  rewrite outcome_all_cons.
  destruct (outcome m) as [a|y] eqn:Hm.
  - destruct (outcome (all ms)) as [l|y]; [discriminate|].
    intros [= ->]. destruct (IH eq_refl) as (m' & Hin & H').
    exists m'. split; [right; exact Hin|exact H'].
  - intros [= ->]. exists m. split; [left; reflexivity|exact Hm].
Qed.

Lemma all_fails {E X A} (ms : list (Run E X A)) (m : Run E X A) (x : X) :
  In m ms -> outcome m = Throw x -> exists y, outcome (all ms) = Throw y.
Proof.
  induction ms as [|m' ms IH]; [intros []|].
  intros [->|Hin] H; rewrite outcome_all_cons.
  - rewrite H. eexists; reflexivity.
  - destruct (IH Hin H) as (y & ->). destruct (outcome m'); eexists; reflexivity.
Qed.


Lemma filter_map_all {A B} (p : B -> bool) (f : A -> B) (l : list A) :
  (forall a, p (f a) = true) -> List.filter p (map f l) = map f l.
Proof.
  intros H. induction l as [|a l IH]; [reflexivity|].
  cbn. rewrite H, IH. reflexivity.
Qed.

Lemma filter_map_none {A B} (p : B -> bool) (f : A -> B) (l : list A) :
  (forall a, p (f a) = false) -> List.filter p (map f l) = [].
Proof.
  intros H. induction l as [|a l IH]; [reflexivity|].
  cbn. rewrite H, IH. reflexivity.
Qed.


Lemma filter_filter_of {A} (p q : A -> bool) (l : list A) :
  (forall a, p a = true -> q a = true) ->
  List.filter p (List.filter q l) = List.filter p l.
Proof.
  intros H. induction l as [|a l IH]; [reflexivity|].
  cbn. destruct (q a) eqn:Hq; cbn; rewrite IH.
  - reflexivity.
  - destruct (p a) eqn:Hp; [|reflexivity]. rewrite (H a Hp) in Hq. discriminate.
Qed.



Section Requests.

Variable number : Type.
Variable toString : number -> string.





End Requests.



Section WithPrimitives.

Variable number : Type.
Variable toString : number -> string.
Variable stringify stringify_indented : Payload -> string.
Variable stringify_event : LambdaHandlerEvent -> string.
Variable toLowerCase : string -> string.
Variable JSON_parse : string -> Parsed number.

Local Abbreviation handle_batch' := (handle_batch number toString stringify stringify_indented toLowerCase).
Local Abbreviation dispatch' := (dispatch number toString stringify toLowerCase).
Local Abbreviation handle_single' := (handle_single number toString stringify stringify_indented toLowerCase).
Local Abbreviation handle' :=
  (handle number toString stringify stringify_indented stringify_event toLowerCase JSON_parse).
Local Abbreviation handler' :=
  (handler number toString stringify stringify_indented stringify_event toLowerCase JSON_parse).

Ltac run :=
  unfold M;
  repeat (rewrite ?outcome_bind, ?effects_bind;
          cbn [outcome effects log emit throw mret run_ret app]).

Lemma fetch_file_effects w key :
  effects (fetch_file toLowerCase w key)
  = map S3Effect (effects (S3.getFileAsBuffer (s3_service w) (FILES_BUCKET w) key)).
Proof.
  unfold fetch_file, M. rewrite effects_bind. unfold s3, embed. cbn [effects outcome].
  destruct (outcome (S3.getFileAsBuffer _ _ _)); cbn; apply app_nil_r.
Qed.

Lemma fetch_file_outcome w key :
  outcome (fetch_file toLowerCase w key)
  = match outcome (S3.getFileAsBuffer (s3_service w) (FILES_BUCKET w) key) with
    | Return buffer => Return (batch_file toLowerCase key buffer)
    | Throw e => Throw (S3Failure e)
    end.
Proof.
  unfold fetch_file, M. rewrite outcome_bind. unfold s3, embed. cbn [effects outcome].
  destruct (outcome (S3.getFileAsBuffer _ _ _)); reflexivity.
Qed.

Lemma errorHandler_internal x :
  is_internal x = true -> errorHandler stringify x = internal_error_response stringify.
Proof. destruct x; try discriminate; reflexivity. Qed.


Lemma with_sampling_outcome {A} (r : Request number)
    (helper : option (option number) -> option (option number) -> option (option number)
              -> Lambda.Js A) :
  outcome (with_sampling r helper)
  = let call := helper (nullable (temperature r)) (nullable (top_p r))
                       (nullable (max_tokens r)) in
    if sampling_null r && existsb Lambda.is_request (Lambda.effects call) then
      Throw (TypeError "Cannot read properties of null (reading 'toString')")
    else match Lambda.outcome call with
         | Lambda.Return a => Return a
         | Lambda.Throw e => Throw (OcrFailure e)
         end.
Proof.
  unfold with_sampling. cbv zeta. destruct (_ && _); [reflexivity|].
  unfold ocr, embed. cbn [outcome]. destruct (Lambda.outcome _); reflexivity.
Qed.


Lemma call_helper_throws {A} w (r : Request number) no_files
    (helper : string -> option (option number) -> option (option number)
              -> option (option number) -> Lambda.Js A) x :
  outcome (call_helper w r no_files helper) = Throw x -> is_internal x = true.
Proof.
  unfold call_helper, with_prompt.
  assert (Hnull : forall message,
             outcome ((if no_files
                       then throw (OcrFailure (Lambda.Error
                                                 "No files provided for batch processing"))
                       else ocr (Lambda.getBaseUrl (lambda_world w));;
                            throw (TypeError message))
                      : M A) = Throw x -> is_internal x = true).
  { intros message. destruct no_files; [intros [= <-]; reflexivity|].
    run. unfold ocr, embed. cbn [outcome].
    destruct (Lambda.outcome _); intros [= <-]; reflexivity. }
  destruct (prompt_of r) as [|text| |shown]; [apply Hnull| |apply Hnull|apply Hnull].
  rewrite with_sampling_outcome. cbv zeta.
  destruct (_ && _); [intros [= <-]; reflexivity|].
  destruct (Lambda.outcome _); [discriminate|intros [= <-]; reflexivity].
Qed.




Lemma handle_batch_throws w r keys x :
  outcome (handle_batch' w r keys) = Throw x -> is_internal x = true.
Proof.
  unfold handle_batch. run.
  destruct (outcome (all _)) as [files|y] eqn:Hall.
  - run. destruct (outcome (call_helper _ _ _ _)) as [d|e] eqn:Hc; run; [discriminate|].
    intros [= <-]. exact (call_helper_throws _ _ _ _ _ Hc).
  - intros [= <-]. apply all_throws in Hall.
    destruct Hall as (m & Hin & Hm).
    apply in_map_iff in Hin as (key & <- & _).
    rewrite fetch_file_outcome in Hm.
    destruct (outcome (S3.getFileAsBuffer _ _ _)); [discriminate|].
    injection Hm as <-. reflexivity.
Qed.

Lemma dispatch_throws w r key buffer x :
  outcome (dispatch' w r key buffer) = Throw x ->
  is_internal x = true \/ exists m, x = ClientError m 400.
Proof.
  unfold dispatch. cbv zeta.
  destruct (ends_with ".pdf" _); [|destruct (is_image_key _)]; run.
  - destruct (outcome (call_helper _ _ _ _)) as [d|e] eqn:Hc; run; [discriminate|].
    intros [= <-]. left. exact (call_helper_throws _ _ _ _ _ Hc).
  - destruct (outcome (call_helper _ _ _ _)) as [d|e] eqn:Hc; run; [discriminate|].
    intros [= <-]. left. exact (call_helper_throws _ _ _ _ _ Hc).
  - intros [= <-]. right. eexists; reflexivity.
Qed.

Lemma handle_single_throws w r x :
  outcome (handle_single' w r) = Throw x ->
  is_internal x = true \/ exists m, x = ClientError m 400.
Proof.
  unfold handle_single. cbv zeta.
  destruct (negb (truthy (s3Key r))).
  - intros [= <-]. right. eexists; reflexivity.
  - destruct (s3Key r) as [|key|]; [intros [= <-]; left; reflexivity|
                                     |intros [= <-]; left; reflexivity].
    run. unfold s3 at 1, embed. cbn [outcome].
    destruct (outcome (S3.getFileAsBuffer _ _ _)) as [buffer|e].
    + run. destruct (outcome (dispatch' _ _ _ _)) as [p|y] eqn:Hd.
      * run. discriminate.
      * intros [= <-]. exact (dispatch_throws _ _ _ _ _ Hd).
    + intros [= <-]. left. reflexivity.
Qed.

Lemma handle_throws w event x :
  outcome (handle' w event) = Throw x ->
  is_internal x = true \/ exists m, x = ClientError m 400.
Proof.
  unfold handle, parse_body. run.
  destruct (JSON_parse (event_body event)) as [m| |r]; cbn [outcome throw mret run_ret].
  - intros [= <-]. left. reflexivity.
  - intros [= <-]. left. reflexivity.
  - run. destruct (negb (truthy (s3Key r)) && negb (keys_truthy (s3Keys r))); run.
    + intros [= <-]. right. eexists; reflexivity.
    + destruct (sampling_defined r); run;
        (destruct (s3Keys r) as [|keys|];
         [apply handle_single_throws
         |intros H; left; exact (handle_batch_throws _ _ _ _ H)
         |apply handle_single_throws]).
Qed.

Lemma dispatch_returns w r key buffer p :
  outcome (dispatch' w r key buffer) = Return p -> is_result p = true.
Proof.
  unfold dispatch. cbv zeta.
  destruct (ends_with ".pdf" _); [|destruct (is_image_key _)]; run.
  - destruct (outcome (call_helper _ _ _ _)) as [d|e]; run; [|discriminate].
    intros [= <-]. reflexivity.
  - destruct (outcome (call_helper _ _ _ _)) as [d|e]; run; [|discriminate].
    intros [= <-]. reflexivity.
  - discriminate.
Qed.

Lemma handle_single_returns w r res :
  outcome (handle_single' w r) = Return res ->
  exists p, is_result p = true /\ res = getLambdaResponse stringify p.
Proof.
  unfold handle_single. cbv zeta.
  destruct (negb (truthy (s3Key r))); [discriminate|].
  destruct (s3Key r) as [|key|]; [discriminate| |discriminate].
  run. unfold s3 at 1, embed. cbn [outcome].
  destruct (outcome (S3.getFileAsBuffer _ _ _)) as [buffer|e]; [|discriminate].
  run. destruct (outcome (dispatch' _ _ _ _)) as [p|y] eqn:Hd; [|discriminate].
  run. intros [= <-]. exists p. split; [exact (dispatch_returns _ _ _ _ _ Hd)|reflexivity].
Qed.

Lemma handle_batch_returns w r keys res :
  outcome (handle_batch' w r keys) = Return res ->
  exists p, is_result p = true /\ res = getLambdaResponse stringify p.
Proof.
  unfold handle_batch. run.
  destruct (outcome (all _)) as [files|y]; [|discriminate].
  run. destruct (outcome (call_helper _ _ _ _)) as [d|e]; run; [|discriminate].
  intros [= <-]. eexists. split; [|reflexivity]. reflexivity.
Qed.

Lemma handle_returns w event res :
  outcome (handle' w event) = Return res ->
  exists p, is_result p = true /\ res = getLambdaResponse stringify p.
Proof.
  unfold handle, parse_body. run.
  destruct (JSON_parse (event_body event)) as [m| |r]; cbn [outcome throw mret run_ret];
    [discriminate|discriminate|].
  run. destruct (negb (truthy (s3Key r)) && negb (keys_truthy (s3Keys r))); run;
    [discriminate|].
  destruct (sampling_defined r); run;
    (destruct (s3Keys r) as [|keys|];
     [apply handle_single_returns|apply handle_batch_returns|apply handle_single_returns]).
Qed.

Lemma handler_outcome w event :
  outcome (handler' w event)
  = match outcome (handle' w event) with
    | Return res => Return res
    | Throw x => Return (errorHandler stringify x)
    end.
Proof.
  unfold handler. rewrite outcome_catch.
  destruct (outcome (handle' w event)); [reflexivity|]. run. reflexivity.
Qed.

Lemma handler_remote w event :
  List.filter is_remote (effects (handler' w event))
  = List.filter is_remote (effects (handle' w event)).
Proof.
  unfold handler. rewrite effects_catch, List.filter_app.
  destruct (outcome (handle' w event)); [apply app_nil_r|].
  run. cbn. apply app_nil_r.
Qed.

(** After the body has been parsed and a key has been found, what is left
    is the branch for the batch or for the single file; the lines logged
    before it are no remote calls. *)
Lemma handle_parsed w event r :
  JSON_parse (event_body event) = ParsedValue r ->
  truthy (s3Key r) || keys_truthy (s3Keys r) = true ->
  let branch :=
    match s3Keys r with
    | KeyArray keys => handle_batch' w r keys
    | _ => handle_single' w r
    end in
  List.filter is_remote (effects (handle' w event)) = List.filter is_remote (effects branch)
  /\ outcome (handle' w event) = outcome branch.
Proof.
  intros Hp Hk branch. unfold handle, parse_body. rewrite Hp. run.
  replace (negb (truthy (s3Key r)) && negb (keys_truthy (s3Keys r))) with false
    by (destruct (truthy (s3Key r)), (keys_truthy (s3Keys r)); try reflexivity; discriminate Hk).
  run. destruct (sampling_defined r); run; fold branch; cbn [List.filter is_remote];
    split; reflexivity.
Qed.

(** X14.  The handler never throws: every event is answered with a
    response that carries the CORS header, and the response is one of three
    kinds.  Status 200 comes with the JSON of an OCR result; status 400 with
    a [ClientError] and its message; status 500 with the error name
    [InternalServerError] and the generic message, so that no text of an
    internal failure reaches the caller. *)
Theorem handler_always_answers w event :
  exists res,
    outcome (handler' w event) = Return res
    /\ In ("Access-Control-Allow-Origin", "*") (headers res)
    /\ ((statusCode res = 200%N
         /\ exists payload, is_result payload = true /\ body res = stringify payload)
        \/ (statusCode res = 400%N
            /\ exists message, body res = stringify (ErrorPayload "ClientError" message))
        \/ (statusCode res = 500%N
            /\ body res = stringify (ErrorPayload "InternalServerError" generic_message))).
Proof.
  rewrite handler_outcome.
  destruct (outcome (handle' w event)) as [res|x] eqn:H.
  - exists res. split; [reflexivity|].
    destruct (handle_returns _ _ _ H) as (p & Hp & ->).
    split; [left; reflexivity|]. left. split; [reflexivity|].
    exists p. split; [exact Hp|reflexivity].
  - exists (errorHandler stringify x). split; [reflexivity|].
    destruct (handle_throws _ _ _ H) as [Hi|(m & ->)].
    + rewrite (errorHandler_internal _ Hi).
      split; [left; reflexivity|]. right. right. split; reflexivity.
    + split; [left; reflexivity|]. right. left. split; [reflexivity|].
      exists m. reflexivity.
Qed.


(** X16.  A body that is no JSON, or is the JSON [null], is answered with
    status 500 and the generic message, not with a client error; nothing is
    fetched and no OCR request is made. *)
Theorem unreadable_body_is_internal_error w event :
  (exists message, JSON_parse (event_body event) = ParseFailure message)
  \/ JSON_parse (event_body event) = ParsedNull ->
  outcome (handler' w event) = Return (internal_error_response stringify)
  /\ List.filter is_remote (effects (handler' w event)) = [].
Proof.
  intros H. rewrite handler_outcome, handler_remote.
  unfold handle, parse_body. run.
  destruct H as [(m & ->)| ->]; cbn [outcome effects throw]; split; reflexivity.
Qed.



Lemma all_fetch_effects w keys :
  effects (all (map (fetch_file toLowerCase w) keys))
  = map S3Effect
      (flat_map (fun key => effects (S3.getFileAsBuffer (s3_service w) (FILES_BUCKET w) key))
                keys).
Proof.
  rewrite effects_all.
  induction keys as [|key keys IH]; [reflexivity|].
  cbn [map flat_map]. rewrite IH, fetch_file_effects, map_app. reflexivity.
Qed.

Lemma handle_single_run w r key :
  s3Key r = KeyString key -> key <> EmptyString ->
  let fetch := S3.getFileAsBuffer (s3_service w) (FILES_BUCKET w) key in
  List.filter is_remote (effects (handle_single' w r))
  = map S3Effect (effects fetch)
    ++ match outcome fetch with
       | Return buffer => List.filter is_remote (effects (dispatch' w r key buffer))
       | Throw _ => []
       end
  /\ outcome (handle_single' w r)
     = match outcome fetch with
       | Return buffer =>
           match outcome (dispatch' w r key buffer) with
           | Return p => Return (getLambdaResponse stringify p)
           | Throw x => Throw x
           end
       | Throw e => Throw (S3Failure e)
       end.
Proof.
  intros Hkey Hne fetch. unfold handle_single. rewrite Hkey.
  cbn [truthy].
  apply String.eqb_neq in Hne. rewrite Hne. cbn [negb]. cbv zeta. run.
  unfold s3 at 1 2 3, embed. cbn [effects outcome]. fold fetch.
  cbn [List.filter is_remote]. rewrite List.filter_app.
  rewrite (filter_map_all is_remote S3Effect) by reflexivity.
  destruct (outcome fetch) as [buffer|e]; [|split; reflexivity].
  run. cbn [List.filter is_remote]. rewrite List.filter_app.
  destruct (outcome (dispatch' w r key buffer)) as [p|x]; run;
    cbn [List.filter is_remote]; rewrite ?app_nil_r; split; reflexivity.
Qed.



Lemma handle_batch_run w r keys :
  let fetches := all (map (fetch_file toLowerCase w) keys) in
  let call files :=
    call_helper w r (Nat.eqb (length files) 0) (fun text =>
      Lambda.processBatch (option number) (show_value toString) (lambda_world w) files
        (Some text) (Some (grounded_of r))) in
  List.filter is_remote (effects (handle_batch' w r keys))
  = map S3Effect
      (flat_map (fun key => effects (S3.getFileAsBuffer (s3_service w) (FILES_BUCKET w) key))
                keys)
    ++ match outcome fetches with
       | Return files => List.filter is_remote (effects (call files))
       | Throw _ => []
       end
  /\ outcome (handle_batch' w r keys)
     = match outcome fetches with
       | Return files =>
           match outcome (call files) with
           | Return d => Return (getLambdaResponse stringify (BatchPayload d))
           | Throw x => Throw x
           end
       | Throw x => Throw x
       end.
Proof.
  intros fetches call. subst fetches. unfold handle_batch. run.
  cbn [List.filter is_remote]. rewrite List.filter_app.
  rewrite all_fetch_effects.
  rewrite (filter_map_all is_remote S3Effect) by reflexivity.
  destruct (outcome (all _)) as [files|x]; [|split; reflexivity].
  run. fold (call files). rewrite List.filter_app.
  destruct (outcome (call files)); run; cbn [List.filter is_remote];
    rewrite ?app_nil_r; split; reflexivity.
Qed.






(** X18.  A failure of S3 is an internal error.  When reading one of the
    requested objects fails, the answer is status 500 with the generic
    message, and no request is made to the OCR service. *)
Theorem s3_failure_is_internal_error w event r key e :
  JSON_parse (event_body event) = ParsedValue r ->
  In key (requested_keys r) ->
  outcome (S3.getFileAsBuffer (s3_service w) (FILES_BUCKET w) key) = Throw e ->
  outcome (handler' w event) = Return (internal_error_response stringify)
  /\ List.filter is_ocr_request (effects (handler' w event)) = [].
Proof.
  intros Hp Hin He.
  rewrite handler_outcome.
  rewrite <- (filter_filter_of is_ocr_request is_remote)
    by (intros [| | |]; cbn; congruence).
  rewrite handler_remote.
  assert (Hk : truthy (s3Key r) || keys_truthy (s3Keys r) = true).
  { unfold requested_keys in Hin.
    destruct (s3Keys r); try apply orb_true_r.
    unfold truthy. destruct (s3Key r) as [|k|]; [destruct Hin| |destruct Hin].
    destruct (String.eqb k EmptyString); [destruct Hin|reflexivity]. }
  destruct (handle_parsed w event r Hp Hk) as (E & O). rewrite E, O.
  assert (Hsingle :
            (forall keys, s3Keys r <> KeyArray keys) ->
            match outcome (handle_single' w r) with
            | Return res => @Return Thrown _ res
            | Throw x => Return (errorHandler stringify x)
            end = Return (internal_error_response stringify)
            /\ List.filter is_ocr_request
                 (List.filter is_remote (effects (handle_single' w r))) = []).
  { intros Hn. unfold requested_keys in Hin.
    assert (Hin' : In key match s3Key r with
                          | KeyString k => if String.eqb k EmptyString then [] else [k]
                          | _ => []
                          end).
    { destruct (s3Keys r) as [|keys|]; [exact Hin|exfalso; exact (Hn keys eq_refl)|exact Hin]. }
    destruct (s3Key r) as [|k|] eqn:Hkey; [destruct Hin'| |destruct Hin'].
    destruct (String.eqb_spec k EmptyString) as [|Hne]; [destruct Hin'|].
    destruct Hin' as [->|[]].
    destruct (handle_single_run w r key Hkey Hne) as (E1 & O1).
    rewrite E1, O1, He. split; [reflexivity|].
    rewrite app_nil_r. apply filter_map_none. reflexivity. }
  destruct (s3Keys r) as [|keys|] eqn:Hs;
    [apply Hsingle; discriminate| |apply Hsingle; discriminate].
  unfold requested_keys in Hin. rewrite Hs in Hin.
  destruct (handle_batch_run w r keys) as (E1 & O1).
  destruct (all_fails (map (fetch_file toLowerCase w) keys) (fetch_file toLowerCase w key)
              (S3Failure e)) as (y & Hy).
  { apply in_map. exact Hin. }
  { rewrite fetch_file_outcome, He. reflexivity. }
  rewrite E1. rewrite Hy in *. split.
  - destruct (outcome (handle_batch' w r keys)) as [res|x] eqn:Hh; [discriminate O1|].
    rewrite (errorHandler_internal x); [reflexivity|].
    exact (handle_batch_throws _ _ _ _ Hh).
  - rewrite app_nil_r. apply filter_map_none. reflexivity.
Qed.





Lemma after_last_slash_from_plain s :
  forall acc,
    Deploy.has_slash s = false ->
    Deploy.after_last_slash_from acc s = acc +:+ s.
Proof.
  unfold Deploy.has_slash.
  induction s as [|c s IH]; intros acc H; cbn [Deploy.after_last_slash_from].
  - symmetry. apply DeployMore.append_empty_r.
  - apply negb_false_iff in H. cbn [all_chars] in H.
    apply andb_true_iff in H as (Hc & Hs). apply negb_true_iff in Hc. rewrite Hc.
    rewrite IH by (apply negb_false_iff; exact Hs).
    apply DeployMore.append_assoc.
Qed.

Lemma after_last_slash_from_slash p s :
  forall acc,
    Deploy.after_last_slash_from acc (p +:+ String "/" s)
    = Deploy.after_last_slash_from EmptyString s.
Proof.
  induction p as [|c p IH]; intros acc.
  - reflexivity.
  - change (String c p +:+ String "/" s) with (String c (p +:+ String "/" s)).
    cbn [Deploy.after_last_slash_from]. destruct (is_slash c); apply IH.
Qed.

(** X24.  The name under which a file of a batch is posted is the part of
    its key after the last slash: a key without a slash is its own name, the
    folders of a key are dropped, and a key that ends with a slash keeps its
    whole text as the name.  So the name of a non-empty key is not empty,
    and two keys that differ only in their folders are posted under the same
    name. *)
Theorem batch_file_name_is_last_segment key buffer :
  let name := Lambda.filename (batch_file toLowerCase key buffer) in
  (Deploy.has_slash key = false -> name = key)
  /\ (forall folder base,
        key = folder +:+ "/" +:+ base ->
        Deploy.has_slash base = false -> base <> EmptyString -> name = base)
  /\ (forall folder, key = folder +:+ "/" -> name = key)
  /\ (key <> EmptyString -> name <> EmptyString).
Proof.
  cbv zeta. unfold batch_file. cbn [Lambda.filename]. unfold Deploy.after_last_slash.
  split; [|split; [|split]].
  - intros H. rewrite (after_last_slash_from_plain key EmptyString H).
    change (EmptyString +:+ key) with key. destruct (String.eqb key EmptyString); reflexivity.
  - intros folder base -> Hb Hne.
    change (folder +:+ "/" +:+ base) with (folder +:+ String "/" base).
    rewrite after_last_slash_from_slash, (after_last_slash_from_plain base EmptyString Hb).
    change (EmptyString +:+ base) with base.
    apply String.eqb_neq in Hne. rewrite Hne. reflexivity.
  - intros folder ->.
    change (folder +:+ "/") with (folder +:+ String "/" EmptyString).
    rewrite after_last_slash_from_slash. reflexivity.
  - intros Hne.
    destruct (String.eqb_spec (Deploy.after_last_slash_from EmptyString key) EmptyString)
      as [_|H]; assumption.
Qed.



Lemma call_helper_no_files w (r : Request number) :
  call_helper w r true (fun text =>
    Lambda.processBatch (option number) (show_value toString) (lambda_world w) []
      (Some text) (Some (grounded_of r)))
  = mkRun [] (Throw (OcrFailure (Lambda.Error "No files provided for batch processing"))).
Proof.
  unfold call_helper, with_prompt.
  destruct (prompt_of r) as [|text| |shown]; [reflexivity| |reflexivity|reflexivity].
  unfold with_sampling. cbv zeta.
  change (Lambda.processBatch (option number) (show_value toString) (lambda_world w) []
            (Some text) (Some (grounded_of r)) (nullable (temperature r))
            (nullable (top_p r)) (nullable (max_tokens r)))
    with (Lambda.mkJs (A := Lambda.MixedBatchResponse) []
            (Lambda.Throw (Lambda.Error "No files provided for batch processing"))).
  cbn [Lambda.effects existsb]. rewrite andb_false_r. reflexivity.
Qed.

(** X23.  An empty array of keys passes the validation, since an array is
    truthy, and is rejected only by [processBatch]: the answer is the
    generic status 500, not a client error, and nothing is read or
    posted. *)
Theorem empty_batch_is_internal_error w event r :
  JSON_parse (event_body event) = ParsedValue r ->
  s3Keys r = KeyArray [] ->
  outcome (handler' w event) = Return (internal_error_response stringify)
  /\ List.filter is_remote (effects (handler' w event)) = [].
Proof.
  intros Hp Hs.
  rewrite handler_outcome, handler_remote.
  destruct (handle_parsed w event r Hp) as (E & O).
  { rewrite Hs. apply orb_true_r. }
  rewrite Hs in E, O. rewrite E, O.
  destruct (handle_batch_run w r []) as (E1 & O1).
  cbn [map all outcome length Nat.eqb flat_map app] in E1, O1.
  rewrite call_helper_no_files in E1, O1.
  rewrite E1, O1. split; reflexivity.
Qed.

End WithPrimitives.


Lemma s3_failure_is_internal_error_witness :
  outcome (sample_handler
             (ParsedValue (sample_request NoKey (KeyArray ["a/scan.pdf"; "missing.png"]))))
  = Return (internal_error_response sample_stringify).
Proof.
  apply (s3_failure_is_internal_error nat (fun _ => "1") sample_stringify sample_stringify
           event_body (fun s => s)
           (fun _ => ParsedValue (sample_request NoKey (KeyArray ["a/scan.pdf"; "missing.png"])))
           sample_world sample_event _ "missing.png"
           (S3.S3ServiceError S3.FILE_NOT_FOUND
              "File not found: The specified key does not exist."
              (S3.ErrorObj "NoSuchKey" "The specified key does not exist."))
           eq_refl).
  - right. left. reflexivity.
  - reflexivity.
Defined.






Lemma empty_batch_is_internal_error_witness :
  outcome (sample_handler (ParsedValue (sample_request (KeyString "b.png") (KeyArray []))))
  = Return (internal_error_response sample_stringify).
Proof.
  apply (empty_batch_is_internal_error nat (fun _ => "1") sample_stringify
           sample_stringify event_body (fun s => s)
           (fun _ => ParsedValue (sample_request (KeyString "b.png") (KeyArray [])))
           sample_world sample_event _ eq_refl eq_refl).
Defined.

Lemma batch_file_name_is_last_segment_witness :
  Lambda.filename (batch_file (fun s => s) "2024/05/scan.pdf" []) = "scan.pdf".
Proof.
  destruct (batch_file_name_is_last_segment (fun s => s) "2024/05/scan.pdf" [])
    as (_ & H & _).
  apply (H "2024/05" "scan.pdf"); [reflexivity|reflexivity|discriminate].
Defined.

Lemma unreadable_body_is_internal_error_witness :
  outcome (sample_handler ParsedNull) = Return (internal_error_response sample_stringify).
Proof.
  apply (unreadable_body_is_internal_error nat (fun _ => "1") sample_stringify sample_stringify
           event_body (fun s => s) (fun _ => ParsedNull) sample_world sample_event).
  right. reflexivity.
Defined.

End HandlerFacts.

(** ** Facts about moving an object *)

Module S3MoveFacts.
Import Eff S3Move.

Ltac run :=
  unfold Io;
  repeat (rewrite ?HandlerFacts.outcome_bind, ?HandlerFacts.effects_bind,
                  ?HandlerFacts.outcome_catch, ?HandlerFacts.effects_catch;
          cbn [outcome effects send emit throw invalid_input mret run_ret app fst snd]).

(** The copy, the delete and the signing, spelled out. *)
Lemma copy_then_delete_run w sb sk db dk p :
  effects (copy_then_delete w sb sk db dk p)
  = metadata_effects w sb sk p ++ copy_events w sb sk db dk p
  /\ outcome (copy_then_delete w sb sk db dk p)
     = match copy_object w (copy_command w sb sk db dk p) with
       | S3.Rejected e => Throw e
       | S3.Resolved _ =>
           match delete_object w sb sk with
           | S3.Rejected e => Throw e
           | S3.Resolved _ =>
               match get_signed_url w db dk 3600 with
               | S3.Rejected e => Throw e
               | S3.Resolved url =>
                   Return {| sourceKey := sk; destinationKey := dk; destinationUrl := url |}
               end
           end
       end.
Proof.
  unfold copy_then_delete, metadata_effects, copy_events, copy_command, read_metadata.
  destruct p; run.
  - destruct (get_object w sb sk) as [o|e]; run;
      (destruct (copy_object w _) as [[]|e1]; run; [|split; reflexivity]);
      (destruct (delete_object w sb sk) as [[]|e2]; run; [|split; reflexivity]);
      (destruct (get_signed_url w db dk 3600) as [url|e3]; run; split; reflexivity).
  - destruct (copy_object w _) as [[]|e1]; run; [|split; reflexivity].
    destruct (delete_object w sb sk) as [[]|e2]; run; [|split; reflexivity].
    destruct (get_signed_url w db dk 3600) as [url|e3]; run; split; reflexivity.
Qed.

Lemma moveFileToBucket_cases w sb sk db dko po :
  let r := moveFileToBucket w sb sk db dko po in
  let inner := copy_then_delete w sb sk db (or_else dko sk) (default true po) in
  if bucket_move_valid sb sk db then
    effects r = effects inner
    /\ outcome r = match outcome inner with
                   | Return res => Return res
                   | Throw e => Throw (S3.formatS3Error e)
                   end
  else effects r = [] /\ exists e, outcome r = Throw e.
Proof.
  cbv zeta. unfold bucket_move_valid, moveFileToBucket, validateInputs, S3.validateInputs.
  destruct (String.eqb sb EmptyString); [cbn; split; [reflexivity|eexists; reflexivity]|].
  destruct (String.eqb sk EmptyString); [cbn; split; [reflexivity|eexists; reflexivity]|].
  destruct (String.eqb db EmptyString); [cbn; split; [reflexivity|eexists; reflexivity]|].
  cbn [negb andb]. run.
  destruct (outcome (copy_then_delete _ _ _ _ _ _)); run; rewrite ?app_nil_r;
    split; reflexivity.
Qed.

Lemma moveFileToFolder_cases w b sk folder newName po :
  let r := moveFileToFolder w b sk folder newName po in
  let inner := copy_then_delete w b sk b (folder_destination sk folder newName)
                 (default true po) in
  if folder_move_valid b sk folder newName then
    effects r = effects inner
    /\ outcome r = match outcome inner with
                   | Return res => Return res
                   | Throw e => Throw (S3.formatS3Error e)
                   end
  else effects r = [] /\ exists e, outcome r = Throw e.
Proof.
  cbv zeta. unfold folder_move_valid, moveFileToFolder, validateInputs, S3.validateInputs.
  fold (moved_name sk newName). fold (folder_destination sk folder newName).
  destruct (String.eqb b EmptyString); [cbn; split; [reflexivity|eexists; reflexivity]|].
  destruct (String.eqb sk EmptyString); [cbn; split; [reflexivity|eexists; reflexivity]|].
  destruct (String.eqb folder EmptyString); [cbn; split; [reflexivity|eexists; reflexivity]|].
  destruct (String.eqb (moved_name sk newName) EmptyString);
    [cbn; split; [reflexivity|eexists; reflexivity]|].
  destruct (String.eqb sk (folder_destination sk folder newName));
    [cbn; split; [reflexivity|eexists; reflexivity]|].
  cbn [negb andb]. run.
  destruct (outcome (copy_then_delete _ _ _ _ _ _)); run; rewrite ?app_nil_r;
    split; reflexivity.
Qed.

Lemma bucket_move_valid_of sb sk db :
  sb <> EmptyString -> sk <> EmptyString -> db <> EmptyString ->
  bucket_move_valid sb sk db = true.
Proof.
  intros H1 H2 H3. unfold bucket_move_valid.
  apply String.eqb_neq in H1, H2, H3. rewrite H1, H2, H3. reflexivity.
Qed.

Lemma delete_in_events w sb sk db dk p b k :
  In (SendDeleteObject b k) (metadata_effects w sb sk p ++ copy_events w sb sk db dk p) ->
  b = sb /\ k = sk
  /\ copy_object w (copy_command w sb sk db dk p) = S3.Resolved tt
  /\ In (SendCopyObject (copy_command w sb sk db dk p))
        (metadata_effects w sb sk p ++ copy_events w sb sk db dk p).
Proof.
  intros H. apply in_app_or in H as [H|H].
  - exfalso. unfold metadata_effects in H. destruct p; [|destruct H].
    destruct H as [H|H]; [discriminate H|].
    destruct (get_object w sb sk); [destruct H|].
    destruct H as [H|[]]. discriminate H.
  - unfold copy_events in H. cbv zeta in H. destruct H as [H|H]; [discriminate H|].
    destruct (copy_object w (copy_command w sb sk db dk p)) as [[]|e] eqn:Hc; [|destruct H].
    assert (Hd : b = sb /\ k = sk).
    { destruct H as [H|H]; [injection H as <- <-; split; reflexivity|].
      destruct (delete_object w sb sk); [|destruct H].
      destruct H as [H|[]]. discriminate H. }
    destruct Hd as (-> & ->). repeat split.
    apply in_or_app. right. unfold copy_events. cbv zeta. left. reflexivity.
Qed.

Lemma one_delete_in_events w sb sk db dk p :
  length (List.filter is_delete (metadata_effects w sb sk p ++ copy_events w sb sk db dk p))
  <= 1.
Proof.
  rewrite List.filter_app, length_app.
  unfold metadata_effects, copy_events. cbv zeta.
  destruct p; [destruct (get_object w sb sk)|];
    (destruct (copy_object w _) as [[]|e1]; [destruct (delete_object w sb sk)|]);
    cbn; lia.
Qed.

(** X25.  [moveFileToBucket] on valid input.  The commands it sends are the
    read of the metadata when it is to be preserved, then the copy, then the
    delete of the source when the copy has resolved, then the signing of a
    URL when the delete has resolved.  A failed read of the metadata is
    logged and the copy is sent all the same, with directive REPLACE and no
    metadata.  The move returns exactly when copy, delete and signing all
    resolve; when only the signing fails, the caller gets an error although
    the source has been deleted. *)
Theorem moveFileToBucket_copies_then_deletes w sb sk db dko po :
  sb <> EmptyString -> sk <> EmptyString -> db <> EmptyString ->
  let dk := or_else dko sk in
  let p := default true po in
  let r := moveFileToBucket w sb sk db dko po in
  effects r = metadata_effects w sb sk p ++ copy_events w sb sk db dk p
  /\ (forall e, po <> Some false -> get_object w sb sk = S3.Rejected e ->
        In (SendCopyObject {| Bucket := db; Key := dk; CopySource := sb +:+ "/" +:+ sk;
                              Metadata := None; ContentType := None;
                              MetadataDirective := "REPLACE" |})
           (effects r))
  /\ (forall res,
        outcome r = Return res <->
        copy_object w (copy_command w sb sk db dk p) = S3.Resolved tt
        /\ delete_object w sb sk = S3.Resolved tt
        /\ exists url, get_signed_url w db dk 3600 = S3.Resolved url
                       /\ res = {| sourceKey := sk; destinationKey := dk;
                                   destinationUrl := url |})
  /\ (forall e,
        copy_object w (copy_command w sb sk db dk p) = S3.Resolved tt ->
        delete_object w sb sk = S3.Resolved tt ->
        get_signed_url w db dk 3600 = S3.Rejected e ->
        outcome r = Throw (S3.formatS3Error e)
        /\ In (SendDeleteObject sb sk) (effects r)).
Proof.
  intros H1 H2 H3 dk p r.
  pose proof (moveFileToBucket_cases w sb sk db dko po) as Hc. cbv zeta in Hc.
  rewrite (bucket_move_valid_of _ _ _ H1 H2 H3) in Hc. destruct Hc as (E & O).
  destruct (copy_then_delete_run w sb sk db dk p) as (E1 & O1).
  fold dk p in E, O. fold r in E, O. rewrite E1 in E. rewrite O1 in O. clear E1 O1.
  split; [exact E|]. split; [|split].
  - intros e Hp Hg. rewrite E. apply in_or_app. right.
    unfold copy_events, copy_command, read_metadata. cbv zeta.
    assert (Hpt : p = true).
    { subst p. destruct po as [[|]|]; [reflexivity|contradiction|reflexivity]. }
    rewrite Hpt, Hg. left. reflexivity.
  - intros res. rewrite O.
    destruct (copy_object w _) as [[]|e1];
      [|split; [discriminate|intros (H & _); discriminate H]].
    destruct (delete_object w sb sk) as [[]|e2];
      [|split; [discriminate|intros (_ & H & _); discriminate H]].
    destruct (get_signed_url w db dk 3600) as [url|e3].
    + split.
      * intros [= <-]. repeat split. exists url. split; reflexivity.
      * intros (_ & _ & url' & [= <-] & ->). reflexivity.
    + split; [discriminate|]. intros (_ & _ & url' & H & _). discriminate H.
  - intros e Hcopy Hdel Hsign. rewrite O, E, Hcopy, Hdel, Hsign. split; [reflexivity|].
    apply in_or_app. right. unfold copy_events. cbv zeta. rewrite Hcopy.
    right. left. reflexivity.
Qed.

(** X26.  Neither move deletes anything but its source, and only after its
    copy: whatever the inputs and the answers of the service, a delete that
    [moveFileToBucket] or [moveFileToFolder] sends is for the source bucket
    and key, a copy was sent before it and has resolved, and there is at
    most one delete. *)
Theorem source_is_deleted_only_after_copy w sb sk db dko folder newName po :
  let r1 := moveFileToBucket w sb sk db dko po in
  let r2 := moveFileToFolder w sb sk folder newName po in
  (forall b k,
     In (SendDeleteObject b k) (effects r1) ->
     b = sb /\ k = sk
     /\ exists input, In (SendCopyObject input) (effects r1)
                      /\ copy_object w input = S3.Resolved tt)
  /\ (forall b k,
        In (SendDeleteObject b k) (effects r2) ->
        b = sb /\ k = sk
        /\ exists input, In (SendCopyObject input) (effects r2)
                         /\ copy_object w input = S3.Resolved tt)
  /\ length (List.filter is_delete (effects r1)) <= 1
  /\ length (List.filter is_delete (effects r2)) <= 1.
Proof.
  cbv zeta.
  pose proof (moveFileToBucket_cases w sb sk db dko po) as H1. cbv zeta in H1.
  pose proof (moveFileToFolder_cases w sb sk folder newName po) as H2. cbv zeta in H2.
  destruct (copy_then_delete_run w sb sk db (or_else dko sk) (default true po)) as (E1 & _).
  destruct (copy_then_delete_run w sb sk sb (folder_destination sk folder newName)
              (default true po)) as (E2 & _).
  rewrite E1 in H1. rewrite E2 in H2.
  assert (G1 : effects (moveFileToBucket w sb sk db dko po) = []
               \/ effects (moveFileToBucket w sb sk db dko po)
                  = metadata_effects w sb sk (default true po)
                    ++ copy_events w sb sk db (or_else dko sk) (default true po)).
  { destruct (bucket_move_valid sb sk db); [right|left]; apply H1. }
  assert (G2 : effects (moveFileToFolder w sb sk folder newName po) = []
               \/ effects (moveFileToFolder w sb sk folder newName po)
                  = metadata_effects w sb sk (default true po)
                    ++ copy_events w sb sk sb (folder_destination sk folder newName)
                         (default true po)).
  { destruct (folder_move_valid sb sk folder newName); [right|left]; apply H2. }
  split; [|split; [|split]].
  - intros b k Hin. destruct G1 as [G|G]; rewrite G in *; [destruct Hin|].
    destruct (delete_in_events _ _ _ _ _ _ _ _ Hin) as (-> & -> & Hc & Hi).
    repeat split. eexists. split; [exact Hi|exact Hc].
  - intros b k Hin. destruct G2 as [G|G]; rewrite G in *; [destruct Hin|].
    destruct (delete_in_events _ _ _ _ _ _ _ _ Hin) as (-> & -> & Hc & Hi).
    repeat split. eexists. split; [exact Hi|exact Hc].
  - destruct G1 as [-> | ->]; [cbn; lia|apply one_delete_in_events].
  - destruct G2 as [-> | ->]; [cbn; lia|apply one_delete_in_events].
Qed.

(** X27.  [moveFileToBucket] does not compare source and destination.  When
    the destination bucket is the source bucket and the destination key is
    missing, empty or the source key, the object is copied onto itself and,
    once that copy has resolved, the very object the copy has written is
    deleted. *)
Theorem moveFileToBucket_onto_itself w b k dko po :
  b <> EmptyString -> k <> EmptyString ->
  or_else dko k = k ->
  copy_object w (copy_command w b k b k (default true po)) = S3.Resolved tt ->
  exists pre post input,
    effects (moveFileToBucket w b k b dko po)
    = pre ++ [SendCopyObject input; SendDeleteObject b k] ++ post
    /\ Bucket input = b /\ Key input = k
    /\ CopySource input = b +:+ "/" +:+ k.
Proof.
  intros Hb Hk Hd Hc.
  pose proof (moveFileToBucket_cases w b k b dko po) as H. cbv zeta in H.
  rewrite (bucket_move_valid_of _ _ _ Hb Hk Hb) in H. destruct H as (E & _).
  destruct (copy_then_delete_run w b k b (or_else dko k) (default true po)) as (E1 & _).
  rewrite E, E1, Hd. unfold copy_events. cbv zeta. rewrite Hc.
  exists (metadata_effects w b k (default true po)).
  eexists. exists (copy_command w b k b k (default true po)).
  split; [reflexivity|]. repeat split.
Qed.

(** X28.  [moveFileToFolder] never copies an object onto itself.  Every
    copy it sends stays in the bucket, comes from the source key, and goes
    to a key that differs from the source key: the folder, with a slash put
    after it when it has none, followed by the new name or else the last
    segment of the source key, which is not empty.  When that key is the
    source key, or no name can be found, nothing is sent and the move
    throws. *)
Theorem moveFileToFolder_never_copies_onto_source w b sk folder newName po :
  let r := moveFileToFolder w b sk folder newName po in
  let dk := folder_destination sk folder newName in
  (forall input,
     In (SendCopyObject input) (effects r) ->
     Bucket input = b /\ CopySource input = b +:+ "/" +:+ sk
     /\ Key input = dk /\ Key input <> sk
     /\ moved_name sk newName <> EmptyString)
  /\ (sk = dk \/ moved_name sk newName = EmptyString ->
      effects r = [] /\ exists e, outcome r = Throw e).
Proof.
  cbv zeta.
  pose proof (moveFileToFolder_cases w b sk folder newName po) as H. cbv zeta in H.
  destruct (copy_then_delete_run w b sk b (folder_destination sk folder newName)
              (default true po)) as (E1 & _).
  rewrite E1 in H. clear E1.
  destruct (folder_move_valid b sk folder newName) eqn:Hv.
  - destruct H as (E & _). unfold folder_move_valid in Hv.
    repeat (apply andb_true_iff in Hv as (Hv & ?)).
    repeat match goal with
           | H : negb _ = true |- _ => apply negb_true_iff, String.eqb_neq in H
           end.
    split.
    + intros input Hin. rewrite E in Hin. apply in_app_or in Hin as [Hin|Hin].
      * exfalso. unfold metadata_effects in Hin. destruct (default true po); [|destruct Hin].
        destruct Hin as [Hin|Hin]; [discriminate Hin|].
        destruct (get_object w b sk); [destruct Hin|].
        destruct Hin as [Hin|[]]. discriminate Hin.
      * unfold copy_events in Hin. cbv zeta in Hin.
        assert (Hi : input = copy_command w b sk b (folder_destination sk folder newName)
                               (default true po)).
        { destruct Hin as [Hin|Hin]; [injection Hin as <-; reflexivity|].
          exfalso. destruct (copy_object w _); [|destruct Hin].
          destruct Hin as [Hin|Hin]; [discriminate Hin|].
          destruct (delete_object w b sk); [|destruct Hin].
          destruct Hin as [Hin|[]]. discriminate Hin. }
        subst input. cbn [Bucket CopySource Key copy_command].
        repeat split; try assumption. intros Heq. symmetry in Heq. contradiction.
    + intros [Heq|Hn]; contradiction.
  - split.
    + intros input Hin. destruct H as (E & _). rewrite E in Hin. destruct Hin.
    + intros _. exact H.
Qed.

Lemma moveFileToBucket_copies_then_deletes_witness :
  outcome (moveFileToBucket sample_world "in" "a/scan.pdf" "out" None None)
  = Throw (S3.formatS3Error (S3.ErrorObj "Error" "Could not load credentials"))
  /\ In (SendDeleteObject "in" "a/scan.pdf")
        (effects (moveFileToBucket sample_world "in" "a/scan.pdf" "out" None None)).
Proof.
  destruct (moveFileToBucket_copies_then_deletes sample_world "in" "a/scan.pdf" "out"
              None None ltac:(discriminate) ltac:(discriminate) ltac:(discriminate))
    as (_ & _ & _ & H).
  exact (H _ eq_refl eq_refl eq_refl).
Defined.

Lemma moveFileToBucket_onto_itself_witness :
  exists pre post input,
    effects (moveFileToBucket sample_world "in" "a/scan.pdf" "in" (Some EmptyString) None)
    = pre ++ [SendCopyObject input; SendDeleteObject "in" "a/scan.pdf"] ++ post
    /\ Bucket input = "in" /\ Key input = "a/scan.pdf"
    /\ CopySource input = "in/a/scan.pdf".
Proof.
  exact (moveFileToBucket_onto_itself sample_world "in" "a/scan.pdf" (Some EmptyString) None
           ltac:(discriminate) ltac:(discriminate) eq_refl eq_refl).
Defined.

End S3MoveFacts.
